(** * BrotherOwlBot: the TornStats adapter and the stats estimators

    A shallow embedding of

    - [src/utils/tornstats_adapter.py]            (module [Adapter]),
    - [backup_utils/stats_estimator.py]           (module [Backup]),
    - [bot_package/src/utils/stats_estimator.py]  (module [BotPackage]),
    - the commands [enemy_stats] and [add_spy] of [bot_package/main.py]
      and [bot_package/src/utils/enemy_stats_bot.py] (module [Commands]),

    over a model of the Python values these files handle (module [Py]).

    - A Python expression evaluates to a result or raises ([pyres]);
      [try]/[except] is a combinator that keeps what the body did before
      it raised.
    - The adapter instance, the event loop's clock, the requests made
      and the log are one [world], threaded through the method bodies.
      The host is a function from the requests made so far and the next
      request to a reply and the clock at its arrival.
    - Python floats are binary64 floats; an int is an integer; a dict is
      its list of items in insertion order.
    - BeautifulSoup, [json.loads] and the C library's [pow] are outside
      the repository and are parameters; of the HTML heuristics the model
      keeps their outcome (the stats found, the name, the level) and
      what the adapter builds from it.
    - The estimators take the ints that the command layer makes with
      [int()] out of its arguments. *)

From Stdlib Require Import ZArith List String Ascii Bool Floats Lia.
From stdpp Require Import base gmap strings pretty.
Import ListNotations.
#[local] Set Warnings "-register-all,-inexact-float".
Open Scope string_scope.
Open Scope Z_scope.

(* ===================================================================== *)
(** * Python values, exceptions and the operators the sources use        *)
(* ===================================================================== *)

Module Py.

(** The subclasses of [Exception] that the modelled code can meet.
    [JSONDecodeError] is caught by name in the adapter; every other
    class only ever meets [except Exception]. *)
Inductive exn_class :=
| TypeError | AttributeError | KeyError | ValueError | JSONDecodeError
| IndexError | ZeroDivisionError | OverflowError | TimeoutError
| ClientError | RuntimeError.

(** An exception object: its class and [str(e)]. *)
Record exn := Exn { exn_cls : exn_class; exn_str : string }.

Definition is_class (c : exn_class) (e : exn) : bool :=
  match c, exn_cls e with
  | TypeError, TypeError | AttributeError, AttributeError
  | KeyError, KeyError | ValueError, ValueError
  | JSONDecodeError, JSONDecodeError | IndexError, IndexError
  | ZeroDivisionError, ZeroDivisionError | OverflowError, OverflowError
  | TimeoutError, TimeoutError | ClientError, ClientError
  | RuntimeError, RuntimeError => true
  | _, _ => false
  end.

(** The outcome of evaluating a Python expression. *)
Inductive pyres (A : Type) : Type :=
| Ret (a : A)
| Raise (e : exn).
Arguments Ret {A} a.
Arguments Raise {A} e.

Definition bindR {A B} (c : pyres A) (k : A -> pyres B) : pyres B :=
  match c with
  | Ret a => k a
  | Raise e => Raise e
  end.

Notation "'let!' x ':=' c 'in' k" := (bindR c (fun x => k))
  (at level 10, x name, c at level 100, k at level 200).

Definition raises_class {A} (c : exn_class) (r : pyres A) : bool :=
  match r with
  | Ret _ => false
  | Raise e => is_class c e
  end.

(** The values of the JSON universe: what [json.loads] produces and what
    the sources build.  A [dict] is its list of items in insertion
    order; a lookup takes the first item with the key. *)
Inductive value :=
| VNone
| VBool (b : bool)
| VInt (n : Z)
| VFloat (f : float)
| VStr (s : string)
| VList (l : list value)
| VDict (items : list (string * value)).

(** [bool(v)], the test of [if v:] and [not v]. *)
Definition truthy (v : value) : bool :=
  match v with
  | VNone => false
  | VBool b => b
  | VInt n => negb (n =? 0)
  | VFloat f => negb (PrimFloat.eqb f 0%float)
  | VStr s => negb (String.eqb s "")
  | VList l => match l with [] => false | _ => true end
  | VDict items => match items with [] => false | _ => true end
  end.

Fixpoint items_get (k : string) (items : list (string * value)) : option value :=
  match items with
  | [] => None
  | (k', v) :: rest => if String.eqb k k' then Some v else items_get k rest
  end.

Definition has_key (k : string) (items : list (string * value)) : bool :=
  match items_get k items with Some _ => true | None => false end.

(** [d[k] = v] on a dict: the value is replaced in place when the key
    exists, the item is appended otherwise. *)
Fixpoint items_set (k : string) (v : value) (items : list (string * value))
  : list (string * value) :=
  match items with
  | [] => [(k, v)]
  | (k', v') :: rest =>
      if String.eqb k k' then (k, v) :: rest else (k', v') :: items_set k v rest
  end.

(** [sub in s] on two strings. *)
Fixpoint str_contains (sub s : string) : bool :=
  String.prefix sub s ||
  match s with
  | EmptyString => false
  | String _ s' => str_contains sub s'
  end.

Definition is_str (k : string) (v : value) : bool :=
  match v with
  | VStr s => String.eqb s k
  | _ => false
  end.

(** [type(v).__name__], as the interpreter's messages quote it. *)
Definition type_name (v : value) : string :=
  match v with
  | VNone => "NoneType"
  | VBool _ => "bool"
  | VInt _ => "int"
  | VFloat _ => "float"
  | VStr _ => "str"
  | VList _ => "list"
  | VDict _ => "dict"
  end.

(** [k in data] for a string [k]: a key test on a dict, an element test
    on a list, a substring test on a string, a [TypeError] elsewhere. *)
Definition py_in (k : string) (data : value) : pyres bool :=
  match data with
  | VDict items => Ret (has_key k items)
  | VList l => Ret (existsb (is_str k) l)
  | VStr s => Ret (str_contains k s)
  | _ =>
      Raise (Exn TypeError ("argument of type '" ++ type_name data ++ "' is not iterable"))
  end.

(** [str(KeyError(k))]: the key between quotes (the keys that the
    sources look up hold no quote and no escape). *)
Definition key_error (k : string) : exn := Exn KeyError ("'" ++ k ++ "'").

(** [data[k]] for a string [k]. *)
Definition py_getitem (data : value) (k : string) : pyres value :=
  match data with
  | VDict items =>
      match items_get k items with
      | Some v => Ret v
      | None => Raise (key_error k)
      end
  | VList _ => Raise (Exn TypeError "list indices must be integers or slices, not str")
  | VStr _ => Raise (Exn TypeError "string indices must be integers, not 'str'")
  | _ => Raise (Exn TypeError ("'" ++ type_name data ++ "' object is not subscriptable"))
  end.

(** [d.get(k, default)]: only a dict has the method. *)
Definition py_get (d : value) (k : string) (default : value) : pyres value :=
  match d with
  | VDict items =>
      Ret (match items_get k items with Some v => v | None => default end)
  | _ =>
      Raise (Exn AttributeError ("'" ++ type_name d ++ "' object has no attribute 'get'"))
  end.

Definition isinstance_dict (v : value) : bool :=
  match v with
  | VDict _ => true
  | _ => false
  end.

(** A player identifier as the callers pass it: a string (the command
    layer and the test scripts) or an int. *)
Inductive player_id :=
| PidStr (s : string)
| PidInt (n : Z).

(** [str(player_id)], also what an f-string substitutes. *)
Definition py_str (p : player_id) : string :=
  match p with
  | PidStr s => s
  | PidInt n => pretty n
  end.

(** ** Numbers *)

(** [float(n)] for an int: round to nearest even, [OverflowError] when
    the result does not fit. *)
Definition int_to_float (n : Z) : pyres float :=
  match binary_normalize prec emax n 0 false with
  | S754_infinity _ => Raise (Exn OverflowError "int too large to convert to float")
  | sf => Ret (SF2Prim sf)
  end.



Definition Z_to_SF (n : Z) : spec_float :=
  match n with
  | Z0 => S754_zero false
  | Zpos p => S754_finite false p 0
  | Zneg p => S754_finite true p 0
  end.

(** [a / b] on two ints: the correctly rounded quotient. *)
Definition int_truediv (a b : Z) : pyres float :=
  if b =? 0 then Raise (Exn ZeroDivisionError "division by zero")
  else
    match SFdiv prec emax (Z_to_SF a) (Z_to_SF b) with
    | S754_infinity _ =>
        Raise (Exn OverflowError "integer division result too large for a float")
    | sf => Ret (SF2Prim sf)
    end.

(** The numeric reading of a value in arithmetic: an int (a bool is an
    int), a float, or not a number. *)
Inductive number :=
| NInt (n : Z)
| NFloat (f : float).

Definition as_number (v : value) : option number :=
  match v with
  | VBool b => Some (NInt (if b then 1 else 0))
  | VInt n => Some (NInt n)
  | VFloat f => Some (NFloat f)
  | _ => None
  end.

Definition number_to_float (n : number) : pyres float :=
  match n with
  | NInt z => int_to_float z
  | NFloat f => Ret f
  end.

Definition number_is_zero (n : number) : bool :=
  match n with
  | NInt z => z =? 0
  | NFloat f => PrimFloat.eqb f 0%float
  end.

(** [a / b] on two arbitrary values.  Two ints give the correctly
    rounded quotient; otherwise both operands are converted to floats
    first.  The division raises [ZeroDivisionError] exactly when the
    divisor equals zero (an int converts to the float zero only when it
    is zero, so the test is made on the divisor as given). *)
Definition py_truediv (a b : value) : pyres float :=
  match as_number a, as_number b with
  | Some (NInt x), Some (NInt y) => int_truediv x y
  | Some x, Some y =>
      let! fx := number_to_float x in
      let! fy := number_to_float y in
      if number_is_zero y
      then Raise (Exn ZeroDivisionError "float division by zero")
      else Ret (PrimFloat.div fx fy)
  | _, _ =>
      Raise (Exn TypeError ("unsupported operand type(s) for /: '" ++ type_name a
                            ++ "' and '" ++ type_name b ++ "'"))
  end.

(** [a - b] where [a] is a float. *)
Definition py_float_sub (a : float) (b : value) : pyres float :=
  match as_number b with
  | Some y => let! fy := number_to_float y in Ret (PrimFloat.sub a fy)
  | None =>
      Raise (Exn TypeError ("unsupported operand type(s) for -: 'float' and '"
                            ++ type_name b ++ "'"))
  end.

(** [v == 0]. *)
Definition py_eq_zero (v : value) : bool :=
  match as_number v with
  | Some (NInt n) => n =? 0
  | Some (NFloat f) => PrimFloat.eqb f 0%float
  | None => false
  end.

(** The integer and the binary exponent of a finite non-zero float. *)
Definition scaled (s : bool) (m : positive) : Z := if s then Zneg m else Zpos m.

(** [math.floor(x)]. *)
Definition float_floor (x : float) : pyres Z :=
  match Prim2SF x with
  | S754_zero _ => Ret 0
  | S754_finite s m e =>
      Ret (if 0 <=? e then scaled s m * 2 ^ e else scaled s m / 2 ^ (- e))
  | S754_infinity _ =>
      Raise (Exn OverflowError "cannot convert float infinity to integer")
  | S754_nan => Raise (Exn ValueError "cannot convert float NaN to integer")
  end.

(** [round(x)] with one argument: to the nearest int, ties to even. *)
Definition float_round (x : float) : pyres Z :=
  match Prim2SF x with
  | S754_zero _ => Ret 0
  | S754_finite s m e =>
      if 0 <=? e then Ret (scaled s m * 2 ^ e)
      else
        let d := 2 ^ (- e) in
        let q := scaled s m / d in
        let r := scaled s m mod d in
        Ret (if 2 * r <? d then q
             else if d <? 2 * r then q + 1
             else if Z.even q then q else q + 1)
  | S754_infinity _ =>
      Raise (Exn OverflowError "cannot convert float infinity to integer")
  | S754_nan => Raise (Exn ValueError "cannot convert float NaN to integer")
  end.

(** The result of [x ** y] on floats: a float, or a complex number when
    a negative base meets a fractional exponent. *)
Inductive power :=
| PowFloat (f : float)
| PowComplex.

(** [iv ** iw] for an exponent [iw] that is finite, positive and not an
    integer (the sources use the literal [0.65]): the interpreter settles
    the special bases itself and calls the C library's [pow] for the
    rest. *)
Definition float_pow_fractional (libm_pow : float -> float -> float)
  (iv iw : float) : power :=
  if negb (PrimFloat.eqb iv iv) then PowFloat iv
  else if PrimFloat.eqb (PrimFloat.abs iv) infinity then PowFloat (PrimFloat.abs iv)
  else if PrimFloat.eqb iv 0%float then PowFloat 0%float
  else if PrimFloat.ltb iv 0%float then PowComplex
  else if PrimFloat.eqb iv 1%float then PowFloat 1%float
  else PowFloat (libm_pow iv iw).

(** [int(x)] for a float: the integer part, towards zero. *)
Definition float_trunc (x : float) : pyres Z :=
  match Prim2SF x with
  | S754_zero _ => Ret 0
  | S754_finite s m e =>
      Ret (if 0 <=? e then scaled s m * 2 ^ e else Z.quot (scaled s m) (2 ^ (- e)))
  | S754_infinity _ =>
      Raise (Exn OverflowError "cannot convert float infinity to integer")
  | S754_nan => Raise (Exn ValueError "cannot convert float NaN to integer")
  end.

(** [v * m] where [m] is a float: a string and a list refuse to be
    repeated a fractional number of times. *)
Definition py_mul_float (v : value) (m : float) : pyres float :=
  match as_number v with
  | Some x => let! fx := number_to_float x in Ret (PrimFloat.mul fx m)
  | None =>
      match v with
      | VStr _ | VList _ =>
          Raise (Exn TypeError "can't multiply sequence by non-int of type 'float'")
      | _ =>
          Raise (Exn TypeError ("unsupported operand type(s) for *: '" ++ type_name v
                                ++ "' and 'float'"))
      end
  end.

(** ** Membership of several keys, and the strings of f-strings *)

(** [all(key in data for key in keys)]: the tests are made in order and
    stop at the first that fails. *)
Fixpoint all_in (keys : list string) (data : value) : pyres bool :=
  match keys with
  | [] => Ret true
  | key :: rest =>
      let! found := py_in key data in
      if found then all_in rest data else Ret false
  end.

(** The line feed that the sources write as a backslash and an n. *)
Definition nl : string := String (ascii_of_nat 10) EmptyString.

(** The digits of a number, the last digit first, with a comma after
    every third digit that is followed by another. *)
Fixpoint group_thousands (digits : list ascii) (seen : nat) : list ascii :=
  match digits with
  | [] => []
  | c :: rest =>
      match rest with
      | [] => [c]
      | _ =>
          if Nat.eqb seen 2 then c :: ","%char :: group_thousands rest 0
          else c :: group_thousands rest (S seen)
      end
  end.

(** [format(n, ',')] for an int, as in [f"{n:,}"]. *)
Definition format_comma (n : Z) : string :=
  (if n <? 0 then "-" else "") ++
  string_of_list_ascii
    (rev (group_thousands (rev (list_ascii_of_string (pretty (Z.abs n)))) 0)).

(** [f"{v:,}"] for a value: an int and a bool are formatted as ints, a
    float by the interpreter's float formatting ([float_comma]); a
    string refuses the separator and the other types refuse every format
    specification. *)
Definition py_format_comma (float_comma : float -> string) (v : value) : pyres string :=
  match v with
  | VInt n => Ret (format_comma n)
  | VBool b => Ret (if b then "1" else "0")
  | VFloat f => Ret (float_comma f)
  | VStr _ => Raise (Exn ValueError "Cannot specify ',' with 's'.")
  | VNone => Raise (Exn TypeError "unsupported format string passed to NoneType.__format__")
  | VList _ => Raise (Exn TypeError "unsupported format string passed to list.__format__")
  | VDict _ => Raise (Exn TypeError "unsupported format string passed to dict.__format__")
  end.

(** [f"{v}"], that is [str(v)]: a string is itself; [str_other] is the
    interpreter's [str] on floats, lists and dicts. *)
Definition value_str (str_other : value -> string) (v : value) : string :=
  match v with
  | VStr s => s
  | VInt n => pretty n
  | VNone => "None"
  | VBool b => if b then "True" else "False"
  | _ => str_other v
  end.

(** [str.upper()] and [str.capitalize()], within ASCII. *)
Definition ascii_upper (c : ascii) : ascii :=
  let n := nat_of_ascii c in
  if (Nat.leb 97 n && Nat.leb n 122)%bool then ascii_of_nat (n - 32) else c.

Definition ascii_lower (c : ascii) : ascii :=
  let n := nat_of_ascii c in
  if (Nat.leb 65 n && Nat.leb n 90)%bool then ascii_of_nat (n + 32) else c.

Fixpoint str_map (f : ascii -> ascii) (s : string) : string :=
  match s with
  | EmptyString => EmptyString
  | String c s' => String (f c) (str_map f s')
  end.

Definition str_upper (s : string) : string := str_map ascii_upper s.

Definition str_capitalize (s : string) : string :=
  match s with
  | EmptyString => EmptyString
  | String c s' => String (ascii_upper c) (str_map ascii_lower s')
  end.

End Py.

(* ===================================================================== *)
(** * src/utils/tornstats_adapter.py                                     *)
(* ===================================================================== *)

Module Adapter.
Import Py.

(** ** The normalizer (a pure method) *)

(** The dict literal that every conversion branch of the normalizer and
    both HTML strategies build, keys in the order of the source. *)
Definition spy_dict (name level strength defense speed dexterity update_time source : value)
  : value :=
  VDict [("spy",
          VDict [("name", name); ("level", level);
                 ("strength", strength); ("defense", defense);
                 ("speed", speed); ("dexterity", dexterity);
                 ("update_time", update_time); ("source", source)])].

(** The literal of the three conversion branches, read off [fields] with
    [fields.get(key, default)]. *)
Definition api_spy_dict (fields : value) : pyres value :=
  let! name := py_get fields "name" (VStr "Unknown") in
  let! level := py_get fields "level" (VInt 0) in
  let! strength := py_get fields "strength" (VInt 0) in
  let! defense := py_get fields "defense" (VInt 0) in
  let! speed := py_get fields "speed" (VInt 0) in
  let! dexterity := py_get fields "dexterity" (VInt 0) in
  let! update_time := py_get fields "update_time" (VStr "Unknown") in
  Ret (spy_dict name level strength defense speed dexterity update_time
         (VStr "TornStats API")).

(** ['status' in data and data['status'] == 'ok' and 'stats' in data] *)
Definition is_stats_format (data : value) : pyres bool :=
  let! has_status := py_in "status" data in
  if has_status then
    let! status := py_getitem data "status" in
    if is_str "ok" status then py_in "stats" data else Ret false
  else Ret false.

Definition stat_names : list string := ["strength"; "defense"; "speed"; "dexterity"].

Definition _normalize_tornstats_data (data : value) : pyres value :=
  let! has_spy := py_in "spy" data in
  if has_spy then Ret data
  else
    let! has_user := py_in "user" data in
    if has_user then
      let! user_data := py_getitem data "user" in
      api_spy_dict user_data
    else
      let! stats_format := is_stats_format data in
      if stats_format then
        let! stats_data := py_getitem data "stats" in
        api_spy_dict stats_data
      else
        match data with
        | VDict items =>
            if forallb (fun key => has_key key items) stat_names
            then api_spy_dict data
            else Ret data
        | _ => Ret data
        end.

(** ** Predicates on records and on raw documents *)

(** The eight keys of a complete record. *)
Definition spy_keys : list string :=
  ["name"; "level"; "strength"; "defense"; "speed"; "dexterity"; "update_time"; "source"].

(** [v] has a ['spy'] object holding every one of the eight keys. *)
Definition complete (v : value) : bool :=
  match v with
  | VDict items =>
      match items_get "spy" items with
      | Some (VDict spy) => forallb (fun key => has_key key spy) spy_keys
      | _ => false
      end
  | _ => false
  end.

(** A dict that matches none of the four shapes the normalizer detects. *)
Definition unrecognized (items : list (string * value)) : Prop :=
  has_key "spy" items = false /\
  has_key "user" items = false /\
  (items_get "status" items = Some (VStr "ok") -> has_key "stats" items = false) /\
  forallb (fun key => has_key key items) stat_names = false.

(** The record the conversion branches build from a dict of fields. *)
Definition converted (fields : list (string * value)) : value :=
  let field k default :=
    match items_get k fields with Some v => v | None => default end in
  spy_dict (field "name" (VStr "Unknown")) (field "level" (VInt 0))
    (field "strength" (VInt 0)) (field "defense" (VInt 0))
    (field "speed" (VInt 0)) (field "dexterity" (VInt 0))
    (field "update_time" (VStr "Unknown")) (VStr "TornStats API").

(** ** The adapter object, the loop clock, the network and the logger *)

Record cache_entry := CacheEntry { data : value; timestamp : float }.

Inductive session_state := NoSession | OpenSession | ClosedSession.

Inductive log_level := INFO | WARNING | ERROR.

(** The arguments of one [session.get(...)]. *)
Record request := Request {
  url : string;
  headers : list (string * string);
  params : list (string * string);
  cookies : option (list (string * string));
  allow_redirects : bool;
  timeout : Z
}.

(** A response object: [response.status], what [await response.text()]
    and [await response.json(content_type=None)] give, and
    [response.cookies]. *)
Record response := Response {
  status : Z;
  text : pyres string;
  json : pyres value;
  set_cookies : list (string * string)
}.

(** What entering [async with session.get(...)] does: it raises (a
    timeout, a connection error) or binds a response. *)
Inductive reply :=
| Fails (e : exn)
| Responds (r : response).

(** One request as the network saw it, with the loop clock when the
    reply arrived. *)
Record exchange := Exchange { sent : request; got : reply; arrived : float }.

(** The adapter instance ([api_key], [session], [cache]) together with
    what it acts on: the event loop's clock, the requests made so far and
    the records the logger received. *)
Record world := World {
  api_key : option string;
  session : session_state;
  cache : gmap string cache_entry;
  clock : float;
  trace : list exchange;
  logged : list (log_level * string)
}.

Definition set_session (s : session_state) (w : world) : world :=
  World (api_key w) s (cache w) (clock w) (trace w) (logged w).

Definition set_cache (c : gmap string cache_entry) (w : world) : world :=
  World (api_key w) (session w) c (clock w) (trace w) (logged w).

Definition set_clock (t : float) (w : world) : world :=
  World (api_key w) (session w) (cache w) t (trace w) (logged w).

Definition add_exchange (x : exchange) (w : world) : world :=
  World (api_key w) (session w) (cache w) (arrived x) (trace w ++ [x]) (logged w).

Definition add_log (l : log_level) (msg : string) (w : world) : world :=
  World (api_key w) (session w) (cache w) (clock w) (trace w) (logged w ++ [(l, msg)]).

(** A method body: it runs in a world, ends by returning or raising, and
    leaves a world behind in both cases. *)
Definition M (A : Type) : Type := world -> pyres A * world.

Definition ret {A} (a : A) : M A := fun w => (Ret a, w).

Definition bind {A B} (c : M A) (k : A -> M B) : M B :=
  fun w =>
    match c w with
    | (Ret a, w') => k a w'
    | (Raise e, w') => (Raise e, w')
    end.

Definition lift {A} (r : pyres A) : M A := fun w => (r, w).

Notation "x <- c ;; k" := (bind c (fun x => k))
  (at level 100, c at next level, right associativity).
Notation "c ;;; k" := (bind c (fun _ => k))
  (at level 100, right associativity).

(** [try: body / except <classes> as e: handler e] *)
Definition try_except {A} (catches : exn -> bool) (body : M A) (handler : exn -> M A)
  : M A :=
  fun w =>
    match body w with
    | (Raise e, w') => if catches e then handler e w' else (Raise e, w')
    | r => r
    end.

Definition Exception (e : exn) : bool := true.

Definition log (l : log_level) (msg : string) : M unit :=
  fun w => (Ret tt, add_log l msg w).

(** [self.api_key = api_key or os.environ.get('TORNSTATS_API_KEY')], no
    session, an empty cache; [now] is the loop clock at that moment. *)
Definition __init__ (key environ_key : option string) (now : float) : world :=
  World (match key with
         | Some k => if String.eqb k "" then environ_key else Some k
         | None => environ_key
         end)
        NoSession ∅ now [] [].

(** [if not self.api_key] fails for a non-empty string only. *)
Definition usable_key (w : world) : option string :=
  match api_key w with
  | Some k => if String.eqb k "" then None else Some k
  | None => None
  end.

Definition cache_expiry : float := 3600%float.

Definition base_url : string := "https://www.tornstats.com".

Definition ensure_session : M unit :=
  fun w =>
    match session w with
    | OpenSession => (Ret tt, w)
    | _ => (Ret tt, set_session OpenSession w)
    end.

Definition close : M unit :=
  fun w =>
    match session w with
    | OpenSession => (Ret tt, set_session ClosedSession w)
    | _ => (Ret tt, w)
    end.

(** [now - entry['timestamp'] < self.cache_expiry] *)
Definition live (now : float) (entry : cache_entry) : bool :=
  PrimFloat.ltb (PrimFloat.sub now (timestamp entry)) cache_expiry.

Definition get_from_cache (key : string) : M value :=
  fun w =>
    match cache w !! key with
    | Some entry =>
        if live (clock w) entry
        then (Ret (data entry), w)
        else (Ret VNone, set_cache (delete key (cache w)) w)
    | None => (Ret VNone, w)
    end.

(** [self.cache[cache_key] = {'data': d, 'timestamp': loop.time()}] *)
Definition cache_store (key : string) (d : value) : M unit :=
  fun w => (Ret tt, set_cache (<[key := CacheEntry d (clock w)]> (cache w)) w).

(** ** Relations between worlds and readings of replies *)

(** The adapter's own fields are the same in both worlds. *)
Definition same_adapter (w w' : world) : Prop :=
  api_key w' = api_key w /\ session w' = session w /\ cache w' = cache w.

(** What a reply is worth to the JSON strategy: the normalized body of a
    200 response whose body parses to a truthy JSON value that the
    normalizer accepts, nothing otherwise. *)
Definition reply_hit (rep : reply) : option value :=
  match rep with
  | Fails _ => None
  | Responds r =>
      if status r =? 200 then
        match json r with
        | Ret body =>
            if truthy body then
              match _normalize_tornstats_data body with
              | Ret out => Some out
              | Raise _ => None
              end
            else None
        | Raise _ => None
        end
      else None
  end.

(** [body] was the parsed JSON body of a 200 reply among [l]. *)
Definition served_json (l : list exchange) (body : value) : Prop :=
  exists x r, In x l /\ got x = Responds r /\ status r = 200 /\ json r = Ret body.

(** What the JSON strategy hands back: a body some reply of [l] carried,
    as the normalizer returned it. *)
Definition from_json (out : value) (l : list exchange) : Prop :=
  exists body, served_json l body /\ truthy body = true /\
               _normalize_tornstats_data body = Ret out.

(** What the authenticated strategy may hand back when it found an
    embedded literal: a document [json.loads] produced, as the normalizer
    returned it. *)
Definition from_embedded (json_loads : string -> pyres value) (out : value) : Prop :=
  exists literal body, json_loads literal = Ret body /\
                       _normalize_tornstats_data body = Ret out.

(** Where a returned record came from: it is complete, or it is what
    the normalizer made of a JSON body among the replies [l], or of a
    literal embedded in a page. *)
Definition provenance (json_loads : string -> pyres value) (v : value)
  (l : list exchange) : Prop :=
  complete v = true \/ from_json v l \/ from_embedded json_loads v.

(** The lookup of [get_from_cache] read as two functions: the value it
    returns and the cache it leaves. *)
Definition cached_value (key : string) (w : world) : value :=
  match cache w !! key with
  | Some entry => if live (clock w) entry then data entry else VNone
  | None => VNone
  end.

Definition cache_after_lookup (key : string) (w : world) : gmap string cache_entry :=
  match cache w !! key with
  | Some entry => if live (clock w) entry then cache w else delete key (cache w)
  | None => cache w
  end.

(** ** Strings the adapter slices *)

(** The characters [str.strip()] removes, within ASCII. *)
Definition is_space (c : ascii) : bool :=
  let n := Z.of_nat (nat_of_ascii c) in
  ((9 <=? n) && (n <=? 13)) || ((28 <=? n) && (n <=? 32)).

Fixpoint lstrip (s : string) : string :=
  match s with
  | String c s' => if is_space c then lstrip s' else s
  | EmptyString => EmptyString
  end.

Fixpoint rstrip (s : string) : string :=
  match s with
  | String c s' =>
      match rstrip s' with
      | EmptyString => if is_space c then EmptyString else String c EmptyString
      | t => String c t
      end
  | EmptyString => EmptyString
  end.

Definition strip (s : string) : string := rstrip (lstrip s).

(** [s.index(sub, start)]: the position, or [ValueError]. *)
Definition str_index (sub : string) (start : nat) (s : string) : pyres nat :=
  match String.index start sub s with
  | Some i => Ret i
  | None => Raise (Exn ValueError "substring not found")
  end.

(** ** What the HTML heuristics hand back

    BeautifulSoup and the queries made on its documents ([find],
    [find_all], [.text]) are a library outside the repository; the model
    takes the parser and the outcome of the heuristics on a document as
    parameters and keeps what the adapter does with that outcome. *)

(** The locals of [_parse_html_profile] after its three extraction
    methods and the name and level lookups: [data], [name] ([None] or a
    string) and [level]. *)
Record profile_page := ProfilePage {
  page_data : list (string * Z);
  page_name : option string;
  page_level : Z
}.

(** The locals of [_parse_tornstats_spy_html] once a stats container was
    found: [stats] (from [_extract_stats_from_div]), the stripped text of
    the name element if there is one, and [level]. *)
Record spy_page := SpyPage {
  spy_stats : list (string * Z);
  spy_name : option string;
  spy_level : Z
}.

Fixpoint stat_get (k : string) (d : list (string * Z)) (default : Z) : Z :=
  match d with
  | [] => default
  | (k', v) :: rest => if String.eqb k k' then v else stat_get k rest default
  end.

(** [sum(data.values())] *)
Definition stat_sum (d : list (string * Z)) : Z :=
  fold_right (fun kv acc => snd kv + acc) 0 d.

(** [str(data)] of a dict of ints, for the log. *)
Definition stat_repr (d : list (string * Z)) : string :=
  "{" ++ String.concat ", " (map (fun kv => "'" ++ fst kv ++ "': " ++ pretty (snd kv)) d) ++ "}".

(** [for x in xs: <attempt>], where an attempt either returns from the
    enclosing method ([Some v]) or goes on to the next element. *)
Fixpoint first_success {A} (attempt : A -> M (option value)) (xs : list A)
  : M (option value) :=
  match xs with
  | [] => ret None
  | x :: rest =>
      r <- attempt x ;;
      match r with
      | Some v => ret (Some v)
      | None => first_success attempt rest
      end
  end.

(** The end of a method whose loops fell through: [return None]. *)
Definition or_none (r : option value) : value :=
  match r with
  | Some v => v
  | None => VNone
  end.

Section Strategies.

(** The world outside the process: the reply to a request (given the
    requests this adapter made before) and the loop clock when it
    arrives; the HTML parser and heuristics; [json.loads]. *)
Variable net : list exchange -> request -> reply * float.
Variable soup : Type.
Variable BeautifulSoup : string -> pyres soup.
Variable scan_profile : soup -> pyres profile_page.
Variable scan_spy : soup -> pyres (option spy_page).
Variable json_loads : string -> pyres value.

(** The exchange that a request made in world [w] adds to the trace. *)
Definition next_exchange (w : world) (req : request) : exchange :=
  Exchange req (fst (net (trace w) req)) (snd (net (trace w) req)).

(** [async with self.session.get(...) as response] *)
Definition session_get (req : request) : M response :=
  fun w =>
    match session w with
    | OpenSession =>
        match got (next_exchange w req) with
        | Fails e => (Raise e, add_exchange (next_exchange w req) w)
        | Responds r => (Ret r, add_exchange (next_exchange w req) w)
        end
    | NoSession =>
        (Raise (Exn AttributeError "'NoneType' object has no attribute 'get'"), w)
    | ClosedSession => (Raise (Exn RuntimeError "Session is closed"), w)
    end.

Definition api_endpoints (player : string) : list string :=
  [ "https://www.tornstats.com/api/v1/player/" ++ player;
    "https://www.tornstats.com/api/v1/player/" ++ player ++ "/full";
    "https://www.tornstats.com/api/v1/battles/" ++ player ].

(** The part of both loops of [_fetch_json_api] under
    [if response.status == 200:], for the response of [shown]. *)
Definition json_body (shown : string) (response : response) : M (option value) :=
  if status response =? 200 then
    try_except (is_class JSONDecodeError)
      (data <- lift (json response) ;;
       if truthy data then
         log INFO ("Successfully retrieved JSON data from " ++ shown) ;;;
         out <- lift (_normalize_tornstats_data data) ;;
         ret (Some out)
       else ret None)
      (fun _ =>
         log WARNING ("Endpoint " ++ shown ++ " returned non-JSON response") ;;;
         ret None)
  else ret None.

Definition bearer_request (key endpoint : string) : request :=
  Request endpoint
    [("User-Agent", "BrotherOwlManager/1.0"); ("Accept", "application/json");
     ("Referer", "https://www.tornstats.com/"); ("Authorization", "Bearer " ++ key)]
    [] None true 5.

Definition key_request (key endpoint : string) : request :=
  Request (endpoint ++ "?key=" ++ key) [] [] None true 5.

(** The body that the two loops of [_fetch_json_api] share: [intro] is
    the line logged before the [try], [req] the request and [shown] the
    address the log lines name. *)
Definition api_attempt (intro : string) (req : request) (shown : string)
  : M (option value) :=
  log INFO intro ;;;
  try_except Exception
    (response <- session_get req ;;
     json_body shown response)
    (fun e =>
       log WARNING ("Error accessing " ++ shown ++ ": " ++ exn_str e) ;;;
       ret None).

(** The body of the first loop: the credential in the Authorization
    header. *)
Definition bearer_attempt (key endpoint : string) : M (option value) :=
  api_attempt ("Trying endpoint: " ++ endpoint) (bearer_request key endpoint) endpoint.

(** The body of the second loop: the credential as a query parameter. *)
Definition key_attempt (key endpoint : string) : M (option value) :=
  api_attempt ("Trying endpoint with API key as parameter: " ++ endpoint)
    (key_request key endpoint) (endpoint ++ "?key=" ++ key).

Definition _fetch_json_api (player : player_id) : M value :=
  fun w =>
    match usable_key w with
    | None => (log WARNING "No API key provided for TornStats" ;;; ret VNone) w
    | Some key =>
        (let endpoints := api_endpoints (py_str player) in
         r <- first_success (bearer_attempt key) endpoints ;;
         match r with
         | Some out => ret out
         | None =>
             r <- first_success (key_attempt key) endpoints ;;
             ret (or_none r)
         end) w
    end.

(** The JSON strategy as the specification words it: walk the requests
    in order, stop at the first reply that is a hit ([reply_hit]), and
    make no request after it.  The result is the hit, if any, and the
    trace as the walk leaves it. *)
Fixpoint first_hit (requests : list request) (made : list exchange)
  : option value * list exchange :=
  match requests with
  | [] => (None, made)
  | req :: rest =>
      let x := Exchange req (fst (net made req)) (snd (net made req)) in
      match reply_hit (got x) with
      | Some out => (Some out, (made ++ [x])%list)
      | None => first_hit rest (made ++ [x])%list
      end
  end.

(** The candidates of the specification: every endpoint with the
    credential in the Authorization header, then the same endpoints with
    the credential as a query parameter. *)
Definition api_requests (key player : string) : list request :=
  (map (bearer_request key) (api_endpoints player) ++
   map (key_request key) (api_endpoints player))%list.

Definition profile_urls (player : string) : list string :=
  [ "https://www.tornstats.com/profiles/" ++ player;
    base_url ++ "/player.php?id=" ++ player;
    base_url ++ "/profiles.php?XID=" ++ player;
    base_url ++ "/spy.php?id=" ++ player ].

Definition profile_request (url : string) : request :=
  Request url
    [("User-Agent", "BrotherOwlManager/1.0"); ("Accept", "text/html");
     ("Referer", "https://www.tornstats.com/")]
    [] None true 10.

(** [name or f"Player {player_id}"] *)
Definition name_or_player (name : option string) (player : string) : string :=
  match name with
  | Some n => if String.eqb n "" then "Player " ++ player else n
  | None => "Player " ++ player
  end.

(** The body of the loop of [_parse_html_profile]. *)
Definition profile_attempt (player url : string) : M (option value) :=
  try_except Exception
    (log INFO ("Trying to parse HTML from: " ++ url) ;;;
     response <- session_get (profile_request url) ;;
     if negb (status response =? 200) then
       log WARNING ("HTTP " ++ pretty (status response) ++ " from " ++ url) ;;;
       ret None
     else
       html <- lift (text response) ;;
       document <- lift (BeautifulSoup html) ;;
       page <- lift (scan_profile document) ;;
       let data := page_data page in
       if match data with [] => false | _ => true end && (0 <? stat_sum data) then
         log INFO ("Successfully extracted stats from HTML: " ++ stat_repr data) ;;;
         ret (Some (spy_dict
                      (VStr (name_or_player (page_name page) player))
                      (VInt (page_level page))
                      (VInt (stat_get "strength" data 0))
                      (VInt (stat_get "defense" data 0))
                      (VInt (stat_get "speed" data 0))
                      (VInt (stat_get "dexterity" data 0))
                      (VStr "HTML Extraction")
                      (VStr "HTML")))
       else ret None)
    (fun e =>
       log WARNING ("HTML parse failed for " ++ url ++ ": " ++ exn_str e) ;;;
       ret None).

Definition _parse_html_profile (player : player_id) : M value :=
  r <- first_success (profile_attempt (py_str player)) (profile_urls (py_str player)) ;;
  ret (or_none r).

(** What a reply is worth to the profile strategy: the record made of
    the page of a 200 reply whose text the parser and the heuristics
    take and whose stats are not empty and sum above zero, nothing
    otherwise. *)
Definition page_yield (player : string) (rep : reply) : option value :=
  match rep with
  | Fails _ => None
  | Responds r =>
      if status r =? 200 then
        match (let! html := text r in
               let! document := BeautifulSoup html in
               scan_profile document) with
        | Ret page =>
            let data := page_data page in
            if match data with [] => false | _ => true end && (0 <? stat_sum data)
            then Some (spy_dict
                         (VStr (name_or_player (page_name page) player))
                         (VInt (page_level page))
                         (VInt (stat_get "strength" data 0))
                         (VInt (stat_get "defense" data 0))
                         (VInt (stat_get "speed" data 0))
                         (VInt (stat_get "dexterity" data 0))
                         (VStr "HTML Extraction")
                         (VStr "HTML"))
            else None
        | Raise _ => None
        end
      else None
  end.

(** The profile strategy as a walk: ask for the pages in order, stop at
    the first reply that yields a record ([page_yield]), and make no
    request after it.  The result is that record, if any, and the trace
    as the walk leaves it. *)
Fixpoint first_page (player : string) (urls : list string) (made : list exchange)
  : option value * list exchange :=
  match urls with
  | [] => (None, made)
  | url :: rest =>
      let x := Exchange (profile_request url)
                 (fst (net made (profile_request url)))
                 (snd (net made (profile_request url))) in
      match page_yield player (got x) with
      | Some out => (Some out, (made ++ [x])%list)
      | None => first_page player rest (made ++ [x])%list
      end
  end.

Definition start_marker : string := "var playerData = ".

Definition _extract_json_from_html (html : string) : M value :=
  r <- try_except Exception
         (if str_contains start_marker html then
            found <- lift (str_index start_marker 0 html) ;;
            let json_start := (found + String.length start_marker)%nat in
            json_end <- lift (str_index ";" json_start html) ;;
            let json_str := strip (substring json_start (json_end - json_start) html) in
            data <- lift (json_loads json_str) ;;
            out <- lift (_normalize_tornstats_data data) ;;
            ret (Some out)
          else ret None)
         (fun e =>
            log WARNING ("Failed to extract JSON from HTML: " ++ exn_str e) ;;;
            ret None) ;;
  ret (or_none r).

Definition _parse_tornstats_spy_html (document : soup) (player : player_id) : pyres value :=
  let! found := scan_spy document in
  match found with
  | None => Ret VNone
  | Some page =>
      Ret (spy_dict
             (VStr (match spy_name page with
                    | Some n => n
                    | None => "Player " ++ py_str player
                    end))
             (VInt (spy_level page))
             (VInt (stat_get "strength" (spy_stats page) 0))
             (VInt (stat_get "defense" (spy_stats page) 0))
             (VInt (stat_get "speed" (spy_stats page) 0))
             (VInt (stat_get "dexterity" (spy_stats page) 0))
             (VStr "HTML Extraction")
             (VStr "HTML Spy"))
  end.

Definition login_request (key : string) : request :=
  Request (base_url ++ "/login.php") [] [("tornstats_api", key)] None false 10.

Definition spy_request (player : string) (jar : list (string * string)) : request :=
  Request (base_url ++ "/spy.php?id=" ++ player) [] [] (Some jar) true 10.

Definition _try_authenticated_access (player : player_id) : M value :=
  fun w =>
    match usable_key w with
    | None => (Ret VNone, w)
    | Some key =>
        (r <- try_except Exception
                (login_response <- session_get (login_request key) ;;
                 spy_response <-
                   session_get (spy_request (py_str player) (set_cookies login_response)) ;;
                 if status spy_response =? 200 then
                   html <- lift (text spy_response) ;;
                   json_data <- _extract_json_from_html html ;;
                   if truthy json_data then ret (Some json_data)
                   else
                     document <- lift (BeautifulSoup html) ;;
                     out <- lift (_parse_tornstats_spy_html document player) ;;
                     ret (Some out)
                 else ret None)
                (fun e =>
                   log ERROR ("Authentication flow failed: " ++ exn_str e) ;;;
                   ret None) ;;
         ret (or_none r)) w
    end.

Definition cache_key (player : player_id) : string := "player_" ++ py_str player.

Definition get_player_data (player : player_id) : M value :=
  cached_data <- get_from_cache (cache_key player) ;;
  if truthy cached_data then
    log INFO ("Using cached data for player " ++ py_str player) ;;;
    ret cached_data
  else
    try_except Exception
      (ensure_session ;;;
       log INFO ("Trying JSON API for player " ++ py_str player) ;;;
       json_data <- _fetch_json_api player ;;
       if truthy json_data then
         cache_store (cache_key player) json_data ;;;
         ret json_data
       else
         log INFO ("Trying HTML parsing for player " ++ py_str player) ;;;
         html_data <- _parse_html_profile player ;;
         if truthy html_data then
           cache_store (cache_key player) html_data ;;;
           ret html_data
         else
           log INFO ("Trying authenticated access for player " ++ py_str player) ;;;
           auth_data <- _try_authenticated_access player ;;
           if truthy auth_data then
             cache_store (cache_key player) auth_data ;;;
             ret auth_data
           else
             log WARNING ("Could not retrieve data for player " ++ py_str player) ;;;
             ret VNone)
      (fun e =>
         log ERROR ("TornStats error for " ++ py_str player ++ ": " ++ exn_str e) ;;;
         ret VNone).

End Strategies.

(** ** Properties of caches and of requests *)

(** Every entry of the cache holds data that passes [if cached_data:]. *)
Definition truthy_entries (c : gmap string cache_entry) : Prop :=
  forall key entry, c !! key = Some entry -> truthy (data entry) = true.

(** The exchange was made with the TornStats host. *)
Definition to_tornstats (x : exchange) : bool :=
  String.prefix "https://www.tornstats.com/" (url (sent x)).

(** A method body that, run with the session open, ends (by returning
    or by raising) with the session still open, having made at most [n]
    requests, all of them to the TornStats host. *)
Definition polite {A} (n : nat) (c : M A) : Prop :=
  forall w, session w = OpenSession ->
    exists r w' l, c w = (r, w') /\ session w' = OpenSession /\
      trace w' = (trace w ++ l)%list /\ (length l <= n)%nat /\
      forallb to_tornstats l = true.

(** A series of [get_player_data] calls on one adapter, each made when
    the loop clock reads the time given with it. *)
Section Series.

Variable net : list exchange -> request -> reply * float.
Variable soup : Type.
Variable BeautifulSoup : string -> pyres soup.
Variable scan_profile : soup -> pyres profile_page.
Variable scan_spy : soup -> pyres (option spy_page).
Variable json_loads : string -> pyres value.

Fixpoint after_calls (calls : list (float * player_id)) (w : world) : world :=
  match calls with
  | [] => w
  | (now, player) :: rest =>
      after_calls rest
        (snd (get_player_data net soup BeautifulSoup scan_profile scan_spy json_loads
                player (set_clock now w)))
  end.

End Series.

End Adapter.

(* ===================================================================== *)
(** * The spies file shared by both estimator modules                    *)
(* ===================================================================== *)

Module Spies.
Import Py.

(** [data/spies.json]: absent, present with text that is not JSON, or
    present with a JSON document. *)
Inductive file :=
| NoFile
| Unparsable
| Json (v : value).

(** A function body acting on the file. *)
Definition F (A : Type) : Type := file -> pyres A * file.

Definition bindF {A B} (c : F A) (k : A -> F B) : F B :=
  fun fs =>
    match c fs with
    | (Ret a, fs') => k a fs'
    | (Raise e, fs') => (Raise e, fs')
    end.

Notation "x <~ c ;; k" := (bindF c (fun x => k))
  (at level 100, c at next level, right associativity).

(** [json.dump(spy_data, f)] into the file opened for writing. *)
Definition json_dump (spy_data : value) : F unit :=
  fun _ => (Ret tt, Json spy_data).

(** [container[key] = item] *)
Definition py_setitem (container : value) (key : string) (item : value) : pyres value :=
  match container with
  | VDict items => Ret (VDict (items_set key item items))
  | VList _ => Raise (Exn TypeError "list indices must be integers or slices, not str")
  | _ => Raise (Exn TypeError "object does not support item assignment")
  end.

End Spies.

(* ===================================================================== *)
(** * backup_utils/stats_estimator.py                                    *)
(* ===================================================================== *)

Module Backup.
Import Py Spies.

Definition ensure_spy_file_exists : F unit :=
  fun fs =>
    match fs with
    | NoFile => (Ret tt, Json (VDict []))
    | _ => (Ret tt, fs)
    end.

Definition load_spy_data : F value :=
  _ <~ ensure_spy_file_exists ;;
  fun fs =>
    match fs with
    | Json v => (Ret v, fs)
    | _ => (Ret (VDict []), fs)
    end.

Definition save_spy_data (spy_data : value) : F unit :=
  _ <~ ensure_spy_file_exists ;;
  json_dump spy_data.

(** The stat arguments are the ints the command layer made with [int()],
    on which the [int(...)] of this function changes nothing;
    [now_iso] is [datetime.now().isoformat()]. *)
Definition add_spy_data (now_iso : string) (player : player_id)
  (strength speed dexterity defense : Z) : F value :=
  spy_data <~ load_spy_data ;;
  let record :=
    VDict [("str", VInt strength); ("spd", VInt speed);
           ("dex", VInt dexterity); ("def", VInt defense);
           ("total", VInt (strength + speed + dexterity + defense));
           ("timestamp", VStr now_iso)] in
  spy_data <~ (fun fs => (py_setitem spy_data (py_str player) record, fs)) ;;
  _ <~ save_spy_data spy_data ;;
  fun fs => (py_getitem spy_data (py_str player), fs).

Definition get_spy_data (player : player_id) : F value :=
  spy_data <~ load_spy_data ;;
  fun fs => (py_get spy_data (py_str player) VNone, fs).

Definition estimate_primary_stat (damage turns my_primary_stat : Z) : pyres value :=
  if (turns <=? 0) || (damage <=? 0) then Ret VNone
  else
    let! damage_per_turn := int_truediv damage turns in
    let! estimated_stat :=
      py_truediv (VInt (my_primary_stat * 1000)) (VFloat damage_per_turn) in
    let! thousands := py_truediv (VFloat estimated_stat) (VInt 1000) in
    let! floor := float_floor thousands in
    Ret (VInt (floor * 1000)).

Definition get_recommendation (my_total_stats enemy_total_stats : value) : pyres string :=
  if negb (truthy enemy_total_stats) || negb (truthy my_total_stats) then Ret "unknown"
  else
    let! ratio := py_truediv my_total_stats enemy_total_stats in
    if PrimFloat.ltb 1.5%float ratio then Ret "safe"
    else if PrimFloat.ltb 0.8%float ratio then Ret "caution"
    else Ret "avoid".

(** [primary_stat_estimate * 4] on whatever is not [None]: a number is
    multiplied, a string and a list are repeated. *)
Definition estimate_total_stats (primary_stat_estimate : value) : pyres value :=
  match primary_stat_estimate with
  | VNone => Ret VNone
  | VInt n => Ret (VInt (n * 4))
  | VBool b => Ret (VInt ((if b then 1 else 0) * 4))
  | VFloat f => Ret (VFloat (PrimFloat.mul f 4%float))
  | VStr s => Ret (VStr (s ++ s ++ s ++ s))
  | VList l => Ret (VList (l ++ l ++ l ++ l)%list)
  | VDict _ => Raise (Exn TypeError "unsupported operand type(s) for *: 'dict' and 'int'")
  end.

(** [days_since_iso s] is
    [(datetime.now() - datetime.fromisoformat(s)).days], which raises
    when [s] is not a date in ISO format.  The [try] has a bare
    [except]. *)
Definition get_stat_confidence (days_since_iso : string -> pyres Z) (stat_data : value)
  : pyres string :=
  if negb (truthy stat_data) then Ret "none"
  else
    let! from_spy := all_in ["str"; "spd"; "dex"; "def"; "timestamp"] stat_data in
    if from_spy then
      match
        (let! stamp := py_getitem stat_data "timestamp" in
         let! days_since :=
           match stamp with
           | VStr s => days_since_iso s
           | _ => Raise (Exn TypeError "fromisoformat: argument must be str")
           end in
         if days_since <? 7 then Ret "high"
         else if days_since <? 30 then Ret "medium"
         else Ret "low")
      with
      | Ret label => Ret label
      | Raise _ => Ret "medium"
      end
    else Ret "low".

(** [confidence] is a string, as every caller passes it. *)
Definition format_stats_for_display (float_comma : float -> string)
  (player : player_id) (stat_data : value) (confidence : string) : pyres string :=
  if negb (truthy stat_data) then Ret ("No data available for player " ++ py_str player)
  else
    let shown (v : pyres value) : pyres string :=
      let! x := v in py_format_comma float_comma x in
    let! from_spy := py_in "str" stat_data in
    if from_spy then
      let! strength := shown (py_getitem stat_data "str") in
      let! speed := shown (py_getitem stat_data "spd") in
      let! dexterity := shown (py_getitem stat_data "dex") in
      let! defense := shown (py_getitem stat_data "def") in
      let! total := shown (py_getitem stat_data "total") in
      Ret ("**Strength:** " ++ strength ++ nl ++
           "**Speed:** " ++ speed ++ nl ++
           "**Dexterity:** " ++ dexterity ++ nl ++
           "**Defense:** " ++ defense ++ nl ++
           "**Total:** " ++ total ++ nl ++
           "**Confidence:** " ++ str_capitalize confidence)
    else
      let! primary := shown (py_get stat_data "primary" (VInt 0)) in
      let! total := shown (py_get stat_data "total" (VInt 0)) in
      Ret ("**Estimated Primary:** " ++ primary ++ nl ++
           "**Estimated Total:** " ++ total ++ nl ++
           "**Confidence:** " ++ str_capitalize confidence).

End Backup.

(* ===================================================================== *)
(** * bot_package/src/utils/stats_estimator.py                           *)
(* ===================================================================== *)

Module BotPackage.
Import Py Spies.

Definition load_spy_data : F value :=
  fun fs =>
    match fs with
    | NoFile => (Ret (VDict []), Json (VDict []))
    | Unparsable => (Ret (VDict []), fs)
    | Json v => (Ret v, fs)
    end.

Definition save_spy_data (spy_data : value) : F unit := json_dump spy_data.

Definition get_spy_data (player : player_id) : F value :=
  all_spy_data <~ load_spy_data ;;
  fun fs => (py_get all_spy_data (py_str player) VNone, fs).

(** [now] is [time.time()] and [date] is
    [datetime.now().strftime("%Y-%m-%d %H:%M:%S")]. *)
Definition add_spy_data (now : float) (date : string) (player : player_id)
  (strength speed dexterity defense : Z) : F value :=
  all_spy_data <~ load_spy_data ;;
  let total := strength + speed + dexterity + defense in
  let record :=
    VDict [("strength", VInt strength); ("speed", VInt speed);
           ("dexterity", VInt dexterity); ("defense", VInt defense);
           ("total", VInt total); ("timestamp", VFloat now);
           ("date", VStr date)] in
  all_spy_data <~ (fun fs => (py_setitem all_spy_data (py_str player) record, fs)) ;;
  _ <~ save_spy_data all_spy_data ;;
  fun fs => (py_getitem all_spy_data (py_str player), fs).

(** [libm_pow] is the C library's [pow], which the interpreter calls for
    an ordinary base. *)
Definition estimate_primary_stat (libm_pow : float -> float -> float)
  (damage turns opponent_primary : Z) : pyres value :=
  let! damage_per_turn :=
    if 0 <? turns
    then let! q := int_truediv damage turns in Ret (VFloat q)
    else Ret (VInt 0) in
  let! base := py_truediv damage_per_turn (VInt 240) in
  let ratio := float_pow_fractional libm_pow base 0.65%float in
  let! primary := int_to_float opponent_primary in
  match ratio with
  | PowComplex =>
      Raise (Exn TypeError "type complex doesn't define __round__ method")
  | PowFloat r =>
      let estimated_primary := PrimFloat.mul primary r in
      let! thousands := py_truediv (VFloat estimated_primary) (VInt 1000) in
      let! rounded := float_round thousands in
      Ret (VInt (rounded * 1000))
  end.

(** [now] is [time.time()]. *)
Definition get_stat_confidence (now : float) (spy_data : value) : pyres string :=
  let! has_timestamp :=
    if truthy spy_data then py_in "timestamp" spy_data else Ret false in
  if negb (truthy spy_data) || negb has_timestamp then Ret "none"
  else
    let! stamp := py_getitem spy_data "timestamp" in
    let! age_in_seconds := py_float_sub now stamp in
    let! age_in_days := py_truediv (VFloat age_in_seconds) (VInt (60 * 60 * 24)) in
    if PrimFloat.ltb age_in_days 7%float then Ret "high"
    else if PrimFloat.ltb age_in_days 30%float then Ret "medium"
    else Ret "low".

Definition get_recommendation (now : float) (your_stats enemy_stats : value)
  : pyres (string * string) :=
  if negb (truthy enemy_stats)
  then Ret ("No data available to make a recommendation", "none")
  else
    let! your_total := py_get your_stats "total" (VInt 0) in
    let! enemy_total := py_get enemy_stats "total" (VInt 0) in
    if py_eq_zero your_total || py_eq_zero enemy_total
    then Ret ("Insufficient data for recommendation", "none")
    else
      let! ratio := py_truediv your_total enemy_total in
      let! confidence := get_stat_confidence now enemy_stats in
      if PrimFloat.ltb 1.5%float ratio
      then Ret ("Highly favorable - You significantly outmatch this opponent", confidence)
      else if PrimFloat.ltb 1.1%float ratio
      then Ret ("Favorable - You have an advantage", confidence)
      else if PrimFloat.ltb 0.9%float ratio
      then Ret ("Even match - Battle could go either way", confidence)
      else if PrimFloat.ltb 0.7%float ratio
      then Ret ("Unfavorable - Opponent has an advantage", confidence)
      else Ret ("Highly unfavorable - Opponent significantly outmatches you", confidence).

Definition multipliers : list (string * float) :=
  [("high", 3.5%float); ("medium", 3.8%float); ("low", 4.2%float)].

Fixpoint multiplier_lookup (label : string) (table : list (string * float))
  : option float :=
  match table with
  | [] => None
  | (l, m) :: rest => if String.eqb label l then Some m else multiplier_lookup label rest
  end.

(** [multipliers.get(accuracy, multipliers["low"])], then
    [int(primary_stat * multiplier)]; the callers leave [accuracy] at
    its default, ['low']. *)
Definition estimate_total_stats (primary_stat : value) (accuracy : string) : pyres value :=
  let! low :=
    match multiplier_lookup "low" multipliers with
    | Some m => Ret m
    | None => Raise (key_error "low")
    end in
  let multiplier :=
    match multiplier_lookup accuracy multipliers with
    | Some m => m
    | None => low
    end in
  let! product := py_mul_float primary_stat multiplier in
  let! total := float_trunc product in
  Ret (VInt total).

(** [confidence] is a string, as every caller passes it; [float_comma]
    and [str_other] are the interpreter's formatting of floats and its
    [str] on floats, lists and dicts. *)
Definition format_stats_for_display (float_comma : float -> string)
  (str_other : value -> string)
  (player : player_id) (stats : value) (confidence : string) : pyres string :=
  if negb (truthy stats) then Ret ("No data available for player " ++ py_str player)
  else
    let shown (key : string) : pyres string :=
      let! x := py_getitem stats key in py_format_comma float_comma x in
    let confidence_text := nl ++ "Confidence: " ++ str_upper confidence in
    let! full := all_in ["strength"; "speed"; "dexterity"; "defense"] stats in
    if full then
      let! has_date := py_in "date" stats in
      let! timestamp_info :=
        if has_date then
          let! date := py_get stats "date" (VStr "Unknown") in
          Ret (nl ++ "Last updated: " ++ value_str str_other date)
        else Ret "" in
      let! strength := shown "strength" in
      let! speed := shown "speed" in
      let! dexterity := shown "dexterity" in
      let! defense := shown "defense" in
      let! total := shown "total" in
      Ret ("**Strength:** " ++ strength ++ nl ++
           "**Speed:** " ++ speed ++ nl ++
           "**Dexterity:** " ++ dexterity ++ nl ++
           "**Defense:** " ++ defense ++ nl ++
           "**Total:** " ++ total ++ timestamp_info ++ confidence_text)
    else
      let! has_primary := py_in "primary" stats in
      let! has_total := if has_primary then py_in "total" stats else Ret false in
      if has_primary && has_total then
        let! primary := shown "primary" in
        let! total := shown "total" in
        Ret ("**Estimated Primary:** " ++ primary ++ nl ++
             "**Estimated Total:** " ++ total ++ confidence_text)
      else
        let! only_total := py_in "total" stats in
        if only_total then
          let! total := shown "total" in
          Ret ("**Estimated Total:** " ++ total ++ confidence_text)
        else Ret "Invalid stat format".

End BotPackage.

(* ===================================================================== *)
(** * bot_package/main.py and bot_package/src/utils/enemy_stats_bot.py    *)
(* ===================================================================== *)

Module Commands.
Import Py Spies.

(** The colours of [discord.Color] that the commands use. *)
Inductive color := Green | Gold | Orange | Red | Yellow | Blue | DefaultColor.

(** A [discord.Embed] as the commands fill it: the fields are name,
    value and the inline flag. *)
Record embed := Embed {
  title : string;
  description : string;
  embed_color : color;
  embed_fields : list (string * string * bool)
}.

(** What [ctx.send] is given: a text or an embed. *)
Inductive message :=
| Content (body : string)
| Embedded (e : embed).

(** What a command acts on: the spies file and the channel, as the list
    of the messages sent to it. *)
Record bot := Bot { spies : file; outbox : list message }.

Definition C (A : Type) : Type := bot -> pyres A * bot.

Definition ret {A} (a : A) : C A := fun b => (Ret a, b).

Definition bind {A B} (c : C A) (k : A -> C B) : C B :=
  fun b =>
    match c b with
    | (Ret a, b') => k a b'
    | (Raise e, b') => (Raise e, b')
    end.

Notation "x <- c ;; k" := (bind c (fun x => k))
  (at level 100, c at next level, right associativity).
Notation "c ;;; k" := (bind c (fun _ => k))
  (at level 100, right associativity).

Definition lift {A} (r : pyres A) : C A := fun b => (r, b).

(** A function of the estimator module, run on the spies file. *)
Definition on_file {A} (c : F A) : C A :=
  fun b => (fst (c (spies b)), Bot (snd (c (spies b))) (outbox b)).

(** [await ctx.send(...)]: the message reaches the channel. *)
Definition send (m : message) : C unit :=
  fun b => (Ret tt, Bot (spies b) (outbox b ++ [m])%list).

(** [try: body / except ValueError: handler] *)
Definition try_except {A} (catches : exn -> bool) (body : C A) (handler : exn -> C A)
  : C A :=
  fun b =>
    match body b with
    | (Raise e, b') => if catches e then handler e b' else (Raise e, b')
    | r => r
    end.

(** [colors.get(confidence, discord.Color.default())] *)
Definition _get_color_for_confidence (confidence : string) : color :=
  if String.eqb confidence "high" then Green
  else if String.eqb confidence "medium" then Gold
  else if String.eqb confidence "low" then Orange
  else if String.eqb confidence "none" then Red
  else DefaultColor.

(** [not s] on a string argument of a command. *)
Definition given (s : string) : bool := negb (String.eqb s "").

Section Handlers.

(** The interpreter and the C library: [int()] on a string, the
    formatting of floats, [str] on floats, lists and dicts, and
    [pow]. *)
Variable py_int : string -> pyres Z.
Variable float_comma : float -> string.
Variable str_other : value -> string.
Variable libm_pow : float -> float -> float.

(** [now] is [time.time()] while the command runs. *)
Definition enemy_stats (now : float) (player_id damage turns my_primary_stat : string)
  : C unit :=
  if negb (given player_id) then
    send (Content "Please provide a player ID. Usage: `!enemy_stats <player_id>` or `!enemy_stats <player_id> <damage> <turns> <my_primary_stat>`")
  else
    spy_data <- on_file (BotPackage.get_spy_data (PidStr player_id)) ;;
    if truthy spy_data then
      confidence <- lift (BotPackage.get_stat_confidence now spy_data) ;;
      shown <- lift (BotPackage.format_stats_for_display float_comma str_other
                       (PidStr player_id) spy_data confidence) ;;
      send (Embedded (Embed ("Spy Data for Player " ++ player_id) shown
                        (_get_color_for_confidence confidence) []))
    else if given damage && given turns && given my_primary_stat then
      try_except (is_class ValueError)
        (damage_val <- lift (py_int damage) ;;
         turns_val <- lift (py_int turns) ;;
         primary_val <- lift (py_int my_primary_stat) ;;
         primary_estimate <-
           lift (BotPackage.estimate_primary_stat libm_pow damage_val turns_val primary_val) ;;
         total_estimate <- lift (BotPackage.estimate_total_stats primary_estimate "low") ;;
         let estimated_data :=
           VDict [("primary", primary_estimate); ("total", total_estimate)] in
         shown <- lift (BotPackage.format_stats_for_display float_comma str_other
                          (PidStr player_id) estimated_data "low") ;;
         send (Embedded
                 (Embed ("Estimated Stats for Player " ++ player_id) shown Yellow
                    [("Calculation Details",
                      "Based on " ++ format_comma damage_val ++ " damage over " ++
                      pretty turns_val ++ " turns with your " ++
                      format_comma primary_val ++ " primary stat",
                      true)])))
        (fun _ =>
           send (Content "All values must be valid numbers. Please check your input and try again."))
    else
      send (Content ("No spy data found for player " ++ player_id ++
                     ". To estimate stats, use: `!enemy_stats " ++ player_id ++
                     " <damage> <turns> <my_primary_stat>`")).

(** [now] and [date] are [time.time()] and the formatted
    [datetime.now()] while the command runs. *)
Definition add_spy (now : float) (date : string)
  (player_id strength speed dexterity defense : string) : C unit :=
  if negb (given player_id && given strength && given speed &&
           given dexterity && given defense) then
    send (Content "Please provide all required parameters. Usage: `!add_spy <player_id> <str> <spd> <dex> <def>`")
  else
    saved <- try_except (is_class ValueError)
               (str_val <- lift (py_int strength) ;;
                spd_val <- lift (py_int speed) ;;
                dex_val <- lift (py_int dexterity) ;;
                def_val <- lift (py_int defense) ;;
                spy_data <- on_file (BotPackage.add_spy_data now date (PidStr player_id)
                                       str_val spd_val dex_val def_val) ;;
                ret (Some spy_data))
               (fun _ =>
                  send (Content "All stat values must be valid numbers.") ;;;
                  ret None) ;;
    match saved with
    | None => ret tt
    | Some spy_data =>
        shown <- lift (BotPackage.format_stats_for_display float_comma str_other
                         (PidStr player_id) spy_data "high") ;;
        send (Embedded (Embed ("Spy Data Added for Player " ++ player_id) shown Green []))
    end.

End Handlers.

End Commands.

(* ===================================================================== *)
(** * The estimator and the spy records as the specification words them  *)
(* ===================================================================== *)

Module Spec.
Import Py.

(** [estimatePrimaryStat]: null when turns <= 0 or damage <= 0;
    otherwise the damage per turn, the ratio
    [(damagePerTurn / 240) ^ 0.65], the estimate [myPrimaryStat * ratio],
    rounded to the nearest thousand. *)
Definition estimate_primary_stat (libm_pow : float -> float -> float)
  (damage turns my_primary_stat : Z) : pyres value :=
  if (turns <=? 0) || (damage <=? 0) then Ret VNone
  else
    let! damage_per_turn := int_truediv damage turns in
    let! base := py_truediv (VFloat damage_per_turn) (VInt 240) in
    let! mine := int_to_float my_primary_stat in
    match float_pow_fractional libm_pow base 0.65%float with
    | PowComplex =>
        Raise (Exn TypeError "type complex doesn't define __round__ method")
    | PowFloat ratio =>
        let! thousands := py_truediv (VFloat (PrimFloat.mul mine ratio)) (VInt 1000) in
        let! rounded := float_round thousands in
        Ret (VInt (rounded * 1000))
    end.


(** A spy record whose four stat fields, under the names [stats], are
    ints and whose [total] is their sum. *)
Definition total_is_sum (stats : list string) (record : value) : Prop :=
  exists items a b c d,
    record = VDict items /\
    map (fun k => items_get k items) stats
      = [Some (VInt a); Some (VInt b); Some (VInt c); Some (VInt d)] /\
    items_get "total" items = Some (VInt (a + b + c + d)).

(** Every record of a store of spy records satisfies [total_is_sum]. *)
Definition totals_hold (stats : list string) (store : list (string * value)) : Prop :=
  forall player record, items_get player store = Some record -> total_is_sum stats record.

(** The file in a state from which the store can be read and updated:
    absent, unreadable (both read as the empty store), or a JSON object. *)
Definition store_of (fs : Spies.file) : option (list (string * value)) :=
  match fs with
  | Spies.NoFile | Spies.Unparsable => Some []
  | Spies.Json (VDict items) => Some items
  | Spies.Json _ => None
  end.

(** The total that [get_recommendation] of [bot_package] reads off a dict
    of stats: [stats.get('total', 0)]. *)
Definition total_of (stats : list (string * value)) : value :=
  match items_get "total" stats with
  | Some v => v
  | None => VInt 0
  end.

(** One call of [add_spy_data]: what the clock reads during the call
    ([datetime.now().isoformat()], [time.time()] and the formatted
    [datetime.now()]) and the arguments. *)
Record spy_call := SpyCall {
  call_iso : string;
  call_time : float;
  call_date : string;
  call_player : player_id;
  call_strength : Z;
  call_speed : Z;
  call_dexterity : Z;
  call_defense : Z
}.

(** The spies file after a series of calls, each made on the file that
    the call before it left. *)
Fixpoint backup_after (calls : list spy_call) (fs : Spies.file) : Spies.file :=
  match calls with
  | [] => fs
  | c :: rest =>
      backup_after rest
        (snd (Backup.add_spy_data (call_iso c) (call_player c) (call_strength c)
                (call_speed c) (call_dexterity c) (call_defense c) fs))
  end.

Fixpoint bot_after (calls : list spy_call) (fs : Spies.file) : Spies.file :=
  match calls with
  | [] => fs
  | c :: rest =>
      bot_after rest
        (snd (BotPackage.add_spy_data (call_time c) (call_date c) (call_player c)
                (call_strength c) (call_speed c) (call_dexterity c) (call_defense c) fs))
  end.

(** The last call of a series that was made for the player [key]. *)
Fixpoint last_call (key : string) (calls : list spy_call) : option spy_call :=
  match calls with
  | [] => None
  | c :: rest =>
      match last_call key rest with
      | Some later => Some later
      | None => if String.eqb key (py_str (call_player c)) then Some c else None
      end
  end.

(** The record that a call writes, in each module. *)
Definition backup_record (c : spy_call) : value :=
  VDict [("str", VInt (call_strength c)); ("spd", VInt (call_speed c));
         ("dex", VInt (call_dexterity c)); ("def", VInt (call_defense c));
         ("total",
          VInt (call_strength c + call_speed c + call_dexterity c + call_defense c));
         ("timestamp", VStr (call_iso c))].

Definition bot_record (c : spy_call) : value :=
  VDict [("strength", VInt (call_strength c)); ("speed", VInt (call_speed c));
         ("dexterity", VInt (call_dexterity c)); ("defense", VInt (call_defense c));
         ("total",
          VInt (call_strength c + call_speed c + call_dexterity c + call_defense c));
         ("timestamp", VFloat (call_time c)); ("date", VStr (call_date c))].

End Spec.

(* ===================================================================== *)
(** * Worlds and inputs used to run the models                           *)
(* ===================================================================== *)

Module Examples.
Import Py Adapter.

(** A host that cannot be reached: every request fails. *)
Definition unreachable (_ : list exchange) (_ : request) : reply * float :=
  (Fails (Exn ClientError "Cannot connect to host www.tornstats.com:443"), 10%float).

(** A host that answers every request with status 200 and the JSON
    document [body]. *)
Definition always_json (body : value) (_ : list exchange) (_ : request) : reply * float :=
  (Responds (Response 200 (Ret "") (Ret body) []), 1%float).

(** Documents are not inspected in these runs. *)
Definition no_parser (_ : string) : pyres unit :=
  Raise (Exn ValueError "no parser").

Definition no_profile (_ : unit) : pyres profile_page :=
  Raise (Exn ValueError "no document").

Definition no_spy (_ : unit) : pyres (option spy_page) :=
  Raise (Exn ValueError "no document").

Definition no_json (_ : string) : pyres value :=
  Raise (Exn JSONDecodeError "Expecting value").

(** [get_player_data] and [_fetch_json_api] against a host given by
    [net]. *)
Definition run (net : list exchange -> request -> reply * float)
  (player : player_id) (w : world) : pyres value * world :=
  get_player_data net unit no_parser no_profile no_spy no_json player w.

Definition run_json_api (net : list exchange -> request -> reply * float)
  (player : player_id) (w : world) : pyres value * world :=
  _fetch_json_api net player w.

(** A fresh adapter without and with a credential, and the latter once
    its session is open. *)
Definition fresh : world := __init__ None None 0%float.

Definition fresh_with_key : world := __init__ (Some "k3y") None 0%float.

Definition ready_with_key : world := set_session OpenSession fresh_with_key.

(** Four stat fields and nothing else. *)
Definition four_stats : list (string * value) :=
  [("strength", VInt 1); ("defense", VInt 2); ("speed", VInt 3); ("dexterity", VInt 4)].

(** The record the conversion branches build from [four_stats]. *)
Definition sample_record : value :=
  spy_dict (VStr "Unknown") (VInt 0) (VInt 1) (VInt 2) (VInt 3) (VInt 4)
    (VStr "Unknown") (VStr "TornStats API").

(** The body of an error answer: valid JSON of none of the four shapes. *)
Definition error_body : value :=
  VDict [("status", VBool false); ("message", VStr "ERROR: User not found.")].

(** An adapter whose cache holds [sample_record] for player 7, stored
    when the loop clock read 0, with the clock now reading [now]. *)
Definition cached_at (now : float) : world :=
  World None NoSession
    (<["player_7" := CacheEntry sample_record 0%float]> ∅)
    now [] [].

(** A C library whose [pow] is never reached: the runs below stay
    within the bases that the interpreter settles itself. *)
Definition no_libm (_ _ : float) : float := nan.

(** The stats of the test script for player 12345. *)
Definition test_player : player_id := PidStr "12345".

(** An adapter without credential whose session is open. *)
Definition ready : world := set_session OpenSession fresh.

(** A host that answers every request with status 200 and the page
    [html]. *)
Definition always_page (html : string) (_ : list exchange) (_ : request) : reply * float :=
  (Responds (Response 200 (Ret html) (Raise (Exn JSONDecodeError "Expecting value"))
               [("session", "abc")]),
   1%float).

(** An [int()] for the runs: it reads the unsigned decimal numerals and
    refuses every other string. *)
Fixpoint digits_value (s : string) (acc : Z) : option Z :=
  match s with
  | EmptyString => Some acc
  | String c s' =>
      let n := Z.of_nat (nat_of_ascii c) in
      if (48 <=? n) && (n <=? 57) then digits_value s' (acc * 10 + (n - 48)) else None
  end.

Definition decimal (s : string) : pyres Z :=
  match s, digits_value s 0 with
  | String _ _, Some n => Ret n
  | _, _ => Raise (Exn ValueError ("invalid literal for int() with base 10: '" ++ s ++ "'"))
  end.

(** Formatting of floats and of containers that the runs never reach. *)
Definition no_float_format (_ : float) : string := "nan".

Definition no_container_str (_ : value) : string := "".

(** A parser that takes every text, and heuristics that find the four
    stats of the test script, a name and a level in every document. *)
Definition any_document (_ : string) : pyres unit := Ret tt.

Definition found_stats (_ : unit) : pyres profile_page :=
  Ret (ProfilePage [("strength", 1000000); ("speed", 800000);
                    ("dexterity", 700000); ("defense", 500000)]
         (Some "Duke") 42).

(** A host that has one page only, at [address]: every other request
    is answered 404. *)
Definition one_page (address : string) (_ : list exchange) (req : request)
  : reply * float :=
  (Responds (Response (if String.eqb (url req) address then 200 else 404)
               (Ret "<html></html>") (Raise (Exn JSONDecodeError "Expecting value")) []),
   1%float).

(** A clock on which every spy is three days old. *)
Definition three_days_ago (_ : string) : pyres Z := Ret 3.

(** A spies file that holds one record, for player 2. *)
Definition one_player_file : Spies.file :=
  Spies.Json (VDict [("2", VDict [("total", VInt 7)])]).

(** A channel in which nothing was said, and no spies file. *)
Definition quiet : Commands.bot := Commands.Bot Spies.NoFile [].

End Examples.

(* ===================================================================== *)
(** * The normalizer                                                     *)
(* ===================================================================== *)

Section Normalizer.
Import Py Adapter.

Lemma complete_spy_dict n l s d sp dx u src :
  complete (spy_dict n l s d sp dx u src) = true.
Proof. reflexivity. Qed.

Lemma api_spy_dict_complete fields out :
  api_spy_dict fields = Ret out -> complete out = true.
Proof.
  destruct fields; simpl; try discriminate.
  intros H. injection H as <-. reflexivity.
Qed.

Lemma is_str_true k v : is_str k v = true -> v = VStr k.
Proof.
  destruct v; simpl; try discriminate.
  intros H. apply String.eqb_eq in H. now subst.
Qed.

Lemma is_stats_format_dict items :
  is_stats_format (VDict items) =
  Ret (match items_get "status" items with
       | Some status => is_str "ok" status && has_key "stats" items
       | None => false
       end).
Proof.
  unfold is_stats_format, py_in, py_getitem, has_key. simpl.
  destruct (items_get "status" items) as [status|]; simpl; [|reflexivity].
  destruct (is_str "ok" status); reflexivity.
Qed.

Lemma normalize_spy items :
  has_key "spy" items = true ->
  _normalize_tornstats_data (VDict items) = Ret (VDict items).
Proof. intros H. unfold _normalize_tornstats_data. simpl. now rewrite H. Qed.

Lemma normalize_user items fields :
  has_key "spy" items = false ->
  items_get "user" items = Some (VDict fields) ->
  _normalize_tornstats_data (VDict items) = Ret (converted fields).
Proof.
  intros Hspy Huser. unfold _normalize_tornstats_data. simpl.
  rewrite Hspy. unfold has_key. now rewrite Huser.
Qed.

Lemma normalize_stats items fields :
  has_key "spy" items = false ->
  has_key "user" items = false ->
  items_get "status" items = Some (VStr "ok") ->
  items_get "stats" items = Some (VDict fields) ->
  _normalize_tornstats_data (VDict items) = Ret (converted fields).
Proof.
  intros Hspy Huser Hstatus Hstats. unfold _normalize_tornstats_data.
  rewrite is_stats_format_dict. simpl.
  rewrite Hspy, Huser, Hstatus. unfold has_key. now rewrite Hstats.
Qed.

Lemma normalize_bare fields :
  has_key "spy" fields = false ->
  has_key "user" fields = false ->
  (items_get "status" fields = Some (VStr "ok") -> has_key "stats" fields = false) ->
  forallb (fun key => has_key key fields) stat_names = true ->
  _normalize_tornstats_data (VDict fields) = Ret (converted fields).
Proof.
  intros Hspy Huser Hnot Hall. unfold _normalize_tornstats_data.
  rewrite is_stats_format_dict. simpl bindR.
  simpl py_in. rewrite Hspy, Huser. simpl bindR.
  assert (match items_get "status" fields with
          | Some status => is_str "ok" status && has_key "stats" fields
          | None => false
          end = false) as ->.
  { destruct (items_get "status" fields) as [status|] eqn:E; [|reflexivity].
    destruct (is_str "ok" status) eqn:Eok; [|reflexivity].
    apply is_str_true in Eok. subst. simpl. now apply Hnot. }
  simpl in Hall. now rewrite Hall.
Qed.

Lemma normalize_unrecognized items :
  unrecognized items ->
  _normalize_tornstats_data (VDict items) = Ret (VDict items).
Proof.
  intros (Hspy & Huser & Hnot & Hall). unfold _normalize_tornstats_data.
  rewrite is_stats_format_dict. simpl bindR.
  simpl py_in. rewrite Hspy, Huser. simpl bindR.
  assert (match items_get "status" items with
          | Some status => is_str "ok" status && has_key "stats" items
          | None => false
          end = false) as ->.
  { destruct (items_get "status" items) as [status|] eqn:E; [|reflexivity].
    destruct (is_str "ok" status) eqn:Eok; [|reflexivity].
    apply is_str_true in Eok. subst. simpl. now apply Hnot. }
  simpl in Hall. now rewrite Hall.
Qed.

(** What the normalizer returns is its argument or a complete record. *)
Lemma normalize_result data out :
  _normalize_tornstats_data data = Ret out ->
  out = data \/ complete out = true.
Proof.
  unfold _normalize_tornstats_data.
  destruct (py_in "spy" data) as [[|]|] eqn:Espy; simpl; try discriminate.
  { intros H. injection H as <-. now left. }
  destruct (py_in "user" data) as [[|]|] eqn:Euser; simpl; try discriminate.
  { destruct (py_getitem data "user"); simpl; try discriminate.
    intros H. right. eapply api_spy_dict_complete, H. }
  destruct (is_stats_format data) as [[|]|]; simpl; try discriminate.
  { destruct (py_getitem data "stats"); simpl; try discriminate.
    intros H. right. eapply api_spy_dict_complete, H. }
  destruct data; try (intros H; injection H as <-; now left).
  intros H.
  match type of H with (if ?b then _ else _) = _ => destruct b end.
  - right. eapply api_spy_dict_complete, H.
  - injection H as <-. now left.
Qed.


End Normalizer.

(* ===================================================================== *)
(** * Running method bodies                                              *)
(* ===================================================================== *)

Section Running.
Import Py Adapter.
Local Open Scope list_scope.

Lemma bind_ret {A B} (c : M A) (k : A -> M B) w a w' :
  c w = (Ret a, w') -> bind c k w = k a w'.
Proof. unfold bind. now intros ->. Qed.

Lemma same_adapter_refl w : same_adapter w w.
Proof. now repeat split. Qed.

Lemma same_adapter_trans w1 w2 w3 :
  same_adapter w1 w2 -> same_adapter w2 w3 -> same_adapter w1 w3.
Proof.
  intros (H1 & H2 & H3) (H4 & H5 & H6). repeat split; congruence.
Qed.

Lemma same_adapter_log l msg w : same_adapter w (add_log l msg w).
Proof. now repeat split. Qed.

(** A loop whose attempts always come back, each after exactly one
    request, comes back after at most one request per element, and
    after at least one when there is an element. *)
Lemma first_success_runs {A} (attempt : A -> M (option value))
  (good : value -> list exchange -> Prop) :
  (forall x w, session w = OpenSession ->
     exists r w' e, attempt x w = (Ret r, w') /\ same_adapter w w' /\
       trace w' = trace w ++ [e] /\
       forall v, r = Some v -> good v [e]) ->
  (forall v l l', good v l -> good v (l' ++ l)) ->
  forall xs w, session w = OpenSession ->
    exists r w' l, first_success attempt xs w = (Ret r, w') /\ same_adapter w w' /\
      trace w' = trace w ++ l /\
      (forall v, r = Some v -> good v l) /\
      (forall x rest, xs = x :: rest -> exists e l', l = e :: l').
Proof.
  intros Hatt Hgood xs. induction xs as [|x rest IH]; intros w Hs.
  - exists None, w, []. simpl. unfold ret. repeat split.
    + now rewrite app_nil_r.
    + discriminate.
    + discriminate.
  - destruct (Hatt x w Hs) as (r & w1 & e & E & Hsame & Htr & Hr).
    simpl. rewrite (bind_ret _ _ _ _ _ E). destruct r as [v|].
    + exists (Some v), w1, [e]. unfold ret. repeat split; try apply Hsame; eauto.
    + assert (session w1 = OpenSession) as Hs1.
      { destruct Hsame as (_ & -> & _). assumption. }
      destruct (IH w1 Hs1) as (r & w2 & l & E2 & Hsame2 & Htr2 & Hr2 & _).
      exists r, w2, (e :: l). rewrite E2. repeat split.
      * destruct Hsame as (? & ? & ?), Hsame2 as (? & ? & ?). congruence.
      * destruct Hsame as (? & ? & ?), Hsame2 as (? & ? & ?). congruence.
      * destruct Hsame as (? & ? & ?), Hsame2 as (? & ? & ?). congruence.
      * rewrite Htr2, Htr, <- app_assoc. reflexivity.
      * intros v Hv. apply (Hgood v l [e]). now apply Hr2.
      * intros; eauto.
Qed.

End Running.

(* ===================================================================== *)
(** * The strategies of the adapter                                      *)
(* ===================================================================== *)

Section AdapterFacts.
Import Py Adapter.
Local Open Scope list_scope.

Variable net : list exchange -> request -> reply * float.
Variable soup : Type.
Variable BeautifulSoup : string -> pyres soup.
Variable scan_profile : soup -> pyres profile_page.
Variable scan_spy : soup -> pyres (option spy_page).
Variable json_loads : string -> pyres value.

Lemma session_get_open req w :
  session w = OpenSession ->
  session_get net req w =
    (match got (next_exchange net w req) with
     | Fails e => Raise e
     | Responds r => Ret r
     end, add_exchange (next_exchange net w req) w).
Proof.
  intros Hs. unfold session_get. rewrite Hs.
  destruct (got (next_exchange net w req)); reflexivity.
Qed.

(** One attempt on an endpoint: exactly one request, never an exception,
    and a result that only depends on the reply. *)
Lemma api_attempt_spec intro req shown w :
  session w = OpenSession ->
  exists w', api_attempt net intro req shown w =
               (Ret (reply_hit (got (next_exchange net w req))), w') /\
             same_adapter w w' /\
             trace w' = trace w ++ [next_exchange net w req].
Proof.
  intros Hs. unfold api_attempt, bind, log, try_except.
  rewrite session_get_open by exact Hs.
  assert (next_exchange net (add_log INFO intro w) req = next_exchange net w req) as ->
    by reflexivity.
  destruct (got (next_exchange net w req)) as [e|r] eqn:Egot; cbn -[String.append is_class].
  { eexists. split; [reflexivity|]. split; [now repeat split | reflexivity]. }
  unfold json_body, bind, try_except, lift, log, ret.
  destruct (status r =? 200); cbn -[String.append is_class].
  2:{ eexists. split; [reflexivity|]. split; [now repeat split | reflexivity]. }
  destruct (json r) as [body|e]; cbn -[String.append is_class].
  2:{ destruct (is_class JSONDecodeError e); cbn -[String.append is_class];
      (eexists; split; [reflexivity|]; split; [now repeat split | reflexivity]). }
  destruct (truthy body); cbn -[String.append is_class].
  2:{ eexists. split; [reflexivity|]. split; [now repeat split | reflexivity]. }
  destruct (_normalize_tornstats_data body) as [out|e]; cbn -[String.append is_class].
  { eexists. split; [reflexivity|]. split; [now repeat split | reflexivity]. }
  destruct (is_class JSONDecodeError e); cbn -[String.append is_class];
    (eexists; split; [reflexivity|]; split; [now repeat split | reflexivity]).
Qed.

Lemma first_hit_app requests more made :
  first_hit net (requests ++ more) made =
  match first_hit net requests made with
  | (Some out, made') => (Some out, made')
  | (None, made') => first_hit net more made'
  end.
Proof.
  revert made. induction requests as [|req rest IH]; intros made; simpl; [reflexivity|].
  destruct (reply_hit (fst (net made req))); [reflexivity | apply IH].
Qed.

(** A loop of attempts is the walk of the specification over its
    requests. *)
Lemma api_loop_first_hit (intro : string -> string) (req : string -> request)
  (shown : string -> string) endpoints w :
  session w = OpenSession ->
  exists w',
    first_success (fun e => api_attempt net (intro e) (req e) (shown e)) endpoints w
      = (Ret (fst (first_hit net (map req endpoints) (trace w))), w') /\
    same_adapter w w' /\
    trace w' = snd (first_hit net (map req endpoints) (trace w)).
Proof.
  revert w. induction endpoints as [|e rest IH]; intros w Hs.
  - exists w. simpl. unfold ret. split; [reflexivity|]. split; [apply same_adapter_refl | reflexivity].
  - destruct (api_attempt_spec (intro e) (req e) (shown e) w Hs) as (w1 & E1 & Hsame1 & Htr1).
    simpl first_success. rewrite (bind_ret _ _ _ _ _ E1).
    simpl map. simpl first_hit. unfold next_exchange in *. simpl got in *.
    destruct (reply_hit (fst (net (trace w) (req e)))) as [out|] eqn:Ehit.
    + exists w1. unfold ret. simpl. rewrite Ehit. split; [reflexivity|]. split; assumption.
    + assert (session w1 = OpenSession) as Hs1.
      { destruct Hsame1 as (_ & -> & _). exact Hs. }
      destruct (IH w1 Hs1) as (w2 & E2 & Hsame2 & Htr2).
      exists w2. simpl. rewrite Ehit, E2, Htr1. split; [reflexivity|].
      split; [eapply same_adapter_trans; eassumption|]. now rewrite Htr2, Htr1.
Qed.

Lemma fetch_json_api_first_hit player key w :
  session w = OpenSession ->
  usable_key w = Some key ->
  exists w',
    _fetch_json_api net player w
      = (Ret (or_none (fst (first_hit net (api_requests key (py_str player)) (trace w)))), w') /\
    same_adapter w w' /\
    trace w' = snd (first_hit net (api_requests key (py_str player)) (trace w)).
Proof.
  intros Hs Hkey. unfold _fetch_json_api, api_requests. rewrite Hkey.
  rewrite first_hit_app.
  destruct (api_loop_first_hit (fun e => "Trying endpoint: " ++ e)%string
              (bearer_request key) (fun e => e) (api_endpoints (py_str player)) w Hs)
    as (w1 & E1 & Hsame1 & Htr1).
  unfold bearer_attempt.
  rewrite (bind_ret _ _ _ _ _ E1).
  destruct (first_hit net (map (bearer_request key) (api_endpoints (py_str player))) (trace w))
    as [[out|] made1]; simpl in *.
  { exists w1. unfold ret. split; [reflexivity|]. split; assumption. }
  assert (session w1 = OpenSession) as Hs1.
  { destruct Hsame1 as (_ & -> & _). exact Hs. }
  destruct (api_loop_first_hit
              (fun e => "Trying endpoint with API key as parameter: " ++ e)%string
              (key_request key) (fun e => e ++ "?key=" ++ key)%string
              (api_endpoints (py_str player)) w1 Hs1)
    as (w2 & E2 & Hsame2 & Htr2).
  unfold key_attempt.
  rewrite (bind_ret _ _ _ _ _ E2). rewrite Htr1 in *.
  exists w2. unfold ret. split; [reflexivity|].
  split; [eapply same_adapter_trans; eassumption | exact Htr2].
Qed.

Lemma reply_hit_some rep out :
  reply_hit rep = Some out ->
  exists r body, rep = Responds r /\ status r = 200 /\ json r = Ret body /\
                 truthy body = true /\ _normalize_tornstats_data body = Ret out.
Proof.
  destruct rep as [e|r]; simpl; [discriminate|].
  destruct (status r =? 200) eqn:Es; [|discriminate].
  destruct (json r) as [body|] eqn:Ej; [|discriminate].
  destruct (truthy body) eqn:Et; [|discriminate].
  destruct (_normalize_tornstats_data body) as [o|] eqn:En; [|discriminate].
  intros H. injection H as <-. exists r, body.
  apply Z.eqb_eq in Es. now repeat split.
Qed.

Lemma from_json_more out l l' : from_json out l -> from_json out (l' ++ l).
Proof.
  intros (body & (x & r & Hin & H) & Ht & Hn). exists body. split; [|now split].
  exists x, r. split; [|exact H]. apply in_or_app. now right.
Qed.

Lemma api_attempt_runs intro req shown w :
  session w = OpenSession ->
  exists r w' e, api_attempt net intro req shown w = (Ret r, w') /\
    same_adapter w w' /\ trace w' = trace w ++ [e] /\
    forall v, r = Some v -> from_json v [e].
Proof.
  intros Hs. destruct (api_attempt_spec intro req shown w Hs) as (w' & E & Hsame & Htr).
  eexists _, w', _. split; [exact E|]. split; [exact Hsame|]. split; [exact Htr|].
  intros v Hv. apply reply_hit_some in Hv as (r & body & Hg & Hst & Hj & Ht & Hn).
  exists body. split; [|now split]. eexists _, r. split; [now left|]. now repeat split.
Qed.

Lemma fetch_json_api_spec player w :
  session w = OpenSession ->
  exists v w' l, _fetch_json_api net player w = (Ret v, w') /\
    same_adapter w w' /\ trace w' = trace w ++ l /\
    (v = VNone \/ from_json v l) /\
    (forall key, usable_key w = Some key -> exists e l', l = e :: l').
Proof.
  intros Hs. unfold _fetch_json_api.
  destruct (usable_key w) as [key|] eqn:Ekey.
  2:{ exists VNone, (add_log WARNING "No API key provided for TornStats" w), [].
      split; [reflexivity|]. split; [apply same_adapter_log|].
      split; [simpl; now rewrite app_nil_r|]. split; [now left | discriminate]. }
  destruct (first_success_runs (bearer_attempt net key) from_json
              (fun x w => api_attempt_runs _ _ _ w)
              from_json_more (api_endpoints (py_str player)) w Hs)
    as (r1 & w1 & l1 & E1 & Hsame1 & Htr1 & Hgood1 & Hne1).
  rewrite (bind_ret _ _ _ _ _ E1).
  destruct (Hne1 _ _ eq_refl) as (e & l1' & ->).
  destruct r1 as [out|].
  { exists out, w1, (e :: l1'). unfold ret. split; [reflexivity|].
    split; [exact Hsame1|]. split; [exact Htr1|]. split; [right; now apply Hgood1|].
    intros; eauto. }
  assert (session w1 = OpenSession) as Hs1.
  { destruct Hsame1 as (_ & -> & _). exact Hs. }
  destruct (first_success_runs (key_attempt net key) from_json
              (fun x w => api_attempt_runs _ _ _ w)
              from_json_more (api_endpoints (py_str player)) w1 Hs1)
    as (r2 & w2 & l2 & E2 & Hsame2 & Htr2 & Hgood2 & _).
  rewrite (bind_ret _ _ _ _ _ E2).
  exists (or_none r2), w2, ((e :: l1') ++ l2). unfold ret. split; [reflexivity|].
  split; [eapply same_adapter_trans; eassumption|].
  split; [rewrite Htr2, Htr1, <- app_assoc; reflexivity|].
  split; [|intros; simpl; eauto].
  destruct r2 as [out|]; [right|now left]. simpl.
  apply (from_json_more out l2 (e :: l1')). now apply Hgood2.
Qed.

Ltac done_step :=
  eexists _, _, _; split; [reflexivity|]; split; [now repeat split|];
  split; [reflexivity|]; try discriminate.

Lemma profile_attempt_runs player url w :
  session w = OpenSession ->
  exists r w' e,
    profile_attempt net soup BeautifulSoup scan_profile player url w = (Ret r, w') /\
    same_adapter w w' /\ trace w' = trace w ++ [e] /\
    forall v, r = Some v -> complete v = true.
Proof.
  intros Hs. unfold profile_attempt, bind, log, try_except.
  rewrite session_get_open by exact Hs.
  assert (next_exchange net (add_log INFO ("Trying to parse HTML from: " ++ url) w)
            (profile_request url) = next_exchange net w (profile_request url)) as ->
    by reflexivity.
  destruct (got (next_exchange net w (profile_request url))) as [e|r];
    cbn -[String.append]; [done_step|].
  destruct (status r =? 200); cbn -[String.append]; [|done_step].
  unfold lift, ret.
  destruct (text r) as [html|]; cbn -[String.append]; [|done_step].
  destruct (BeautifulSoup html) as [document|]; cbn -[String.append]; [|done_step].
  destruct (scan_profile document) as [page|]; cbn -[String.append]; [|done_step].
  destruct (match page_data page with [] => false | _ => true end && (0 <? stat_sum (page_data page)));
    cbn -[String.append]; [|done_step].
  eexists _, _, _. split; [reflexivity|]. split; [now repeat split|].
  split; [reflexivity|]. intros v Hv. injection Hv as <-. reflexivity.
Qed.

Lemma parse_html_profile_spec player w :
  session w = OpenSession ->
  exists v w' e l,
    _parse_html_profile net soup BeautifulSoup scan_profile player w = (Ret v, w') /\
    same_adapter w w' /\ trace w' = trace w ++ e :: l /\
    (v = VNone \/ complete v = true).
Proof.
  intros Hs. unfold _parse_html_profile.
  destruct (first_success_runs
              (profile_attempt net soup BeautifulSoup scan_profile (py_str player))
              (fun v _ => complete v = true)
              (fun x w => profile_attempt_runs _ x w)
              (fun v l l' H => H) (profile_urls (py_str player)) w Hs)
    as (r & w' & l & E & Hsame & Htr & Hgood & Hne).
  rewrite (bind_ret _ _ _ _ _ E).
  destruct (Hne _ _ eq_refl) as (e & l' & ->).
  exists (or_none r), w', e, l'. unfold ret. split; [reflexivity|].
  split; [exact Hsame|]. split; [exact Htr|].
  destruct r as [v|]; [right; now apply Hgood | now left].
Qed.

Lemma extract_json_from_html_spec html w :
  exists v w', _extract_json_from_html json_loads html w = (Ret v, w') /\
    same_adapter w w' /\ trace w' = trace w /\
    (v = VNone \/ from_embedded json_loads v).
Proof.
  unfold _extract_json_from_html, bind, try_except, lift, ret, log.
  destruct (str_contains start_marker html); cbn -[String.append strip substring];
    [|eexists _, _; split; [reflexivity|]; split; [now repeat split|]; split; [reflexivity | now left]].
  destruct (str_index start_marker 0 html) as [found|]; cbn -[String.append strip substring];
    [|eexists _, _; split; [reflexivity|]; split; [now repeat split|]; split; [reflexivity | now left]].
  destruct (str_index ";" _ html) as [json_end|]; cbn -[String.append strip substring];
    [|eexists _, _; split; [reflexivity|]; split; [now repeat split|]; split; [reflexivity | now left]].
  destruct (json_loads _) as [body|] eqn:Eload; cbn -[String.append strip substring];
    [|eexists _, _; split; [reflexivity|]; split; [now repeat split|]; split; [reflexivity | now left]].
  destruct (_normalize_tornstats_data body) as [out|] eqn:Enorm;
    cbn -[String.append strip substring];
    [|eexists _, _; split; [reflexivity|]; split; [now repeat split|]; split; [reflexivity | now left]].
  eexists _, _. split; [reflexivity|]. split; [now repeat split|]. split; [reflexivity|].
  right. eexists _, body. split; [exact Eload | exact Enorm].
Qed.

Lemma parse_tornstats_spy_html_complete document player v :
  _parse_tornstats_spy_html soup scan_spy document player = Ret v ->
  v = VNone \/ complete v = true.
Proof.
  unfold _parse_tornstats_spy_html.
  destruct (scan_spy document) as [[page|]|]; simpl; try discriminate;
    intros H; injection H as <-; [now right | now left].
Qed.

Ltac done_auth :=
  eexists _, _, _; split; [reflexivity|]; split; [now repeat split|];
  split; [cbn -[String.append]; rewrite <- ?app_assoc; reflexivity|]; now left.

Lemma try_authenticated_access_spec player w :
  session w = OpenSession ->
  exists v w' l,
    _try_authenticated_access net soup BeautifulSoup scan_spy json_loads player w
      = (Ret v, w') /\
    same_adapter w w' /\ trace w' = trace w ++ l /\
    (v = VNone \/ complete v = true \/ from_embedded json_loads v).
Proof.
  intros Hs. unfold _try_authenticated_access.
  destruct (usable_key w) as [key|].
  2:{ exists VNone, w, []. split; [reflexivity|]. split; [apply same_adapter_refl|].
      split; [now rewrite app_nil_r | now left]. }
  unfold bind at 1. unfold try_except. unfold bind at 1.
  rewrite session_get_open by exact Hs.
  set (x1 := next_exchange net w (login_request key)).
  destruct (got x1) as [e|login_response]; cbn -[String.append]; [done_auth|].
  unfold bind at 1. rewrite session_get_open by exact Hs.
  set (x2 := next_exchange net (add_exchange x1 w) _).
  destruct (got x2) as [e|spy_response]; cbn -[String.append]; [done_auth|].
  destruct (status spy_response =? 200); cbn -[String.append]; [|done_auth].
  unfold bind at 1. unfold lift at 1.
  destruct (text spy_response) as [html|]; cbn -[String.append]; [|done_auth].
  unfold bind at 1.
  destruct (extract_json_from_html_spec html (add_exchange x2 (add_exchange x1 w)))
    as (json_data & w3 & E3 & Hsame3 & Htr3 & Hv3).
  rewrite E3.
  destruct (truthy json_data) eqn:Etruthy.
  { exists json_data, w3, [x1; x2]. unfold ret. cbn -[String.append].
    split; [reflexivity|].
    split; [destruct Hsame3 as (? & ? & ?); repeat split; assumption|].
    split; [rewrite Htr3; simpl; now rewrite <- app_assoc|].
    destruct Hv3 as [->|Hv3]; [discriminate|]. right. now right. }
  unfold bind, lift, ret.
  destruct (BeautifulSoup html) as [document|]; cbn -[String.append].
  2:{ eexists _, _, [x1; x2]. split; [reflexivity|].
      split; [destruct Hsame3 as (? & ? & ?); repeat split; assumption|].
      split; [simpl; rewrite Htr3; simpl; now rewrite <- app_assoc | now left]. }
  destruct (_parse_tornstats_spy_html soup scan_spy document player) as [out|] eqn:Eout;
    cbn -[String.append].
  2:{ eexists _, _, [x1; x2]. split; [reflexivity|].
      split; [destruct Hsame3 as (? & ? & ?); repeat split; assumption|].
      split; [simpl; rewrite Htr3; simpl; now rewrite <- app_assoc | now left]. }
  exists out, w3, [x1; x2]. split; [reflexivity|].
  split; [destruct Hsame3 as (? & ? & ?); repeat split; assumption|].
  split; [rewrite Htr3; simpl; now rewrite <- app_assoc|].
  apply parse_tornstats_spy_html_complete in Eout as [->|Hc]; [now left | right; now left].
Qed.

Lemma get_from_cache_eq key w :
  get_from_cache key w = (Ret (cached_value key w), set_cache (cache_after_lookup key w) w).
Proof.
  unfold get_from_cache, cached_value, cache_after_lookup.
  destruct (cache w !! key) as [entry|]; [destruct (live (clock w) entry)|];
    destruct w; reflexivity.
Qed.

Lemma ensure_session_opens w :
  exists w', ensure_session w = (Ret tt, w') /\ session w' = OpenSession /\
             api_key w' = api_key w /\ cache w' = cache w /\
             trace w' = trace w /\ clock w' = clock w.
Proof.
  unfold ensure_session. destruct (session w) eqn:E;
    eexists; (split; [reflexivity|]); now repeat split.
Qed.

Lemma get_player_data_spec player w :
  exists v w',
    get_player_data net soup BeautifulSoup scan_profile scan_spy json_loads player w
      = (Ret v, w') /\
    api_key w' = api_key w /\
    if truthy (cached_value (cache_key player) w) then
      v = cached_value (cache_key player) w /\ trace w' = trace w /\
      cache w' = cache w /\ clock w' = clock w
    else
      exists e l, trace w' = trace w ++ e :: l /\
        ((v = VNone /\ cache w' = cache_after_lookup (cache_key player) w /\
          exists earlier,
            logged w' =
              earlier ++
              [(WARNING, ("Could not retrieve data for player " ++ py_str player)%string)]) \/
         (truthy v = true /\
          cache w' = <[cache_key player := CacheEntry v (clock w')]>
                       (cache_after_lookup (cache_key player) w) /\
          provenance json_loads v (e :: l))).
Proof.
  unfold get_player_data.
  rewrite (bind_ret _ _ _ _ _ (get_from_cache_eq (cache_key player) w)).
  destruct (truthy (cached_value (cache_key player) w)) eqn:Ehit.
  { eexists _, _. split; [reflexivity|]. split; [reflexivity|].
    unfold cached_value, cache_after_lookup in *.
    destruct (cache w !! cache_key player) as [entry|]; [|discriminate].
    destruct (live (clock w) entry); [|discriminate]. now repeat split. }
  set (w0 := set_cache (cache_after_lookup (cache_key player) w) w).
  destruct (ensure_session_opens w0) as (w1 & E1 & Hs1 & Hk1 & Hc1 & Ht1 & _).
  set (w2 := add_log INFO ("Trying JSON API for player " ++ py_str player) w1).
  destruct (fetch_json_api_spec player w2 Hs1)
    as (json_data & w3 & l3 & E3 & (Hk3 & Hs3 & Hc3) & Ht3 & Hv3 & _).
  assert (api_key w3 = api_key w) as Hkey3
    by (rewrite Hk3; cbn; rewrite Hk1; reflexivity).
  assert (cache w3 = cache_after_lookup (cache_key player) w) as Hcache3
    by (rewrite Hc3; cbn; rewrite Hc1; reflexivity).
  unfold try_except.
  rewrite (bind_ret _ _ _ _ _ E1).
  unfold bind at 1. unfold log at 1. fold w2.
  rewrite (bind_ret _ _ _ _ _ E3).
  destruct (truthy json_data) eqn:Ejson.
  { (* the JSON strategy produced the record; the other strategies made
       at least one request *)
    destruct Hv3 as [->|Hv3]; [discriminate|].
    assert (exists e l, l3 = e :: l) as (e & l & ->).
    { destruct Hv3 as (body & (x & r & Hin & _) & _). destruct l3; [destruct Hin | eauto]. }
    eexists json_data, _. unfold bind, cache_store, ret. cbn -[String.append].
    split; [reflexivity|]. split; [exact Hkey3|].
    exists e, l. split; [cbn; rewrite Ht3; cbn; now rewrite Ht1|].
    right. split; [assumption|]. split; [cbn; now rewrite Hcache3|].
    right. now left. }
  set (w4 := add_log INFO ("Trying HTML parsing for player " ++ py_str player) w3).
  assert (session w4 = OpenSession) as Hs4 by (cbn; now rewrite Hs3).
  destruct (parse_html_profile_spec player w4 Hs4)
    as (html_data & w5 & e & l5 & E5 & (Hk5 & Hs5 & Hc5) & Ht5 & Hv5).
  assert (api_key w5 = api_key w) as Hkey5 by (rewrite Hk5; exact Hkey3).
  assert (cache w5 = cache_after_lookup (cache_key player) w) as Hcache5
    by (rewrite Hc5; exact Hcache3).
  unfold bind at 1. unfold log at 1. fold w4.
  rewrite (bind_ret _ _ _ _ _ E5).
  assert (trace w5 = trace w ++ (l3 ++ e :: l5)) as Htrace5.
  { rewrite Ht5. cbn. rewrite Ht3. cbn. rewrite Ht1. cbn. now rewrite <- app_assoc. }
  assert (exists e' l', l3 ++ e :: l5 = e' :: l') as (e' & l' & El).
  { destruct l3; simpl; eauto. }
  rewrite El in Htrace5.
  destruct (truthy html_data) eqn:Ehtml.
  { destruct Hv5 as [->|Hv5]; [discriminate|].
    eexists html_data, _. unfold bind, cache_store, ret. cbn -[String.append].
    split; [reflexivity|]. split; [exact Hkey5|].
    exists e', l'. split; [exact Htrace5|].
    right. split; [assumption|].
    split; [cbn; now rewrite Hcache5 | now left]. }
  set (w6 := add_log INFO ("Trying authenticated access for player " ++ py_str player) w5).
  assert (session w6 = OpenSession) as Hs6 by (cbn; now rewrite Hs5).
  destruct (try_authenticated_access_spec player w6 Hs6)
    as (auth_data & w7 & l7 & E7 & (Hk7 & Hs7 & Hc7) & Ht7 & Hv7).
  assert (api_key w7 = api_key w) as Hkey7 by (rewrite Hk7; exact Hkey5).
  assert (cache w7 = cache_after_lookup (cache_key player) w) as Hcache7
    by (rewrite Hc7; exact Hcache5).
  unfold bind at 1. unfold log at 1. fold w6.
  rewrite (bind_ret _ _ _ _ _ E7).
  assert (trace w7 = trace w ++ e' :: (l' ++ l7)) as Htrace7.
  { rewrite Ht7. cbn. rewrite Htrace5. now rewrite <- app_assoc. }
  destruct (truthy auth_data) eqn:Eauth.
  { eexists auth_data, _. unfold bind, cache_store, ret. cbn -[String.append].
    split; [reflexivity|]. split; [exact Hkey7|].
    exists e', (l' ++ l7). split; [exact Htrace7|].
    right. split; [assumption|].
    split; [cbn; now rewrite Hcache7|].
    destruct Hv7 as [->|[Hv7|Hv7]]; [discriminate | now left | right; now right]. }
  eexists VNone, _. unfold bind, log, ret. cbn -[String.append].
  split; [reflexivity|]. split; [exact Hkey7|].
  exists e', (l' ++ l7). split; [exact Htrace7|].
  left. split; [reflexivity|]. split; [exact Hcache7|]. eexists. reflexivity.
Qed.

(** ** A host that cannot be reached *)

Lemma profile_attempt_fails player url w :
  session w = OpenSession ->
  (exists e, got (next_exchange net w (profile_request url)) = Fails e) ->
  exists w', profile_attempt net soup BeautifulSoup scan_profile player url w
               = (Ret None, w') /\
             same_adapter w w'.
Proof.
  intros Hs (e & He). unfold profile_attempt, bind, log, try_except.
  rewrite session_get_open by exact Hs.
  assert (next_exchange net (add_log INFO ("Trying to parse HTML from: " ++ url) w)
            (profile_request url) = next_exchange net w (profile_request url)) as ->
    by reflexivity.
  rewrite He. cbn -[String.append]. eexists. split; [reflexivity|]. now repeat split.
Qed.

Lemma first_success_misses {A} (attempt : A -> M (option value)) :
  (forall x w, session w = OpenSession ->
     exists w', attempt x w = (Ret None, w') /\ same_adapter w w') ->
  forall xs w, session w = OpenSession ->
    exists w', first_success attempt xs w = (Ret None, w') /\ same_adapter w w'.
Proof.
  intros Hatt xs. induction xs as [|x rest IH]; intros w Hs.
  - exists w. split; [reflexivity | apply same_adapter_refl].
  - destruct (Hatt x w Hs) as (w1 & E1 & Hsame1).
    assert (session w1 = OpenSession) as Hs1.
    { destruct Hsame1 as (_ & -> & _). exact Hs. }
    destruct (IH w1 Hs1) as (w2 & E2 & Hsame2).
    exists w2. simpl. rewrite (bind_ret _ _ _ _ _ E1).
    split; [exact E2 | eapply same_adapter_trans; eassumption].
Qed.

Lemma unreachable_without_key player w :
  usable_key w = None ->
  truthy (cached_value (cache_key player) w) = false ->
  (forall made req, exists e, fst (net made req) = Fails e) ->
  exists w' earlier,
    get_player_data net soup BeautifulSoup scan_profile scan_spy json_loads player w
      = (Ret VNone, w') /\
    logged w' =
      earlier ++ [(WARNING, ("Could not retrieve data for player " ++ py_str player)%string)].
Proof.
  intros Hkey Hmiss Hnet. unfold get_player_data.
  rewrite (bind_ret _ _ _ _ _ (get_from_cache_eq (cache_key player) w)).
  rewrite Hmiss.
  set (w0 := set_cache (cache_after_lookup (cache_key player) w) w).
  destruct (ensure_session_opens w0) as (w1 & E1 & Hs1 & Hk1 & _).
  unfold try_except. rewrite (bind_ret _ _ _ _ _ E1).
  unfold bind at 1. unfold log at 1.
  set (w2 := add_log INFO ("Trying JSON API for player " ++ py_str player) w1).
  assert (usable_key w2 = None) as Hkey2.
  { unfold usable_key in *. cbn. rewrite Hk1. exact Hkey. }
  unfold bind at 1. unfold _fetch_json_api at 1. rewrite Hkey2.
  cbn -[String.append _parse_html_profile _try_authenticated_access].
  unfold bind at 1. unfold log at 1.
  set (w4 := add_log INFO _ (add_log WARNING _ w2)).
  assert (session w4 = OpenSession) as Hs4 by exact Hs1.
  destruct (first_success_misses
              (profile_attempt net soup BeautifulSoup scan_profile (py_str player))
              (fun url w Hs => profile_attempt_fails (py_str player) url w Hs (Hnet _ _))
              (profile_urls (py_str player)) w4 Hs4) as (w5 & E5 & (Hk5 & _)).
  unfold _parse_html_profile. unfold bind at 1. unfold bind at 1. rewrite E5.
  cbn -[String.append _try_authenticated_access].
  unfold bind at 1. unfold log at 1. unfold bind at 1.
  unfold _try_authenticated_access.
  assert (usable_key (add_log INFO
            ("Trying authenticated access for player " ++ py_str player) w5) = None) as ->.
  { unfold usable_key in *. cbn. rewrite Hk5. exact Hkey2. }
  cbn -[String.append]. eexists _, _. split; reflexivity.
Qed.

Lemma get_player_data_first_hit player key w out made :
  usable_key w = Some key ->
  truthy (cached_value (cache_key player) w) = false ->
  first_hit net (api_requests key (py_str player)) (trace w) = (Some out, made) ->
  truthy out = true ->
  exists w',
    get_player_data net soup BeautifulSoup scan_profile scan_spy json_loads player w
      = (Ret out, w') /\
    trace w' = made.
Proof.
  intros Hkey Hmiss Hhit Htruthy. unfold get_player_data.
  rewrite (bind_ret _ _ _ _ _ (get_from_cache_eq (cache_key player) w)).
  rewrite Hmiss.
  set (w0 := set_cache (cache_after_lookup (cache_key player) w) w).
  destruct (ensure_session_opens w0) as (w1 & E1 & Hs1 & Hk1 & _ & Ht1 & _).
  unfold try_except. rewrite (bind_ret _ _ _ _ _ E1).
  unfold bind at 1. unfold log at 1.
  set (w2 := add_log INFO ("Trying JSON API for player " ++ py_str player) w1).
  assert (usable_key w2 = Some key) as Hkey2.
  { unfold usable_key in *. cbn. rewrite Hk1. exact Hkey. }
  destruct (fetch_json_api_first_hit player key w2 Hs1 Hkey2) as (w3 & E3 & _ & Ht3).
  assert (trace w2 = trace w) as Ht2 by (cbn; now rewrite Ht1).
  rewrite Ht2, Hhit in E3, Ht3. simpl in E3, Ht3.
  rewrite (bind_ret _ _ _ _ _ E3). rewrite Htruthy.
  unfold bind, cache_store, ret. eexists. split; [reflexivity | exact Ht3].
Qed.

(** ** The claims about the adapter *)

(** C1.  For every player, [get_player_data] ends by returning: its
    result is never an exception.  The value is a truthy record, or it is
    [None] and the last line logged is the warning that no data could be
    retrieved.  Each strategy, run with the session open, also ends by
    returning: whatever a request, a parser or the normalizer raises
    inside it is a miss.  With no usable credential, no live cache entry
    and a host on which every request fails, the value is [None]. *)
Theorem get_player_data_never_raises player w :
  (forall w0, session w0 = OpenSession ->
     (exists v w', _fetch_json_api net player w0 = (Ret v, w')) /\
     (exists v w',
        _parse_html_profile net soup BeautifulSoup scan_profile player w0 = (Ret v, w')) /\
     (exists v w',
        _try_authenticated_access net soup BeautifulSoup scan_spy json_loads player w0
          = (Ret v, w'))) /\
  exists v w',
    get_player_data net soup BeautifulSoup scan_profile scan_spy json_loads player w
      = (Ret v, w') /\
    (truthy v = true \/
     (v = VNone /\
      exists earlier,
        logged w' =
          earlier ++
          [(WARNING, ("Could not retrieve data for player " ++ py_str player)%string)])) /\
    (usable_key w = None ->
     truthy (cached_value (cache_key player) w) = false ->
     (forall made req, exists e, fst (net made req) = Fails e) ->
     v = VNone).
Proof.
  split.
  { intros w0 Hs. split; [|split].
    - destruct (fetch_json_api_spec player w0 Hs) as (v & w' & _ & E & _). eauto.
    - destruct (parse_html_profile_spec player w0 Hs) as (v & w' & _ & _ & E & _). eauto.
    - destruct (try_authenticated_access_spec player w0 Hs) as (v & w' & _ & E & _). eauto. }
  destruct (get_player_data_spec player w) as (v & w' & E & _ & H).
  exists v, w'. split; [exact E|]. split.
  - destruct (truthy (cached_value (cache_key player) w)) eqn:Ehit.
    + destruct H as (-> & _). now left.
    + destruct H as (_ & _ & _ & [(-> & _ & Hlog)|(Ht & _)]); [right | now left].
      now split.
  - intros Hkey Hmiss Hnet.
    destruct (unreachable_without_key player w Hkey Hmiss Hnet) as (w2 & earlier & E2 & _).
    rewrite E in E2. now injection E2 as -> ->.
Qed.

(** C2 (amended).  A value other than [None] that [get_player_data]
    returns is the live cache entry's data, or a record whose ['spy']
    object holds all eight keys, or a parsed JSON document (the body of a
    200 reply of this adapter, or a literal embedded in a page) that the
    normalizer hands back as it is. *)
Theorem returned_record_keys player w v w' :
  get_player_data net soup BeautifulSoup scan_profile scan_spy json_loads player w
    = (Ret v, w') ->
  v <> VNone ->
  v = cached_value (cache_key player) w \/
  complete v = true \/
  (_normalize_tornstats_data v = Ret v /\
   (served_json (trace w') v \/ exists literal, json_loads literal = Ret v)).
Proof.
  intros E Hv. destruct (get_player_data_spec player w) as (v2 & w2 & E2 & _ & H).
  rewrite E in E2. injection E2 as <- <-.
  destruct (truthy (cached_value (cache_key player) w)).
  { destruct H as (-> & _). now left. }
  destruct H as (e & l & Htr & [(-> & _)|(_ & _ & Hp)]); [congruence|].
  right. destruct Hp as [Hc|[(body & Hs & _ & Hn)|(literal & body & Hl & Hn)]].
  - now left.
  - destruct (normalize_result _ _ Hn) as [->|Hc]; [right | now left].
    split; [exact Hn|]. left. destruct Hs as (x & r & Hin & Hr).
    exists x, r. split; [|exact Hr]. rewrite Htr. apply in_or_app. now right.
  - destruct (normalize_result _ _ Hn) as [->|Hc]; [right | now left].
    split; [exact Hn|]. right. now exists literal.
Qed.

(** C3 (amended).  When [get_player_data] returns a record [r] other
    than [None], the cache then holds [r] under ['player_' + p] with the
    loop time at which it was stored: the end of this call when the call
    fetched [r], the older time of the entry when the call was itself
    answered from the cache.  A later call in any world that still has
    this entry, made less than 3600 seconds after that stored time,
    returns [r], makes no request and leaves the cache as it is. *)
Theorem cached_answer_within_ttl player w r w1 :
  get_player_data net soup BeautifulSoup scan_profile scan_spy json_loads player w
    = (Ret r, w1) ->
  r <> VNone ->
  exists stored,
    cache w1 !! cache_key player = Some (CacheEntry r stored) /\
    (stored = clock w1 \/ cache w !! cache_key player = Some (CacheEntry r stored)) /\
    forall w2,
      cache w2 !! cache_key player = Some (CacheEntry r stored) ->
      PrimFloat.ltb (PrimFloat.sub (clock w2) stored) 3600%float = true ->
      exists w2',
        get_player_data net soup BeautifulSoup scan_profile scan_spy json_loads player w2
          = (Ret r, w2') /\
        trace w2' = trace w2 /\ cache w2' = cache w2.
Proof.
  intros E Hr. destruct (get_player_data_spec player w) as (v & w' & E' & _ & H).
  rewrite E in E'. injection E' as <- <-.
  assert (exists stored, cache w1 !! cache_key player = Some (CacheEntry r stored) /\
            (stored = clock w1 \/ cache w !! cache_key player = Some (CacheEntry r stored)) /\
            truthy r = true) as (stored & Hin & Hwhen & Htruthy).
  { destruct (truthy (cached_value (cache_key player) w)) eqn:Ehit.
    - destruct H as (Hv & _ & Hc & _). unfold cached_value in *.
      destruct (cache w !! cache_key player) as [[d ts]|] eqn:Ec; [|discriminate].
      destruct (live (clock w) (CacheEntry d ts)); [|discriminate].
      simpl in *. subst d. exists ts. rewrite Hc. now repeat split; [|right|].
    - destruct H as (_ & _ & _ & [(-> & _)|(Ht & Hc & _)]); [congruence|].
      exists (clock w1). rewrite Hc. split; [apply lookup_insert_eq|]. split; [now left|exact Ht]. }
  exists stored. split; [exact Hin|]. split; [exact Hwhen|].
  intros w2 Hin2 Hlive.
  destruct (get_player_data_spec player w2) as (v2 & w2' & E2 & _ & H2).
  assert (cached_value (cache_key player) w2 = r) as Hcv.
  { unfold cached_value. rewrite Hin2. unfold live, cache_expiry. cbn [timestamp data].
    now rewrite Hlive. }
  rewrite Hcv, Htruthy in H2. destruct H2 as (-> & Htr & Hc & _).
  exists w2'. now repeat split.
Qed.

(** C4 (amended).  With a usable credential, the JSON strategy is the
    walk [first_hit] over [api_requests]: the three endpoints with the
    credential in the Authorization header, then the same three with the
    credential as a query parameter.  It returns the normalizer's output
    for the first reply that is a hit (status 200, a body that parses to
    a truthy JSON value, accepted by the normalizer) and makes no request
    after it; every other reply (an exception such as a timeout or a
    connection error, another status, a body that is not JSON, a body
    that parses to an empty or otherwise falsy value, a body on which
    the normalizer raises) only moves the walk to the next candidate. *)
Theorem fetch_json_api_stops_at_first_hit player key w :
  session w = OpenSession ->
  usable_key w = Some key ->
  (exists w',
     _fetch_json_api net player w
       = (Ret (or_none (fst (first_hit net (api_requests key (py_str player)) (trace w)))), w') /\
     trace w' = snd (first_hit net (api_requests key (py_str player)) (trace w))) /\
  (forall req rest made,
     let x := Exchange req (fst (net made req)) (snd (net made req)) in
     (forall r body out,
        got x = Responds r -> status r = 200 -> json r = Ret body ->
        truthy body = true -> _normalize_tornstats_data body = Ret out ->
        first_hit net (req :: rest) made = (Some out, made ++ [x])) /\
     ((exists e, got x = Fails e) \/
      (exists r, got x = Responds r /\ status r <> 200) \/
      (exists r e, got x = Responds r /\ json r = Raise e) \/
      (exists r body, got x = Responds r /\ json r = Ret body /\ truthy body = false) \/
      (exists r body e, got x = Responds r /\ json r = Ret body /\
                        _normalize_tornstats_data body = Raise e) ->
      first_hit net (req :: rest) made = first_hit net rest (made ++ [x]))).
Proof.
  intros Hs Hkey. split.
  - destruct (fetch_json_api_first_hit player key w Hs Hkey) as (w' & E & _ & Htr).
    now exists w'.
  - intros req rest made x. subst x. simpl got. split.
    + intros r body out Hg Hst Hj Ht Hn. simpl.
      unfold reply_hit. rewrite Hg, Hst, Hj, Ht, Hn. reflexivity.
    + intros H. simpl.
      assert (reply_hit (fst (net made req)) = None) as ->; [|reflexivity].
      destruct H as [(e & ->)|[(r & -> & Hst)|[(r & e & -> & Hj)|
                     [(r & body & -> & Hj & Ht)|(r & body & e & -> & Hj & Hn)]]]]; simpl.
      * reflexivity.
      * apply Z.eqb_neq in Hst. now rewrite Hst.
      * rewrite Hj. now destruct (status r =? 200).
      * rewrite Hj, Ht. now destruct (status r =? 200).
      * rewrite Hj, Hn. destruct (status r =? 200); [|reflexivity].
        now destruct (truthy body).
Qed.

(** C8.  [get_from_cache] returns the stored data exactly when the key
    has an entry whose age, the loop time minus the stored time, is less
    than 3600; a read of an older entry deletes it and returns [None],
    and so does a read of a missing key.  A [get_player_data] call that
    finds its entry expired makes at least one request. *)
Theorem cache_expiry_is_lazy player key w :
  (forall entry, cache w !! key = Some entry ->
     PrimFloat.ltb (PrimFloat.sub (clock w) (timestamp entry)) 3600%float = true ->
     get_from_cache key w = (Ret (data entry), w)) /\
  (forall entry, cache w !! key = Some entry ->
     PrimFloat.ltb (PrimFloat.sub (clock w) (timestamp entry)) 3600%float = false ->
     get_from_cache key w = (Ret VNone, set_cache (delete key (cache w)) w) /\
     cache (set_cache (delete key (cache w)) w) !! key = None) /\
  (cache w !! key = None -> get_from_cache key w = (Ret VNone, w)) /\
  (forall entry, cache w !! cache_key player = Some entry ->
     PrimFloat.ltb (PrimFloat.sub (clock w) (timestamp entry)) 3600%float = false ->
     exists v w' e l,
       get_player_data net soup BeautifulSoup scan_profile scan_spy json_loads player w
         = (Ret v, w') /\
       trace w' = trace w ++ e :: l).
Proof.
  split; [|split; [|split]].
  - intros entry He Hl. unfold get_from_cache, live, cache_expiry. now rewrite He, Hl.
  - intros entry He Hl. split; [|apply lookup_delete_eq].
    unfold get_from_cache, live, cache_expiry. now rewrite He, Hl.
  - intros He. unfold get_from_cache. now rewrite He.
  - intros entry He Hl.
    destruct (get_player_data_spec player w) as (v & w' & E & _ & H).
    assert (cached_value (cache_key player) w = VNone) as Hcv.
    { unfold cached_value, live, cache_expiry. now rewrite He, Hl. }
    rewrite Hcv in H. simpl in H. destruct H as (e & l & Htr & _).
    now exists v, w', e, l.
Qed.

(** X29.  The normalizer returns unchanged every dict that
    has a ['spy'] key and every dict of none of the four shapes; so when
    the credential is usable, the cache has no live entry, the candidates
    before some request of the JSON strategy all miss and that request
    is answered 200 with a JSON object that has a ['spy'] key,
    [get_player_data] returns that object unchanged. *)
Theorem normalizer_passes_through player key w items :
  (has_key "spy" items = true ->
   _normalize_tornstats_data (VDict items) = Ret (VDict items)) /\
  (unrecognized items ->
   _normalize_tornstats_data (VDict items) = Ret (VDict items)) /\
  (forall before req after made r,
     has_key "spy" items = true ->
     usable_key w = Some key ->
     truthy (cached_value (cache_key player) w) = false ->
     api_requests key (py_str player) = before ++ req :: after ->
     first_hit net before (trace w) = (None, made) ->
     fst (net made req) = Responds r ->
     status r = 200 ->
     json r = Ret (VDict items) ->
     exists w',
       get_player_data net soup BeautifulSoup scan_profile scan_spy json_loads player w
         = (Ret (VDict items), w')).
Proof.
  split; [apply normalize_spy|]. split; [apply normalize_unrecognized|].
  intros before req after made r Hspy Hkey Hmiss Hreqs Hbefore Hr Hst Hj.
  assert (truthy (VDict items) = true) as Ht.
  { destruct items; [discriminate | reflexivity]. }
  edestruct (get_player_data_first_hit player key w (VDict items)) as (w' & E & _);
    try eassumption; [|now exists w'].
  rewrite Hreqs, first_hit_app, Hbefore. simpl first_hit.
  rewrite Hr. unfold reply_hit. rewrite Hst, Hj, Ht, (normalize_spy _ Hspy). reflexivity.
Qed.

End AdapterFacts.

(** C5 (amended).  For one dict of fields, the three shapes the
    normalizer converts (the fields under ['user'], the fields under
    ['stats'] next to a status of ['ok'], and the bare fields holding the
    four stat names) give the same record, key for key and in the same
    order.  The fourth shape, the fields under ['spy'], is returned as it
    came, which is that record only when the input already was it. *)
Theorem normalizer_shape_invariance
  (fields user_shape stats_shape spy_shape : list (string * Py.value)) :
  Py.has_key "spy" user_shape = false ->
  Py.items_get "user" user_shape = Some (Py.VDict fields) ->
  Py.has_key "spy" stats_shape = false ->
  Py.has_key "user" stats_shape = false ->
  Py.items_get "status" stats_shape = Some (Py.VStr "ok") ->
  Py.items_get "stats" stats_shape = Some (Py.VDict fields) ->
  Py.has_key "spy" fields = false ->
  Py.has_key "user" fields = false ->
  (Py.items_get "status" fields = Some (Py.VStr "ok") -> Py.has_key "stats" fields = false) ->
  forallb (fun key => Py.has_key key fields) Adapter.stat_names = true ->
  Py.items_get "spy" spy_shape = Some (Py.VDict fields) ->
  Adapter._normalize_tornstats_data (Py.VDict user_shape)
    = Py.Ret (Adapter.converted fields) /\
  Adapter._normalize_tornstats_data (Py.VDict stats_shape)
    = Py.Ret (Adapter.converted fields) /\
  Adapter._normalize_tornstats_data (Py.VDict fields)
    = Py.Ret (Adapter.converted fields) /\
  Adapter._normalize_tornstats_data (Py.VDict spy_shape) = Py.Ret (Py.VDict spy_shape).
Proof.
  intros Hu1 Hu2 Hs1 Hs2 Hs3 Hs4 Hb1 Hb2 Hb3 Hb4 Hspy.
  split; [now apply normalize_user|].
  split; [now apply normalize_stats|].
  split; [now apply normalize_bare|].
  apply normalize_spy. unfold Py.has_key. now rewrite Hspy.
Qed.

(* ===================================================================== *)
(** * The adapter on concrete worlds                                     *)
(* ===================================================================== *)

Section AdapterRuns.
Import Py Adapter Examples.
Local Open Scope list_scope.

(** C1 at a fresh adapter without credential and a host that cannot be
    reached: the call returns [None] and logs the final warning. *)
Lemma get_player_data_never_raises_witness :
  usable_key fresh = None /\
  truthy (cached_value (cache_key (PidStr "1")) fresh) = false /\
  (forall made req, exists e, fst (unreachable made req) = Fails e) /\
  exists w' earlier,
    run unreachable (PidStr "1") fresh = (Ret VNone, w') /\
    logged w' = earlier ++ [(WARNING, "Could not retrieve data for player 1"%string)].
Proof.
  split; [reflexivity|]. split; [reflexivity|].
  split; [intros made req; eexists; reflexivity|].
  destruct (get_player_data_never_raises unreachable unit no_parser no_profile no_spy
              no_json (PidStr "1") fresh) as (_ & v & w' & E & Hv & H).
  assert (v = VNone) as ->
    by exact (H eq_refl eq_refl (fun made req => ex_intro _ _ eq_refl)).
  destruct Hv as [Ht | (_ & earlier & Hlog)]; [discriminate|].
  exists w', earlier. split; [exact E | exact Hlog].
Defined.

(** C2 fails as stated: with a credential, a host that answers the first
    endpoint with the JSON error document makes [get_player_data] return
    that document, which has no ['spy'] key at all. *)
Lemma error_body_is_returned :
  fst (run (always_json error_body) (PidStr "1") fresh_with_key) = Ret error_body /\
  complete error_body = false /\
  items_get "spy" [("status", VBool false); ("message", VStr "ERROR: User not found.")] = None.
Proof. vm_compute. repeat split. Qed.

(** C2 (amended) at that run: the value returned is a parsed body that
    the normalizer hands back as it is. *)
Lemma returned_record_keys_witness :
  run (always_json error_body) (PidStr "1") fresh_with_key
    = (Ret error_body, snd (run (always_json error_body) (PidStr "1") fresh_with_key)) /\
  error_body <> VNone /\
  (error_body = cached_value (cache_key (PidStr "1")) fresh_with_key \/
   complete error_body = true \/
   (_normalize_tornstats_data error_body = Ret error_body /\
    (served_json
       (trace (snd (run (always_json error_body) (PidStr "1") fresh_with_key))) error_body \/
     exists literal, no_json literal = Ret error_body))).
Proof.
  assert (run (always_json error_body) (PidStr "1") fresh_with_key
    = (Ret error_body, snd (run (always_json error_body) (PidStr "1") fresh_with_key))) as E
    by (vm_compute; reflexivity).
  split; [exact E|]. split; [discriminate|].
  apply (returned_record_keys (always_json error_body) unit no_parser no_profile no_spy
           no_json (PidStr "1") fresh_with_key error_body _ E).
  discriminate.
Defined.

(** C3 fails as stated: an entry stored at time 0 answers a first call
    at time 3000 from the cache, without renewing the entry; a second
    call 1000 seconds later finds the entry expired, goes to the network
    (four requests, the host being unreachable) and returns [None]. *)
Lemma cache_hit_does_not_renew_entry :
  let first := run unreachable (PidStr "7") (cached_at 3000%float) in
  let second := run unreachable (PidStr "7") (set_clock 4000%float (snd first)) in
  fst first = Ret sample_record /\
  trace (snd first) = [] /\
  PrimFloat.ltb (PrimFloat.sub 4000%float 3000%float) 3600%float = true /\
  fst second = Ret VNone /\
  length (trace (snd second)) = 4%nat.
Proof. vm_compute. repeat split. Qed.

(** C3 (amended) at a run that fetches [sample_record] (stored when the
    clock reads 1) and asks again when the clock reads 3000. *)
Lemma cached_answer_within_ttl_witness :
  let net := always_json (VDict [("user", VDict four_stats)]) in
  let first := run net (PidStr "7") fresh_with_key in
  first = (Ret sample_record, snd first) /\
  sample_record <> VNone /\
  exists w2',
    run net (PidStr "7") (set_clock 3000%float (snd first)) = (Ret sample_record, w2') /\
    trace w2' = trace (snd first).
Proof.
  set (net := always_json (VDict [("user", VDict four_stats)])).
  set (first := run net (PidStr "7") fresh_with_key).
  assert (first = (Ret sample_record, snd first)) as E by (vm_compute; reflexivity).
  split; [exact E|]. split; [discriminate|].
  destruct (cached_answer_within_ttl net unit no_parser no_profile no_spy no_json
              (PidStr "7") fresh_with_key sample_record (snd first) E)
    as (stored & Hin & _ & Hnext); [discriminate|].
  assert (cache (snd first) !! cache_key (PidStr "7")
          = Some (CacheEntry sample_record 1%float)) as Hone by (vm_compute; reflexivity).
  rewrite Hone in Hin. injection Hin as <-.
  destruct (Hnext (set_clock 3000%float (snd first)) Hone eq_refl) as (w2' & E2 & Htr & _).
  exists w2'. split; [exact E2 | exact Htr].
Defined.

(** C4 fails as stated: a 200 reply whose body parses as JSON to the
    empty object is not handed to the normalizer; the strategy goes on
    through all six candidates and returns [None]. *)
Lemma empty_json_body_is_a_miss :
  let out := run_json_api (always_json (VDict [])) (PidStr "1") ready_with_key in
  fst out = Ret VNone /\
  map got (trace (snd out))
    = repeat (Responds (Response 200 (Ret ""%string) (Ret (VDict [])) [])) 6.
Proof. vm_compute. split; reflexivity. Qed.

(** C4 (amended) at an adapter with a credential and an open session. *)
Lemma fetch_json_api_stops_at_first_hit_witness :
  session ready_with_key = OpenSession /\
  usable_key ready_with_key = Some "k3y"%string /\
  exists w',
    run_json_api (always_json error_body) (PidStr "1") ready_with_key
      = (Ret (or_none (fst (first_hit (always_json error_body)
                              (api_requests "k3y" "1") (trace ready_with_key)))), w') /\
    trace w' = snd (first_hit (always_json error_body)
                      (api_requests "k3y" "1") (trace ready_with_key)).
Proof.
  split; [reflexivity|]. split; [reflexivity|].
  exact (proj1 (fetch_json_api_stops_at_first_hit (always_json error_body)
                  (PidStr "1") "k3y" ready_with_key eq_refl eq_refl)).
Defined.

(** C5 fails as stated: the same four stat values under ['spy'] and
    under ['user'] give different outputs; the first is returned as it
    came and lacks four of the eight keys. *)
Lemma spy_shape_is_not_converted :
  _normalize_tornstats_data (VDict [("spy", VDict four_stats)])
    = Ret (VDict [("spy", VDict four_stats)]) /\
  _normalize_tornstats_data (VDict [("user", VDict four_stats)]) = Ret sample_record /\
  complete (VDict [("spy", VDict four_stats)]) = false /\
  complete sample_record = true.
Proof. vm_compute. repeat split. Qed.

(** C5 (amended) at [four_stats]. *)
Lemma normalizer_shape_invariance_witness :
  _normalize_tornstats_data (VDict [("user", VDict four_stats)]) = Ret sample_record /\
  _normalize_tornstats_data (VDict [("status", VStr "ok"); ("stats", VDict four_stats)])
    = Ret sample_record /\
  _normalize_tornstats_data (VDict four_stats) = Ret sample_record /\
  _normalize_tornstats_data (VDict [("spy", VDict four_stats)])
    = Ret (VDict [("spy", VDict four_stats)]).
Proof.
  apply (normalizer_shape_invariance four_stats
           [("user", VDict four_stats)]
           [("status", VStr "ok"); ("stats", VDict four_stats)]
           [("spy", VDict four_stats)]);
    solve [reflexivity | discriminate].
Defined.

(** C6.  The normalizer ends on the comment that what it cannot
    normalize is returned as it is, and its last probe stands behind
    [isinstance(data, dict)]; the three probes before it are membership
    tests made without that guard.  On the JSON number 5, which is no
    dict and which a 200 reply can carry as its body, the first of them,
    ['spy' in data], raises [TypeError]: the input is not returned.  The
    JSON strategy catches the exception at every endpoint, and
    [get_player_data] returns [None]. *)
Lemma normalizer_raises_on_a_number :
  isinstance_dict (VInt 5) = false /\
  py_in "spy" (VInt 5)
    = Raise (Exn TypeError "argument of type 'int' is not iterable") /\
  _normalize_tornstats_data (VInt 5)
    = Raise (Exn TypeError "argument of type 'int' is not iterable") /\
  fst (run (always_json (VInt 5)) (PidStr "1") fresh_with_key) = Ret VNone.
Proof. vm_compute. repeat split. Qed.

(** X29 at a host whose first endpoint serves a ['spy'] object. *)
Lemma normalizer_passes_through_witness :
  has_key "spy" [("spy", VDict four_stats)] = true /\
  exists w',
    run (always_json (VDict [("spy", VDict four_stats)])) (PidStr "1") fresh_with_key
      = (Ret (VDict [("spy", VDict four_stats)]), w').
Proof.
  split; [reflexivity|].
  apply (proj2 (proj2 (normalizer_passes_through
                         (always_json (VDict [("spy", VDict four_stats)]))
                         unit no_parser no_profile no_spy no_json
                         (PidStr "1") "k3y" fresh_with_key [("spy", VDict four_stats)]))
           [] (bearer_request "k3y" "https://www.tornstats.com/api/v1/player/1")
           (tl (api_requests "k3y" "1")) []
           (Response 200 (Ret ""%string) (Ret (VDict [("spy", VDict four_stats)])) []));
    reflexivity.
Defined.

(** C8 at an entry stored at time 0: it is served when the clock reads
    3599.5, and at 3600 it is deleted and the call goes to the network. *)
Lemma cache_expiry_is_lazy_witness :
  get_from_cache "player_7" (cached_at 3599.5%float)
    = (Ret sample_record, cached_at 3599.5%float) /\
  get_from_cache "player_7" (cached_at 3600%float)
    = (Ret VNone, set_cache (delete "player_7" (cache (cached_at 3600%float)))
                    (cached_at 3600%float)) /\
  exists v w' e l,
    run unreachable (PidStr "7") (cached_at 3600%float) = (Ret v, w') /\
    trace w' = trace (cached_at 3600%float) ++ e :: l.
Proof.
  destruct (cache_expiry_is_lazy unreachable unit no_parser no_profile no_spy no_json
              (PidStr "7") "player_7" (cached_at 3599.5%float)) as (Hlive & _).
  destruct (cache_expiry_is_lazy unreachable unit no_parser no_profile no_spy no_json
              (PidStr "7") "player_7" (cached_at 3600%float)) as (_ & Hold & _ & Hnet).
  split; [apply (Hlive (CacheEntry sample_record 0%float)); reflexivity|].
  split; [apply (Hold (CacheEntry sample_record 0%float)); reflexivity|].
  apply (Hnet (CacheEntry sample_record 0%float)); reflexivity.
Defined.

End AdapterRuns.

(* ===================================================================== *)
(** * The spy records                                                    *)
(* ===================================================================== *)

Section SpyRecords.
Import Py Spies.

Lemma items_get_set_same k v items : items_get k (items_set k v items) = Some v.
Proof.
  induction items as [|[k' v'] rest IH]; simpl.
  - now rewrite String.eqb_refl.
  - destruct (String.eqb k k') eqn:E; simpl.
    + now rewrite String.eqb_refl.
    + now rewrite E.
Qed.

Lemma items_get_set_other k k' v items :
  k' <> k -> items_get k' (items_set k v items) = items_get k' items.
Proof.
  intros Hne. induction items as [|[k0 v0] rest IH]; simpl.
  - apply String.eqb_neq in Hne. now rewrite Hne.
  - destruct (String.eqb k k0) eqn:E; simpl.
    + apply String.eqb_eq in E. subst k0.
      apply String.eqb_neq in Hne. now rewrite Hne.
    + now rewrite IH.
Qed.

Lemma totals_hold_set stats k record store :
  Spec.total_is_sum stats record ->
  Spec.totals_hold stats store ->
  Spec.totals_hold stats (items_set k record store).
Proof.
  intros Hrec Hstore player r. destruct (String.eqb_spec player k) as [->|Hne].
  - rewrite items_get_set_same. intros H. injection H as <-. exact Hrec.
  - rewrite items_get_set_other by exact Hne. apply Hstore.
Qed.

(** C9.  Whenever the spies file can be read as a store (it is absent,
    unreadable or holds a JSON object), [add_spy_data] of either module
    returns a record whose [total] is the sum of the four stats given,
    that carries a [timestamp], and that is the record saved under
    [str(player_id)]; if every record of the store had its total equal
    to the sum of its four stat fields, every record of the saved store
    has. *)
Theorem add_spy_data_total fs store now_iso now date player
  strength speed dexterity defense :
  Spec.store_of fs = Some store ->
  (exists record saved,
     Backup.add_spy_data now_iso player strength speed dexterity defense fs
       = (Ret record, Json (VDict saved)) /\
     items_get (py_str player) saved = Some record /\
     py_get record "total" VNone = Ret (VInt (strength + speed + dexterity + defense)) /\
     py_in "timestamp" record = Ret true /\
     Spec.total_is_sum ["str"; "spd"; "dex"; "def"] record /\
     (Spec.totals_hold ["str"; "spd"; "dex"; "def"] store ->
      Spec.totals_hold ["str"; "spd"; "dex"; "def"] saved)) /\
  (exists record saved,
     BotPackage.add_spy_data now date player strength speed dexterity defense fs
       = (Ret record, Json (VDict saved)) /\
     items_get (py_str player) saved = Some record /\
     py_get record "total" VNone = Ret (VInt (strength + speed + dexterity + defense)) /\
     py_in "timestamp" record = Ret true /\
     Spec.total_is_sum ["strength"; "speed"; "dexterity"; "defense"] record /\
     (Spec.totals_hold ["strength"; "speed"; "dexterity"; "defense"] store ->
      Spec.totals_hold ["strength"; "speed"; "dexterity"; "defense"] saved)).
Proof.
  intros Hstore. split.
  - set (record := VDict [("str", VInt strength); ("spd", VInt speed);
                          ("dex", VInt dexterity); ("def", VInt defense);
                          ("total", VInt (strength + speed + dexterity + defense));
                          ("timestamp", VStr now_iso)]).
    assert (Spec.total_is_sum ["str"; "spd"; "dex"; "def"] record) as Hsum.
    { eexists _, strength, speed, dexterity, defense. repeat split. }
    exists record, (items_set (py_str player) record store).
    split; [|split; [apply items_get_set_same|]].
    + unfold Backup.add_spy_data, Backup.load_spy_data, Backup.save_spy_data,
        Backup.ensure_spy_file_exists, bindF, json_dump.
      destruct fs as [| |[]]; try discriminate; simpl in Hstore;
        injection Hstore as <-; cbn -[items_set items_get]; fold record;
        now rewrite items_get_set_same.
    + split; [reflexivity|]. split; [reflexivity|]. split; [exact Hsum|].
      now apply totals_hold_set.
  - set (record := VDict [("strength", VInt strength); ("speed", VInt speed);
                          ("dexterity", VInt dexterity); ("defense", VInt defense);
                          ("total", VInt (strength + speed + dexterity + defense));
                          ("timestamp", VFloat now); ("date", VStr date)]).
    assert (Spec.total_is_sum ["strength"; "speed"; "dexterity"; "defense"] record) as Hsum.
    { eexists _, strength, speed, dexterity, defense. repeat split. }
    exists record, (items_set (py_str player) record store).
    split; [|split; [apply items_get_set_same|]].
    + unfold BotPackage.add_spy_data, BotPackage.load_spy_data, BotPackage.save_spy_data,
        bindF, json_dump.
      destruct fs as [| |[]]; try discriminate; simpl in Hstore;
        injection Hstore as <-; cbn -[items_set items_get]; fold record;
        now rewrite items_get_set_same.
    + split; [reflexivity|]. split; [reflexivity|]. split; [exact Hsum|].
      now apply totals_hold_set.
Qed.

End SpyRecords.

(* ===================================================================== *)
(** * Floats: rounding, the float of an int and division                 *)
(* ===================================================================== *)

Section FloatFacts.
Import Py.

(** ** The rounding of the specification of floats *)

















(** ** Division *)





(** ** The float of an int, and the quotient of two ints *)




Lemma Z_to_SF_finite n :
  exists s, Z_to_SF n = S754_zero s \/ exists m, Z_to_SF n = S754_finite s m 0.
Proof. destruct n; simpl; eauto. Qed.

End FloatFacts.

(* ===================================================================== *)
(** * The recommendation and the estimate                                *)
(* ===================================================================== *)

Section Estimators.
Import Py.

Lemma bindR_not_raising {A B} c (m : pyres A) (k : A -> pyres B) :
  raises_class c m = false ->
  (forall a, m = Ret a -> raises_class c (k a) = false) ->
  raises_class c (bindR m k) = false.
Proof. destruct m as [a|e]; simpl; intros Hm Hk; [now apply Hk | exact Hm]. Qed.

Lemma int_to_float_no_zero_division n :
  raises_class ZeroDivisionError (int_to_float n) = false.
Proof. unfold int_to_float. now destruct (binary_normalize prec emax n 0 false). Qed.

Lemma number_to_float_no_zero_division n :
  raises_class ZeroDivisionError (number_to_float n) = false.
Proof. destruct n; [apply int_to_float_no_zero_division | reflexivity]. Qed.

(** A division raises [ZeroDivisionError] only on a divisor equal to
    zero. *)
Lemma py_truediv_no_zero_division a b :
  py_eq_zero b = false ->
  raises_class ZeroDivisionError (py_truediv a b) = false.
Proof.
  unfold py_eq_zero, py_truediv.
  destruct (as_number a) as [x|]; destruct (as_number b) as [y|];
    try reflexivity; try (destruct x; reflexivity).
  intros Hy.
  assert (raises_class ZeroDivisionError
            (let! fx := number_to_float x in
             let! fy := number_to_float y in
             if number_is_zero y
             then Raise (Exn ZeroDivisionError "float division by zero")
             else Ret (PrimFloat.div fx fy)) = false) as Hfloat.
  { apply bindR_not_raising; [apply number_to_float_no_zero_division|]. intros fx _.
    apply bindR_not_raising; [apply number_to_float_no_zero_division|]. intros fy _.
    unfold number_is_zero. destruct y; now rewrite Hy. }
  destruct x as [p|fx], y as [q|fy]; try exact Hfloat.
  unfold int_truediv. rewrite Hy.
  now destruct (SFdiv prec emax (Z_to_SF p) (Z_to_SF q)).
Qed.

Lemma truthy_not_zero v : truthy v = true -> py_eq_zero v = false.
Proof.
  destruct v as [|[]|n|f|s|l|items]; simpl; try reflexivity; try discriminate.
  - unfold py_eq_zero. simpl. now destruct (n =? 0).
  - unfold py_eq_zero. simpl. now destruct (PrimFloat.eqb f 0).
Qed.

Lemma py_in_no_zero_division k v : raises_class ZeroDivisionError (py_in k v) = false.
Proof. now destruct v. Qed.

Lemma py_getitem_no_zero_division v k :
  raises_class ZeroDivisionError (py_getitem v k) = false.
Proof. destruct v; try reflexivity. simpl. now destruct (items_get k items). Qed.

Lemma py_get_no_zero_division v k d :
  raises_class ZeroDivisionError (py_get v k d) = false.
Proof. now destruct v. Qed.

Lemma py_float_sub_no_zero_division a b :
  raises_class ZeroDivisionError (py_float_sub a b) = false.
Proof.
  unfold py_float_sub. destruct (as_number b) as [y|]; [|reflexivity].
  apply bindR_not_raising; [apply number_to_float_no_zero_division | reflexivity].
Qed.

Lemma get_stat_confidence_no_zero_division now spy_data :
  raises_class ZeroDivisionError (BotPackage.get_stat_confidence now spy_data) = false.
Proof.
  unfold BotPackage.get_stat_confidence.
  apply bindR_not_raising.
  { destruct (truthy spy_data); [apply py_in_no_zero_division | reflexivity]. }
  intros has_timestamp _.
  destruct (negb (truthy spy_data) || negb has_timestamp); [reflexivity|].
  apply bindR_not_raising; [apply py_getitem_no_zero_division|]. intros stamp _.
  apply bindR_not_raising; [apply py_float_sub_no_zero_division|]. intros age _.
  apply bindR_not_raising; [now apply py_truediv_no_zero_division|]. intros days _.
  destruct (PrimFloat.ltb days 7); [reflexivity|].
  now destruct (PrimFloat.ltb days 30).
Qed.

(** C10.  Neither [get_recommendation] ever raises [ZeroDivisionError].
    In [backup_utils], a total that is zero or absent on either side
    gives ['unknown'] before the ratio is computed.  In [bot_package],
    absent enemy stats give the no-data message with confidence
    ['none'], and a total that is zero or missing on either side gives
    the insufficient-data message with confidence ['none']. *)
Theorem get_recommendation_never_divides_by_zero
  (now : float) (my_total enemy_total your_stats enemy_stats : value) :
  raises_class ZeroDivisionError (Backup.get_recommendation my_total enemy_total) = false /\
  (truthy my_total = false \/ truthy enemy_total = false ->
   Backup.get_recommendation my_total enemy_total = Ret "unknown") /\
  raises_class ZeroDivisionError
    (BotPackage.get_recommendation now your_stats enemy_stats) = false /\
  (truthy enemy_stats = false ->
   BotPackage.get_recommendation now your_stats enemy_stats
     = Ret ("No data available to make a recommendation", "none")) /\
  (forall yours theirs,
     your_stats = VDict yours -> enemy_stats = VDict theirs -> theirs <> [] ->
     py_eq_zero (Spec.total_of yours) = true \/ py_eq_zero (Spec.total_of theirs) = true ->
     BotPackage.get_recommendation now your_stats enemy_stats
       = Ret ("Insufficient data for recommendation", "none")).
Proof.
  split; [|split; [|split; [|split]]].
  - unfold Backup.get_recommendation.
    destruct (truthy enemy_total) eqn:Ee; [|reflexivity].
    destruct (truthy my_total); [|reflexivity]. simpl.
    apply bindR_not_raising.
    { now apply py_truediv_no_zero_division, truthy_not_zero. }
    intros ratio _. destruct (PrimFloat.ltb 1.5 ratio); [reflexivity|].
    now destruct (PrimFloat.ltb 0.8 ratio).
  - unfold Backup.get_recommendation. intros [-> | ->]; [|reflexivity].
    now destruct (truthy enemy_total).
  - unfold BotPackage.get_recommendation.
    destruct (truthy enemy_stats); [|reflexivity]. simpl.
    apply bindR_not_raising; [apply py_get_no_zero_division|]. intros your _.
    apply bindR_not_raising; [apply py_get_no_zero_division|]. intros enemy _.
    destruct (py_eq_zero your) eqn:Ey; [reflexivity|].
    destruct (py_eq_zero enemy) eqn:Ee; [reflexivity|]. simpl.
    apply bindR_not_raising; [now apply py_truediv_no_zero_division|]. intros ratio _.
    apply bindR_not_raising; [apply get_stat_confidence_no_zero_division|]. intros c _.
    destruct (PrimFloat.ltb 1.5 ratio); [reflexivity|].
    destruct (PrimFloat.ltb 1.1 ratio); [reflexivity|].
    destruct (PrimFloat.ltb 0.9 ratio); [reflexivity|].
    now destruct (PrimFloat.ltb 0.7 ratio).
  - unfold BotPackage.get_recommendation. now intros ->.
  - intros yours theirs -> -> Hne Hzero. unfold BotPackage.get_recommendation.
    destruct theirs as [|item rest]; [congruence|].
    cbn -[items_get py_eq_zero].
    fold (Spec.total_of yours). fold (Spec.total_of (item :: rest)).
    destruct Hzero as [-> | ->]; [reflexivity|].
    now destruct (py_eq_zero (Spec.total_of yours)).
Qed.

(** ** The estimate of the primary stat *)

Lemma int_to_float_1000 : int_to_float 1000 = Ret 1000%float.
Proof. vm_compute. reflexivity. Qed.

(** Rounding a product with zero to the thousand: 0, or an exception
    when the other factor is not finite. *)
Lemma rounded_zero_product primary :
  let result :=
    let! thousands :=
      py_truediv (VFloat (PrimFloat.mul primary 0%float)) (VInt 1000) in
    let! rounded := float_round thousands in
    Ret (VInt (rounded * 1000)) in
  result = Ret (VInt 0) \/ exists e, result = Raise e.
Proof.
  unfold py_truediv. cbn [as_number number_to_float bindR number_is_zero].
  rewrite int_to_float_1000. cbn [bindR]. change (1000 =? 0) with false. cbn iota.
  cbn [bindR]. unfold float_round. rewrite div_spec, mul_spec.
  replace (Prim2SF 0%float) with (S754_zero false) by (vm_compute; reflexivity).
  replace (Prim2SF 1000%float) with (S754_finite false 8796093022208000 (-43))
    by (vm_compute; reflexivity).
  destruct (Prim2SF primary) as [s|s| |s m e]; simpl; eauto.
Qed.

Lemma zero_over_240 : py_truediv (VInt 0) (VInt 240) = Ret 0%float.
Proof. vm_compute. reflexivity. Qed.

Lemma float_zero_over_240 : py_truediv (VFloat 0%float) (VInt 240) = Ret 0%float.
Proof. vm_compute. reflexivity. Qed.

Lemma zero_over_positive turns : 0 < turns -> int_truediv 0 turns = Ret 0%float.
Proof.
  intros H. unfold int_truediv. destruct turns as [|p|p]; try lia. reflexivity.
Qed.

(** Every result of the [bot_package] estimator, in all its branches. *)
Lemma bot_estimate_is_a_number libm_pow damage turns mine :
  (exists n, BotPackage.estimate_primary_stat libm_pow damage turns mine
             = Ret (VInt (n * 1000))) \/
  (exists e, BotPackage.estimate_primary_stat libm_pow damage turns mine = Raise e).
Proof.
  unfold BotPackage.estimate_primary_stat.
  destruct (if 0 <? turns
            then let! q := int_truediv damage turns in Ret (VFloat q)
            else Ret (VInt 0)) as [dpt|e]; cbn [bindR]; [|eauto].
  destruct (py_truediv dpt (VInt 240)) as [base|e]; cbn [bindR]; [|eauto].
  destruct (int_to_float mine) as [primary|e]; cbn [bindR]; [|eauto].
  destruct (float_pow_fractional libm_pow base 0.65) as [r|]; [|eauto].
  destruct (py_truediv (VFloat (PrimFloat.mul primary r)) (VInt 1000))
    as [thousands|e]; cbn [bindR]; [|eauto].
  destruct (float_round thousands) as [rounded|e]; cbn [bindR]; eauto.
Qed.

Lemma backup_estimate_is_a_number damage turns mine :
  0 < turns -> 0 < damage ->
  (exists n, Backup.estimate_primary_stat damage turns mine = Ret (VInt (n * 1000))) \/
  (exists e, Backup.estimate_primary_stat damage turns mine = Raise e).
Proof.
  intros Ht Hd. unfold Backup.estimate_primary_stat.
  assert ((turns <=? 0) || (damage <=? 0) = false) as ->.
  { apply orb_false_iff. split; apply Z.leb_gt; assumption. }
  destruct (int_truediv damage turns) as [dpt|e]; cbn [bindR]; [|eauto].
  destruct (py_truediv (VInt (mine * 1000)) (VFloat dpt)) as [est|e]; cbn [bindR]; [|eauto].
  destruct (py_truediv (VFloat est) (VInt 1000)) as [thousands|e]; cbn [bindR]; [|eauto].
  destruct (float_floor thousands) as [floor|e]; cbn [bindR]; eauto.
Qed.














End Estimators.

(* ===================================================================== *)
(** * The estimators on concrete inputs                                  *)
(* ===================================================================== *)

Section EstimatorRuns.
Import Py Examples.



(** C9 at the stats of the test script, on a spies file that does not
    exist yet. *)
Lemma add_spy_data_total_witness :
  Spec.store_of Spies.NoFile = Some [] /\
  (exists record saved,
     Backup.add_spy_data "2025-01-01T00:00:00" test_player
       1000000 800000 700000 500000 Spies.NoFile
       = (Ret record, Spies.Json (VDict saved)) /\
     items_get "12345" saved = Some record /\
     py_get record "total" VNone = Ret (VInt 3000000)) /\
  (exists record saved,
     BotPackage.add_spy_data 1735689600%float "2025-01-01 00:00:00" test_player
       1000000 800000 700000 500000 Spies.NoFile
       = (Ret record, Spies.Json (VDict saved)) /\
     items_get "12345" saved = Some record /\
     py_get record "total" VNone = Ret (VInt 3000000)).
Proof.
  split; [reflexivity|].
  destruct (add_spy_data_total Spies.NoFile [] "2025-01-01T00:00:00" 1735689600%float
              "2025-01-01 00:00:00" test_player 1000000 800000 700000 500000 eq_refl)
    as ((r1 & s1 & E1 & G1 & T1 & _) & (r2 & s2 & E2 & G2 & T2 & _)).
  split; [exists r1, s1 | exists r2, s2]; repeat split; assumption.
Defined.

(** C10 at a zero enemy total ([backup_utils]) and at enemy stats
    without a total ([bot_package]). *)
Lemma get_recommendation_never_divides_by_zero_witness :
  Backup.get_recommendation (VInt 500000) (VInt 0) = Ret "unknown"%string /\
  BotPackage.get_recommendation 0%float
    (VDict [("total", VInt 3000000)]) (VDict [("strength", VInt 5)])
    = Ret ("Insufficient data for recommendation", "none")%string /\
  raises_class ZeroDivisionError
    (BotPackage.get_recommendation 0%float
       (VDict [("total", VInt 3000000)]) (VDict [("strength", VInt 5)])) = false.
Proof.
  destruct (get_recommendation_never_divides_by_zero 0%float (VInt 500000) (VInt 0)
              (VDict [("total", VInt 3000000)]) (VDict [("strength", VInt 5)]))
    as (_ & Hunknown & Hsafe & _ & Hinsufficient).
  split; [apply Hunknown; now right|]. split; [|exact Hsafe].
  apply (Hinsufficient [("total", VInt 3000000)] [("strength", VInt 5)]);
    [reflexivity | reflexivity | discriminate | now right].
Defined.

End EstimatorRuns.

(* ===================================================================== *)
(** * The spies file as a store of records                               *)
(* ===================================================================== *)

Section SpyStore.
Import Py Spies.
Local Open Scope list_scope.

(** What [add_spy_data] of [backup_utils] does to a file that reads as
    a store. *)
Lemma backup_add_runs fs store now_iso player strength speed dexterity defense :
  Spec.store_of fs = Some store ->
  let record :=
    VDict [("str", VInt strength); ("spd", VInt speed);
           ("dex", VInt dexterity); ("def", VInt defense);
           ("total", VInt (strength + speed + dexterity + defense));
           ("timestamp", VStr now_iso)] in
  Backup.add_spy_data now_iso player strength speed dexterity defense fs
    = (Ret record, Json (VDict (items_set (py_str player) record store))).
Proof.
  intros Hstore record.
  unfold Backup.add_spy_data, Backup.load_spy_data, Backup.save_spy_data,
    Backup.ensure_spy_file_exists, bindF, json_dump.
  destruct fs as [| |[]]; try discriminate; simpl in Hstore;
    injection Hstore as <-; cbn -[items_set items_get]; fold record;
    now rewrite items_get_set_same.
Qed.

(** The same for [bot_package]. *)
Lemma bot_add_runs fs store now date player strength speed dexterity defense :
  Spec.store_of fs = Some store ->
  let record :=
    VDict [("strength", VInt strength); ("speed", VInt speed);
           ("dexterity", VInt dexterity); ("defense", VInt defense);
           ("total", VInt (strength + speed + dexterity + defense));
           ("timestamp", VFloat now); ("date", VStr date)] in
  BotPackage.add_spy_data now date player strength speed dexterity defense fs
    = (Ret record, Json (VDict (items_set (py_str player) record store))).
Proof.
  intros Hstore record.
  unfold BotPackage.add_spy_data, BotPackage.load_spy_data, BotPackage.save_spy_data,
    bindF, json_dump.
  destruct fs as [| |[]]; try discriminate; simpl in Hstore;
    injection Hstore as <-; cbn -[items_set items_get]; fold record;
    now rewrite items_get_set_same.
Qed.

(** [d.get(key)] on a store, with [None] for a missing key. *)
Lemma get_spy_data_runs fs store player :
  Spec.store_of fs = Some store ->
  Backup.get_spy_data player fs
    = (Ret (match items_get (py_str player) store with Some r => r | None => VNone end),
       match fs with NoFile => Json (VDict []) | _ => fs end) /\
  BotPackage.get_spy_data player fs
    = (Ret (match items_get (py_str player) store with Some r => r | None => VNone end),
       match fs with NoFile => Json (VDict []) | _ => fs end).
Proof.
  intros H. destruct fs as [| |[]]; try discriminate; simpl in H; injection H as <-;
    split; reflexivity.
Qed.

Lemma items_set_keys k v items :
  map fst (items_set k v items)
    = if has_key k items then map fst items else map fst items ++ [k].
Proof.
  unfold has_key. induction items as [|[k' v'] rest IH]; simpl; [reflexivity|].
  destruct (String.eqb k k') eqn:E; simpl.
  - apply String.eqb_eq in E. now subst.
  - rewrite IH. now destruct (items_get k rest).
Qed.

Lemma has_key_false_not_in k items :
  has_key k items = false -> ~ In k (map fst items).
Proof.
  unfold has_key. induction items as [|[k' v'] rest IH]; simpl; [tauto|].
  destruct (String.eqb k k') eqn:E; [discriminate|].
  apply String.eqb_neq in E. intros H [Heq|Hin]; [congruence | now apply IH].
Qed.

Lemma items_set_NoDup k v items :
  NoDup (map fst items) -> NoDup (map fst (items_set k v items)).
Proof.
  intros H. rewrite items_set_keys. destruct (has_key k items) eqn:E; [exact H|].
  apply NoDup_app. split; [exact H|]. split; [|apply NoDup_singleton].
  intros x Hx Hk. apply list_elem_of_singleton in Hk. subst x.
  apply list_elem_of_In in Hx. now apply (has_key_false_not_in k items).
Qed.

(** X1.  Whatever [add_spy_data] stores for a player, [get_spy_data]
    then returns: the record read back for any identifier with the same
    [str()] (the int 12345 and the string ['12345'] alike) is the record
    [add_spy_data] returned, and reading leaves the file as the write
    left it.  Holds for both modules on every spies file that reads as a
    store (absent, unreadable, or a JSON object). *)
Theorem add_then_get_spy_data fs store now_iso now date p q
  strength speed dexterity defense :
  Spec.store_of fs = Some store ->
  py_str q = py_str p ->
  (exists record fs',
     Backup.add_spy_data now_iso p strength speed dexterity defense fs = (Ret record, fs') /\
     Backup.get_spy_data q fs' = (Ret record, fs')) /\
  (exists record fs',
     BotPackage.add_spy_data now date p strength speed dexterity defense fs
       = (Ret record, fs') /\
     BotPackage.get_spy_data q fs' = (Ret record, fs')).
Proof.
  intros Hstore Hq. split.
  - eexists _, _. split; [exact (backup_add_runs fs store now_iso p strength speed dexterity defense Hstore)|].
    rewrite (proj1 (get_spy_data_runs (Json (VDict _)) _ q eq_refl)).
    now rewrite Hq, items_get_set_same.
  - eexists _, _. split; [exact (bot_add_runs fs store now date p strength speed dexterity defense Hstore)|].
    rewrite (proj2 (get_spy_data_runs (Json (VDict _)) _ q eq_refl)).
    now rewrite Hq, items_get_set_same.
Qed.

(** X2.  [add_spy_data] for one player changes what [get_spy_data]
    returns for no other player: for every identifier with a different
    [str()], the lookup after the write gives what the lookup before it
    gave (both modules). *)
Theorem add_spy_data_keeps_other_players fs store now_iso now date p q
  strength speed dexterity defense :
  Spec.store_of fs = Some store ->
  py_str q <> py_str p ->
  fst (Backup.get_spy_data q
         (snd (Backup.add_spy_data now_iso p strength speed dexterity defense fs)))
    = fst (Backup.get_spy_data q fs) /\
  fst (BotPackage.get_spy_data q
         (snd (BotPackage.add_spy_data now date p strength speed dexterity defense fs)))
    = fst (BotPackage.get_spy_data q fs).
Proof.
  intros Hstore Hq.
  destruct (get_spy_data_runs fs store q Hstore) as (E1 & E2). rewrite E1, E2.
  rewrite (backup_add_runs fs store now_iso p strength speed dexterity defense Hstore).
  rewrite (bot_add_runs fs store now date p strength speed dexterity defense Hstore).
  cbn [fst snd]. split.
  - rewrite (proj1 (get_spy_data_runs (Json (VDict _)) _ q eq_refl)).
    cbn [fst]. now rewrite items_get_set_other.
  - rewrite (proj2 (get_spy_data_runs (Json (VDict _)) _ q eq_refl)).
    cbn [fst]. now rewrite items_get_set_other.
Qed.

(** X3.  [get_spy_data] is a lookup in the store that the file reads
    as: it returns the record stored under [str(player_id)], or [None]
    when there is none (in particular when the file is absent or
    unreadable), and never raises on such a file; the only change it can
    make is to create an absent file as the empty object, so the file
    reads as the same store afterwards (both modules). *)
Theorem get_spy_data_reads_the_store fs store player :
  Spec.store_of fs = Some store ->
  let found := match items_get (py_str player) store with Some r => r | None => VNone end in
  let after := match fs with NoFile => Json (VDict []) | _ => fs end in
  Backup.get_spy_data player fs = (Ret found, after) /\
  BotPackage.get_spy_data player fs = (Ret found, after) /\
  Spec.store_of after = Some store.
Proof.
  intros H found after.
  destruct (get_spy_data_runs fs store player H) as (E1 & E2).
  split; [exact E1|]. split; [exact E2|].
  subst after. now destruct fs.
Qed.

(** X4.  When the spies file holds valid JSON that is not an object (a
    list, a string, a number, null), [add_spy_data] raises [TypeError]
    and [get_spy_data] raises [AttributeError], in both modules, and the
    file is left exactly as it was: a write either saves the new record
    or changes nothing. *)
Theorem spy_file_that_is_no_object fs now_iso now date player
  strength speed dexterity defense :
  Spec.store_of fs = None ->
  (exists e, Backup.add_spy_data now_iso player strength speed dexterity defense fs
             = (Raise e, fs) /\ is_class TypeError e = true) /\
  (exists e, BotPackage.add_spy_data now date player strength speed dexterity defense fs
             = (Raise e, fs) /\ is_class TypeError e = true) /\
  (exists e, Backup.get_spy_data player fs = (Raise e, fs) /\
             is_class AttributeError e = true) /\
  (exists e, BotPackage.get_spy_data player fs = (Raise e, fs) /\
             is_class AttributeError e = true).
Proof.
  intros H. destruct fs as [| |[]]; try discriminate;
    (split; [|split; [|split]]); eexists; split; reflexivity.
Qed.

(** X5.  [add_spy_data] keeps one record per player: a player already
    in the store keeps its place and the list of players is unchanged, a
    new player is added at the end; so a store without duplicate players
    stays without duplicates (both modules). *)
Theorem add_spy_data_one_record_per_player fs store now_iso now date player
  strength speed dexterity defense :
  Spec.store_of fs = Some store ->
  let players_after :=
    if has_key (py_str player) store then map fst store
    else map fst store ++ [py_str player] in
  (exists saved,
     snd (Backup.add_spy_data now_iso player strength speed dexterity defense fs)
       = Json (VDict saved) /\
     map fst saved = players_after /\
     (NoDup (map fst store) -> NoDup (map fst saved))) /\
  (exists saved,
     snd (BotPackage.add_spy_data now date player strength speed dexterity defense fs)
       = Json (VDict saved) /\
     map fst saved = players_after /\
     (NoDup (map fst store) -> NoDup (map fst saved))).
Proof.
  intros Hstore players_after.
  rewrite (backup_add_runs fs store now_iso player strength speed dexterity defense Hstore).
  rewrite (bot_add_runs fs store now date player strength speed dexterity defense Hstore).
  split; eexists; (split; [reflexivity|]);
    (split; [apply items_set_keys | apply items_set_NoDup]).
Qed.

End SpyStore.

(* ===================================================================== *)
(** * Totals, displays and confidence levels                             *)
(* ===================================================================== *)

Section Display.
Import Py Spies.

Lemma all_in_dict keys items :
  all_in keys (VDict items) = Ret (forallb (fun key => has_key key items) keys).
Proof.
  induction keys as [|key rest IH]; [reflexivity|].
  simpl. destruct (has_key key items); [exact IH | reflexivity].
Qed.

(** The estimate of [bot_package] when there were no turns or no damage. *)
Lemma bot_estimate_zero libm_pow damage turns mine :
  turns <= 0 \/ damage = 0 ->
  BotPackage.estimate_primary_stat libm_pow damage turns mine = Ret (VInt 0) \/
  (exists e, BotPackage.estimate_primary_stat libm_pow damage turns mine = Raise e).
Proof.
  intros H. unfold BotPackage.estimate_primary_stat.
  set (per_turn := if 0 <? turns
                   then let! q := int_truediv damage turns in Ret (VFloat q)
                   else Ret (VInt 0)).
  assert (per_turn = Ret (VInt 0) \/ per_turn = Ret (VFloat 0%float)) as [-> | ->].
  { subst per_turn. destruct (0 <? turns) eqn:Et; [|now left].
    apply Z.ltb_lt in Et. destruct H as [H | ->]; [lia|].
    right. now rewrite zero_over_positive. }
  - cbn [bindR]. rewrite zero_over_240. cbn [bindR].
    destruct (int_to_float mine) as [primary|e]; cbn [bindR]; [|eauto].
    change (float_pow_fractional libm_pow 0 0.65) with (PowFloat 0%float).
    apply rounded_zero_product.
  - cbn [bindR]. rewrite float_zero_over_240. cbn [bindR].
    destruct (int_to_float mine) as [primary|e]; cbn [bindR]; [|eauto].
    change (float_pow_fractional libm_pow 0 0.65) with (PowFloat 0%float).
    apply rounded_zero_product.
Qed.

(** The multiplier that [estimate_total_stats] settles on. *)
Lemma estimate_total_stats_eq primary accuracy :
  BotPackage.estimate_total_stats primary accuracy =
  let multiplier :=
    if String.eqb accuracy "high" then 3.5%float
    else if String.eqb accuracy "medium" then 3.8%float
    else 4.2%float in
  let! product := py_mul_float primary multiplier in
  let! total := float_trunc product in
  Ret (VInt total).
Proof.
  unfold BotPackage.estimate_total_stats, BotPackage.multipliers. cbn [bindR].
  cbn [BotPackage.multiplier_lookup String.eqb Ascii.eqb Bool.eqb].
  destruct (String.eqb accuracy "high"); [reflexivity|].
  destruct (String.eqb accuracy "medium"); [reflexivity|].
  now destruct (String.eqb accuracy "low").
Qed.

(** X6.  In [backup_utils], the total estimate made from the primary
    estimate, as the command composes the two, is [None] whenever
    turns <= 0 or damage <= 0, and otherwise exactly four times the
    primary estimate, itself a multiple of a thousand (or the arithmetic
    raised). *)
Theorem backup_total_is_four_times_primary damage turns my_primary :
  let total :=
    let! primary := Backup.estimate_primary_stat damage turns my_primary in
    Backup.estimate_total_stats primary in
  (turns <= 0 \/ damage <= 0 -> total = Ret VNone) /\
  (0 < turns -> 0 < damage ->
   (exists n, Backup.estimate_primary_stat damage turns my_primary = Ret (VInt (n * 1000)) /\
              total = Ret (VInt (n * 1000 * 4))) \/
   (exists e, total = Raise e)).
Proof.
  cbv zeta. split.
  - intros H. unfold Backup.estimate_primary_stat.
    assert ((turns <=? 0) || (damage <=? 0) = true) as ->; [|reflexivity].
    apply orb_true_iff. destruct H; [left | right]; now apply Z.leb_le.
  - intros Ht Hd.
    destruct (backup_estimate_is_a_number damage turns my_primary Ht Hd) as [(n & ->)|(e & ->)].
    + left. exists n. split; reflexivity.
    + right. exists e. reflexivity.
Qed.

(** X7.  [estimate_total_stats] of [bot_package]: every accuracy label
    other than ['high'] and ['medium'] (an unknown label included) gives
    the result of ['low']; a primary stat of 0 gives 0 for every label;
    [None] is refused with [TypeError]; a result is always an int, never
    [None]; and composed with [estimate_primary_stat] on turns <= 0 or
    damage = 0 it gives 0 (or the arithmetic raised), where
    [backup_utils] gives [None]. *)
Theorem bot_estimate_total_stats_edges libm_pow damage turns mine primary accuracy :
  (accuracy <> "high" -> accuracy <> "medium" ->
   BotPackage.estimate_total_stats primary accuracy
     = BotPackage.estimate_total_stats primary "low") /\
  BotPackage.estimate_total_stats (VInt 0) accuracy = Ret (VInt 0) /\
  (exists e, BotPackage.estimate_total_stats VNone accuracy = Raise e /\
             is_class TypeError e = true) /\
  (forall total, BotPackage.estimate_total_stats primary accuracy = Ret total ->
     exists n, total = VInt n) /\
  (turns <= 0 \/ damage = 0 ->
   let total :=
     let! estimate := BotPackage.estimate_primary_stat libm_pow damage turns mine in
     BotPackage.estimate_total_stats estimate "low" in
   total = Ret (VInt 0) \/ exists e, total = Raise e).
Proof.
  split; [|split; [|split; [|split]]].
  - intros Hh Hm. rewrite !estimate_total_stats_eq.
    apply String.eqb_neq in Hh, Hm. now rewrite Hh, Hm.
  - rewrite estimate_total_stats_eq.
    destruct (String.eqb accuracy "high"); [reflexivity|].
    now destruct (String.eqb accuracy "medium").
  - rewrite estimate_total_stats_eq. cbv zeta. eexists. split; reflexivity.
  - intros total. rewrite estimate_total_stats_eq. cbv zeta.
    destruct (py_mul_float primary _) as [product|e]; cbn [bindR]; [|discriminate].
    destruct (float_trunc product) as [n|e]; cbn [bindR]; [|discriminate].
    intros H. injection H as <-. now exists n.
  - intros H. cbv zeta.
    destruct (bot_estimate_zero libm_pow damage turns mine H) as [-> | (e & ->)].
    + left. reflexivity.
    + right. now exists e.
Qed.

(** X8.  The record that [add_spy_data] returns is always displayed:
    [format_stats_for_display] on it never raises and gives the four
    stats and their sum with thousands separators, followed in
    [backup_utils] by the capitalized confidence and in [bot_package] by
    the date of the record and the confidence in capitals. *)
Theorem added_record_is_displayed fs store now_iso now date player
  strength speed dexterity defense float_comma str_other confidence :
  Spec.store_of fs = Some store ->
  (let! record := fst (Backup.add_spy_data now_iso player strength speed dexterity defense fs) in
   Backup.format_stats_for_display float_comma player record confidence)
    = Ret ("**Strength:** " ++ format_comma strength ++ nl ++
           "**Speed:** " ++ format_comma speed ++ nl ++
           "**Dexterity:** " ++ format_comma dexterity ++ nl ++
           "**Defense:** " ++ format_comma defense ++ nl ++
           "**Total:** " ++ format_comma (strength + speed + dexterity + defense) ++ nl ++
           "**Confidence:** " ++ str_capitalize confidence) /\
  (let! record :=
     fst (BotPackage.add_spy_data now date player strength speed dexterity defense fs) in
   BotPackage.format_stats_for_display float_comma str_other player record confidence)
    = Ret ("**Strength:** " ++ format_comma strength ++ nl ++
           "**Speed:** " ++ format_comma speed ++ nl ++
           "**Dexterity:** " ++ format_comma dexterity ++ nl ++
           "**Defense:** " ++ format_comma defense ++ nl ++
           "**Total:** " ++ format_comma (strength + speed + dexterity + defense) ++
           (nl ++ "Last updated: " ++ date) ++
           (nl ++ "Confidence: " ++ str_upper confidence)).
Proof.
  intros Hstore.
  rewrite (backup_add_runs fs store now_iso player strength speed dexterity defense Hstore).
  rewrite (bot_add_runs fs store now date player strength speed dexterity defense Hstore).
  split; reflexivity.
Qed.

(** X9.  In [backup_utils] the estimate for turns <= 0 or damage <= 0,
    which is [None], cannot be displayed: composed as the command
    composes them, [format_stats_for_display] on the dict of the primary
    and the total estimate raises [TypeError]; an estimate that is an
    int is displayed with its total, four times as large. *)
Theorem backup_none_estimate_is_not_displayed float_comma player damage turns my_primary
  confidence :
  let display :=
    let! primary := Backup.estimate_primary_stat damage turns my_primary in
    let! total := Backup.estimate_total_stats primary in
    Backup.format_stats_for_display float_comma player
      (VDict [("primary", primary); ("total", total)]) confidence in
  (turns <= 0 \/ damage <= 0 ->
   display = Raise (Exn TypeError "unsupported format string passed to NoneType.__format__")) /\
  (forall n, Backup.estimate_primary_stat damage turns my_primary = Ret (VInt n) ->
     display = Ret ("**Estimated Primary:** " ++ format_comma n ++ nl ++
                    "**Estimated Total:** " ++ format_comma (n * 4) ++ nl ++
                    "**Confidence:** " ++ str_capitalize confidence)).
Proof.
  cbv zeta. split.
  - intros H. unfold Backup.estimate_primary_stat.
    assert ((turns <=? 0) || (damage <=? 0) = true) as ->; [|reflexivity].
    apply orb_true_iff. destruct H; [left | right]; now apply Z.leb_le.
  - intros n ->. reflexivity.
Qed.

Lemma bot_confidence_of_record now written date strength speed dexterity defense :
  exists label,
    BotPackage.get_stat_confidence now
      (VDict [("strength", VInt strength); ("speed", VInt speed);
              ("dexterity", VInt dexterity); ("defense", VInt defense);
              ("total", VInt (strength + speed + dexterity + defense));
              ("timestamp", VFloat written); ("date", VStr date)]) = Ret label /\
    In label ["high"; "medium"; "low"].
Proof.
  unfold BotPackage.get_stat_confidence.
  cbn [truthy py_in has_key items_get String.eqb Ascii.eqb Bool.eqb negb orb bindR
       py_getitem py_float_sub as_number number_to_float].
  unfold py_truediv. cbn [as_number number_to_float bindR number_is_zero].
  change (60 * 60 * 24) with 86400.
  assert (int_to_float 86400 = Ret 86400%float) as -> by (vm_compute; reflexivity).
  cbn [bindR]. change (86400 =? 0) with false. cbn iota. cbn [bindR].
  match goal with |- context [PrimFloat.ltb ?d 7] => destruct (PrimFloat.ltb d 7) end;
    [eexists; split; [reflexivity | simpl; tauto]|].
  match goal with |- context [PrimFloat.ltb ?d 30] => destruct (PrimFloat.ltb d 30) end;
    eexists; (split; [reflexivity | simpl; tauto]).
Qed.

(** X10.  [get_stat_confidence] of [bot_package] answers with one of
    the four labels whenever it returns; on a record that [add_spy_data]
    returned it never raises and answers ['high'], ['medium'] or
    ['low'], whatever the time; on a dict without a timestamp it answers
    ['none']. *)
Theorem bot_confidence_labels now spy_data :
  (forall label, BotPackage.get_stat_confidence now spy_data = Ret label ->
     In label ["high"; "medium"; "low"; "none"]) /\
  (forall fs store written date player strength speed dexterity defense,
     Spec.store_of fs = Some store ->
     exists record label,
       fst (BotPackage.add_spy_data written date player strength speed dexterity defense fs)
         = Ret record /\
       BotPackage.get_stat_confidence now record = Ret label /\
       In label ["high"; "medium"; "low"]) /\
  (forall items, has_key "timestamp" items = false ->
     BotPackage.get_stat_confidence now (VDict items) = Ret "none").
Proof.
  split; [|split].
  - intros label. unfold BotPackage.get_stat_confidence.
    destruct (if truthy spy_data then py_in "timestamp" spy_data else Ret false)
      as [has_timestamp|e]; cbn [bindR]; [|discriminate].
    destruct (negb (truthy spy_data) || negb has_timestamp).
    { intros H. injection H as <-. simpl. tauto. }
    destruct (py_getitem spy_data "timestamp") as [stamp|e]; cbn [bindR]; [|discriminate].
    destruct (py_float_sub now stamp) as [age|e]; cbn [bindR]; [|discriminate].
    destruct (py_truediv (VFloat age) (VInt (60 * 60 * 24))) as [days|e]; cbn [bindR];
      [|discriminate].
    destruct (PrimFloat.ltb days 7); [intros H; injection H as <-; simpl; tauto|].
    destruct (PrimFloat.ltb days 30); intros H; injection H as <-; simpl; tauto.
  - intros fs store written date player strength speed dexterity defense Hstore.
    rewrite (bot_add_runs fs store written date player strength speed dexterity defense Hstore).
    destruct (bot_confidence_of_record now written date strength speed dexterity defense)
      as (label & E & Hin).
    eexists _, label. split; [reflexivity|]. split; [exact E | exact Hin].
  - intros items H. unfold BotPackage.get_stat_confidence.
    destruct items as [|item rest]; [reflexivity|].
    cbn [truthy py_in bindR]. rewrite H. reflexivity.
Qed.

(** X11.  [get_stat_confidence] of [backup_utils] never raises on a
    dict and answers with one of the four labels.  On a record that
    [add_spy_data] returned the label follows the age in days (below 7,
    below 30, older); when the timestamp cannot be read as a date, the
    bare [except] makes it ['medium'].  An estimate, which has no stat
    fields, is ['low']. *)
Theorem backup_confidence_never_raises (days_since_iso : string -> pyres Z) :
  (forall items, exists label,
     Backup.get_stat_confidence days_since_iso (VDict items) = Ret label /\
     In label ["high"; "medium"; "low"; "none"]) /\
  (forall fs store now_iso player strength speed dexterity defense,
     Spec.store_of fs = Some store ->
     (let! record :=
        fst (Backup.add_spy_data now_iso player strength speed dexterity defense fs) in
      Backup.get_stat_confidence days_since_iso record)
       = Ret (match days_since_iso now_iso with
              | Ret days => if days <? 7 then "high"
                            else if days <? 30 then "medium" else "low"
              | Raise _ => "medium"
              end)) /\
  (forall primary total,
     Backup.get_stat_confidence days_since_iso
       (VDict [("primary", primary); ("total", total)]) = Ret "low").
Proof.
  split; [|split].
  - intros items. unfold Backup.get_stat_confidence.
    destruct (truthy (VDict items)); cbn [negb]; [|eexists; split; [reflexivity|simpl; tauto]].
    rewrite all_in_dict. cbn [bindR].
    destruct (forallb _ _); [|eexists; split; [reflexivity|simpl; tauto]].
    destruct (py_getitem (VDict items) "timestamp") as [stamp|e]; cbn [bindR];
      [|eexists; split; [reflexivity|simpl; tauto]].
    destruct (match stamp with VStr s => days_since_iso s | _ => Raise _ end) as [days|e];
      cbn [bindR]; [|eexists; split; [reflexivity|simpl; tauto]].
    destruct (days <? 7); [eexists; split; [reflexivity|simpl; tauto]|].
    destruct (days <? 30); eexists; (split; [reflexivity|simpl; tauto]).
  - intros fs store now_iso player strength speed dexterity defense Hstore.
    rewrite (backup_add_runs fs store now_iso player strength speed dexterity defense Hstore).
    cbn [fst bindR]. unfold Backup.get_stat_confidence.
    rewrite all_in_dict.
    cbn [truthy negb forallb has_key items_get String.eqb Ascii.eqb Bool.eqb andb bindR
         py_getitem].
    destruct (days_since_iso now_iso) as [days|e]; cbn [bindR]; [|reflexivity].
    destruct (days <? 7); [reflexivity|]. now destruct (days <? 30).
  - reflexivity.
Qed.

End Display.

(* ===================================================================== *)
(** * The commands of the bot                                            *)
(* ===================================================================== *)

Section CommandFacts.
Import Py Spies Commands.
Local Open Scope list_scope.

Variable py_int : string -> pyres Z.
Variable float_comma : float -> string.
Variable str_other : value -> string.
Variable libm_pow : float -> float -> float.

(** The display of a record of [bot_package], for every confidence. *)
Lemma bot_record_display player strength speed dexterity defense written date confidence :
  BotPackage.format_stats_for_display float_comma str_other player
    (VDict [("strength", VInt strength); ("speed", VInt speed);
            ("dexterity", VInt dexterity); ("defense", VInt defense);
            ("total", VInt (strength + speed + dexterity + defense));
            ("timestamp", VFloat written); ("date", VStr date)]) confidence
  = Ret ("**Strength:** " ++ format_comma strength ++ nl ++
         "**Speed:** " ++ format_comma speed ++ nl ++
         "**Dexterity:** " ++ format_comma dexterity ++ nl ++
         "**Defense:** " ++ format_comma defense ++ nl ++
         "**Total:** " ++ format_comma (strength + speed + dexterity + defense) ++
         (nl ++ "Last updated: " ++ date) ++
         (nl ++ "Confidence: " ++ str_upper confidence))%string.
Proof. reflexivity. Qed.

Lemma get_spy_data_file player fs :
  snd (BotPackage.get_spy_data player fs) = fs \/
  (fs = NoFile /\ snd (BotPackage.get_spy_data player fs) = Json (VDict [])).
Proof. destruct fs as [| |v]; [right; now split | now left | now left]. Qed.

(** X12.  [add_spy] refuses without touching the spies file: when an
    argument is missing it sends the usage text; when all are given and
    the conversion of a stat to an int fails (with [ValueError], the
    only exception [int()] raises on a string) it sends the message that
    all stat values must be valid numbers.  In both cases it sends
    exactly that one message, returns, and the file is as it was. *)
Theorem add_spy_rejects_bad_input now date player_id strength speed dexterity defense b :
  (given player_id && given strength && given speed && given dexterity && given defense
     = false ->
   add_spy py_int float_comma str_other now date player_id strength speed dexterity defense b
     = (Ret tt,
        Bot (spies b)
          (outbox b ++
           [Content "Please provide all required parameters. Usage: `!add_spy <player_id> <str> <spd> <dex> <def>`"]))) /\
  (given player_id && given strength && given speed && given dexterity && given defense
     = true ->
   (forall x e, py_int x = Raise e -> is_class ValueError e = true) ->
   (exists x e, In x [strength; speed; dexterity; defense] /\ py_int x = Raise e) ->
   add_spy py_int float_comma str_other now date player_id strength speed dexterity defense b
     = (Ret tt,
        Bot (spies b) (outbox b ++ [Content "All stat values must be valid numbers."]))).
Proof.
  split.
  - intros Hgiven. unfold add_spy. now rewrite Hgiven.
  - intros Hgiven Hvalue (x & e & Hin & Hx). unfold add_spy. rewrite Hgiven.
    cbn [negb]. unfold bind, try_except, lift.
    destruct (py_int strength) as [n1|e1] eqn:E1;
      [|rewrite (Hvalue _ _ E1); reflexivity].
    destruct (py_int speed) as [n2|e2] eqn:E2;
      [|rewrite (Hvalue _ _ E2); reflexivity].
    destruct (py_int dexterity) as [n3|e3] eqn:E3;
      [|rewrite (Hvalue _ _ E3); reflexivity].
    destruct (py_int defense) as [n4|e4] eqn:E4;
      [|rewrite (Hvalue _ _ E4); reflexivity].
    destruct Hin as [<-|[<-|[<-|[<-|[]]]]]; congruence.
Qed.

(** X13.  What [add_spy] stores, [enemy_stats] shows.  With all
    arguments given and the four stats converting to ints, on a spies
    file that reads as a store, [add_spy] saves the record under the
    player and confirms with one green embed that displays it with
    confidence HIGH.  In every later state of the bot whose file is the
    store so saved, [enemy_stats] for that player answers with one embed
    displaying the same record, with a confidence of high, medium or low
    and the colour of that confidence, whatever estimate arguments it is
    given; it leaves the file as it is. *)
Theorem add_spy_then_enemy_stats now date player_id strength speed dexterity defense
  n_str n_spd n_dex n_def store b :
  given player_id && given strength && given speed && given dexterity && given defense
    = true ->
  py_int strength = Ret n_str -> py_int speed = Ret n_spd ->
  py_int dexterity = Ret n_dex -> py_int defense = Ret n_def ->
  Spec.store_of (spies b) = Some store ->
  exists record shown,
    add_spy py_int float_comma str_other now date player_id strength speed dexterity defense b
      = (Ret tt,
         Bot (Json (VDict (items_set player_id record store)))
           (outbox b ++
            [Embedded (Embed ("Spy Data Added for Player " ++ player_id) shown Green [])])) /\
    BotPackage.format_stats_for_display float_comma str_other (PidStr player_id) record "high"
      = Ret shown /\
    forall later damage turns my_primary_stat b1,
      spies b1 = Json (VDict (items_set player_id record store)) ->
      exists confidence shown',
        In confidence ["high"; "medium"; "low"]%string /\
        BotPackage.format_stats_for_display float_comma str_other (PidStr player_id)
          record confidence = Ret shown' /\
        enemy_stats py_int float_comma str_other libm_pow later
          player_id damage turns my_primary_stat b1
          = (Ret tt,
             Bot (spies b1)
               (outbox b1 ++
                [Embedded (Embed ("Spy Data for Player " ++ player_id) shown'
                             (_get_color_for_confidence confidence) [])])).
Proof.
  intros Hgiven E1 E2 E3 E4 Hstore.
  pose proof (bot_add_runs (spies b) store now date (PidStr player_id)
                n_str n_spd n_dex n_def Hstore) as Eadd.
  cbv zeta in Eadd. cbn [py_str] in Eadd.
  eexists _, _. split; [|split].
  - unfold add_spy. rewrite Hgiven. cbn [negb]. unfold bind, try_except, lift.
    rewrite E1, E2, E3, E4. unfold on_file. rewrite Eadd. cbn [fst snd].
    unfold ret. rewrite bot_record_display. reflexivity.
  - apply bot_record_display.
  - intros later damage turns my_primary_stat b1 Hfile.
    destruct (bot_confidence_of_record later now date n_str n_spd n_dex n_def)
      as (confidence & Econf & Hin).
    exists confidence. eexists. split; [exact Hin|]. split; [apply bot_record_display|].
    assert (given player_id = true) as Hplayer.
    { destruct (given player_id); [reflexivity | discriminate]. }
    unfold enemy_stats. rewrite Hplayer. cbn [negb]. unfold bind at 1. unfold on_file.
    rewrite Hfile.
    rewrite (proj2 (get_spy_data_runs (Json (VDict _)) _ (PidStr player_id) eq_refl)).
    cbn [py_str fst snd]. rewrite items_get_set_same.
    cbn [truthy]. unfold bind, lift. rewrite Econf, bot_record_display. reflexivity.
Qed.

Ltac sent_one Hfile :=
  eexists _, _, _; split; [reflexivity|]; split; [exact Hfile|];
  split; [right; eexists; reflexivity | intros _; eexists; reflexivity].

Ltac sent_none Hfile :=
  eexists _, _, _; split; [reflexivity|]; split; [exact Hfile|];
  split; [now left | discriminate].

Ltac sent_if_caught Hfile e :=
  destruct (is_class ValueError e); [sent_one Hfile | sent_none Hfile].

(** Every run of [enemy_stats], branch by branch. *)
Lemma enemy_stats_runs now player_id damage turns my_primary_stat b :
  exists r fs out,
    enemy_stats py_int float_comma str_other libm_pow now
      player_id damage turns my_primary_stat b = (r, Bot fs out) /\
    (fs = spies b \/ (spies b = NoFile /\ fs = Json (VDict []))) /\
    (out = outbox b \/ exists m, out = outbox b ++ [m]) /\
    (r = Ret tt -> exists m, out = outbox b ++ [m]).
Proof.
  unfold enemy_stats.
  assert (spies b = spies b \/ (spies b = NoFile /\ spies b = Json (VDict []))) as Hsame
    by now left.
  destruct (given player_id); cbn [negb]; [|sent_one Hsame].
  unfold bind at 1. unfold on_file.
  pose proof (get_spy_data_file (PidStr player_id) (spies b)) as Hfile.
  destruct (BotPackage.get_spy_data (PidStr player_id) (spies b)) as [[spy_data|e] fs];
    cbn [fst snd] in *; [|sent_none Hfile].
  destruct (truthy spy_data).
  { unfold bind, lift, send.
    destruct (BotPackage.get_stat_confidence now spy_data) as [confidence|e];
      [|sent_none Hfile].
    destruct (BotPackage.format_stats_for_display _ _ _ _ _) as [shown|e];
      [sent_one Hfile | sent_none Hfile]. }
  destruct (given damage && given turns && given my_primary_stat); [|sent_one Hfile].
  unfold try_except, bind, lift, send.
  destruct (py_int damage) as [damage_val|e]; [|sent_if_caught Hfile e].
  destruct (py_int turns) as [turns_val|e]; [|sent_if_caught Hfile e].
  destruct (py_int my_primary_stat) as [primary_val|e]; [|sent_if_caught Hfile e].
  destruct (BotPackage.estimate_primary_stat _ _ _ _) as [primary_estimate|e];
    [|sent_if_caught Hfile e].
  destruct (BotPackage.estimate_total_stats _ _) as [total_estimate|e];
    [|sent_if_caught Hfile e].
  destruct (BotPackage.format_stats_for_display _ _ _ _ _) as [shown|e];
    [sent_one Hfile | sent_if_caught Hfile e].
Qed.

(** X14.  [enemy_stats] only reads: whatever its arguments and whatever
    the spies file holds, the file afterwards is the file before, except
    that an absent file has been created as the empty object; it sends
    at most one message, and exactly one whenever it returns without an
    exception. *)
Theorem enemy_stats_only_reads now player_id damage turns my_primary_stat b :
  let run :=
    enemy_stats py_int float_comma str_other libm_pow now
      player_id damage turns my_primary_stat b in
  (spies (snd run) = spies b \/
   (spies b = NoFile /\ spies (snd run) = Json (VDict []))) /\
  (outbox (snd run) = outbox b \/ exists m, outbox (snd run) = outbox b ++ [m]) /\
  (fst run = Ret tt -> exists m, outbox (snd run) = outbox b ++ [m]).
Proof.
  cbv zeta.
  destruct (enemy_stats_runs now player_id damage turns my_primary_stat b)
    as (r & fs & out & -> & Hfile & Hout & Hret).
  cbn [fst snd spies outbox]. now repeat split.
Qed.

Lemma bind_on_file {A B} (c : F A) (k : A -> C B) b :
  bind (on_file c) k b =
  match fst (c (spies b)) with
  | Ret a => k a (Bot (snd (c (spies b))) (outbox b))
  | Raise e => (Raise e, Bot (snd (c (spies b))) (outbox b))
  end.
Proof. reflexivity. Qed.

(** X28.  [enemy_stats] for a player without a stored record, on a
    spies file that reads as a store.  When one of the three estimate
    arguments is missing it answers that no spy data was found and how
    to ask for an estimate.  When all three are given and convert to
    ints with turns <= 0, [bot_package] makes no refusal: the answer is
    the yellow embed of an estimate of 0 with a total of 0 and
    confidence LOW, quoting the inputs; the only other outcomes are an
    exception of the arithmetic, which is answered with the
    valid-numbers message when it is a [ValueError] and leaves the
    command otherwise. *)
Theorem enemy_stats_without_record now player_id damage turns my_primary_stat store b :
  given player_id = true ->
  Spec.store_of (spies b) = Some store ->
  items_get player_id store = None ->
  let run :=
    enemy_stats py_int float_comma str_other libm_pow now
      player_id damage turns my_primary_stat b in
  (given damage && given turns && given my_primary_stat = false ->
   fst run = Ret tt /\
   outbox (snd run) =
     outbox b ++
     [Content ("No spy data found for player " ++ player_id ++
               ". To estimate stats, use: `!enemy_stats " ++ player_id ++
               " <damage> <turns> <my_primary_stat>`")%string]) /\
  (forall damage_val turns_val primary_val,
     given damage && given turns && given my_primary_stat = true ->
     py_int damage = Ret damage_val -> py_int turns = Ret turns_val ->
     py_int my_primary_stat = Ret primary_val ->
     turns_val <= 0 ->
     (fst run = Ret tt /\
      outbox (snd run) =
        outbox b ++
        [Embedded
           (Embed ("Estimated Stats for Player " ++ player_id)
              ("**Estimated Primary:** 0" ++ nl ++ "**Estimated Total:** 0" ++ nl ++
               "Confidence: LOW")
              Yellow
              [("Calculation Details",
                "Based on " ++ format_comma damage_val ++ " damage over " ++
                pretty turns_val ++ " turns with your " ++
                format_comma primary_val ++ " primary stat",
                true)])]%string) \/
     (exists e,
        BotPackage.estimate_primary_stat libm_pow damage_val turns_val primary_val = Raise e /\
        if is_class ValueError e
        then fst run = Ret tt /\
             outbox (snd run) =
               outbox b ++
               [Content "All values must be valid numbers. Please check your input and try again."]
        else fst run = Raise e /\ outbox (snd run) = outbox b)).
Proof.
  intros Hplayer Hstore Hnone run. subst run. unfold enemy_stats.
  rewrite Hplayer. cbn [negb].
  rewrite bind_on_file, (proj2 (get_spy_data_runs (spies b) store (PidStr player_id) Hstore)).
  cbn [py_str fst snd]. rewrite Hnone. cbn [truthy]. split.
  - intros Hgiven. rewrite Hgiven. split; reflexivity.
  - intros damage_val turns_val primary_val Hgiven Ed Et Ep Hturns. rewrite Hgiven.
    unfold try_except, bind, lift. rewrite Ed, Et, Ep.
    destruct (bot_estimate_zero libm_pow damage_val turns_val primary_val (or_introl Hturns))
      as [E | (e & E)]; rewrite E.
    + left. split; reflexivity.
    + right. exists e. split; [reflexivity|].
      destruct (is_class ValueError e); split; reflexivity.
Qed.

End CommandFacts.

(* ===================================================================== *)
(** * More on the adapter: the cache, the session and the requests       *)
(* ===================================================================== *)

Section AdapterMore.
Import Py Adapter.
Local Open Scope list_scope.

Variable net : list exchange -> request -> reply * float.
Variable soup : Type.
Variable BeautifulSoup : string -> pyres soup.
Variable scan_profile : soup -> pyres profile_page.
Variable scan_spy : soup -> pyres (option spy_page).
Variable json_loads : string -> pyres value.

Lemma complete_has_spy v :
  complete v = true -> exists items, v = VDict items /\ has_key "spy" items = true.
Proof.
  destruct v as [| | | | | |items]; try discriminate. simpl. intros H.
  exists items. split; [reflexivity|]. unfold has_key.
  now destruct (items_get "spy" items).
Qed.

(** X15.  The normalizer is idempotent: whatever it returns, it returns
    unchanged when given it again; a record that went through it once
    (before it was cached, say) is not altered by a second pass. *)
Theorem normalizer_is_idempotent data out :
  _normalize_tornstats_data data = Ret out ->
  _normalize_tornstats_data out = Ret out.
Proof.
  intros H. destruct (normalize_result data out H) as [->|Hc]; [exact H|].
  destruct (complete_has_spy out Hc) as (items & -> & Hspy).
  now apply normalize_spy.
Qed.

Lemma api_spy_dict_raises fields e :
  api_spy_dict fields = Raise e ->
  isinstance_dict fields = false /\ is_class AttributeError e = true.
Proof.
  destruct fields; simpl; try discriminate; intros H; injection H as <-; now split.
Qed.

Lemma api_spy_dict_of_no_dict fields :
  isinstance_dict fields = false -> exists e, api_spy_dict fields = Raise e.
Proof. destruct fields; try discriminate; intros _; eexists; reflexivity. Qed.

(** X16.  On a JSON object the normalizer raises only [AttributeError],
    and exactly when the object has no ['spy'] key and the fields it is
    about to read are not themselves an object: the value under
    ['user'], or, without a ['user'] key, the value under ['stats'] next
    to a status of ['ok'].  (The JSON strategy then counts the reply as
    a miss.) *)
Theorem normalizer_raises_on_fields_that_are_no_dict items :
  (forall e, _normalize_tornstats_data (VDict items) = Raise e ->
     is_class AttributeError e = true /\
     has_key "spy" items = false /\
     exists fields, isinstance_dict fields = false /\
       (items_get "user" items = Some fields \/
        (has_key "user" items = false /\ items_get "status" items = Some (VStr "ok") /\
         items_get "stats" items = Some fields))) /\
  (forall fields,
     has_key "spy" items = false -> isinstance_dict fields = false ->
     items_get "user" items = Some fields \/
     (has_key "user" items = false /\ items_get "status" items = Some (VStr "ok") /\
      items_get "stats" items = Some fields) ->
     exists e, _normalize_tornstats_data (VDict items) = Raise e /\
               forall r, json r = Ret (VDict items) -> reply_hit (Responds r) = None).
Proof.
  split.
  - intros e. unfold _normalize_tornstats_data. rewrite is_stats_format_dict.
    cbn [py_in bindR]. destruct (has_key "spy" items) eqn:Espy; [discriminate|].
    unfold has_key at 1. cbn [py_getitem].
    destruct (items_get "user" items) as [user|] eqn:Euser; cbn [bindR].
    { intros H. apply api_spy_dict_raises in H as (Hd & He).
      split; [exact He|]. split; [reflexivity|]. exists user. split; [exact Hd | now left]. }
    destruct (items_get "status" items) as [status|] eqn:Estatus.
    2:{ destruct (forallb _ stat_names); [|discriminate].
        intros H. apply api_spy_dict_raises in H as (Hd & _). discriminate. }
    destruct (is_str "ok" status) eqn:Eok; cbn [andb].
    2:{ destruct (forallb _ stat_names); [|discriminate].
        intros H. apply api_spy_dict_raises in H as (Hd & _). discriminate. }
    apply is_str_true in Eok. subst status. unfold has_key at 1.
    destruct (items_get "stats" items) as [stats|] eqn:Estats; cbn [bindR].
    { intros H. apply api_spy_dict_raises in H as (Hd & He).
      split; [exact He|]. split; [reflexivity|]. exists stats. split; [exact Hd|].
      right. unfold has_key. rewrite Euser. now repeat split. }
    destruct (forallb _ stat_names); [|discriminate].
    intros H. apply api_spy_dict_raises in H as (Hd & _). discriminate.
  - intros fields Hspy Hd Hwhere.
    assert (exists e, _normalize_tornstats_data (VDict items) = Raise e) as (e & E).
    { destruct (api_spy_dict_of_no_dict fields Hd) as (e & E). exists e.
      unfold _normalize_tornstats_data. rewrite is_stats_format_dict.
      cbn [py_in bindR]. rewrite Hspy.
      destruct Hwhere as [Huser|(Huser & Hstatus & Hstats)].
      - unfold has_key. cbn [py_getitem]. now rewrite Huser.
      - rewrite Huser, Hstatus. unfold has_key. cbn [py_getitem]. rewrite Hstats.
        cbn [is_str String.eqb Ascii.eqb Bool.eqb andb bindR]. exact E. }
    exists e. split; [exact E|].
    intros r Hj. unfold reply_hit. rewrite Hj, E.
    destruct (status r =? 200); [|reflexivity]. now destruct (truthy (VDict items)).
Qed.

Lemma truthy_entries_after_lookup key w :
  truthy_entries (cache w) -> truthy_entries (cache_after_lookup key w).
Proof.
  intros H. unfold cache_after_lookup.
  destruct (cache w !! key) as [entry|]; [|exact H].
  destruct (live (clock w) entry); [exact H|].
  intros k e He. apply lookup_delete_Some in He as (_ & He). now apply (H k).
Qed.

Lemma missed_lookup_leaves_no_entry key w :
  truthy_entries (cache w) ->
  truthy (cached_value key w) = false ->
  cache_after_lookup key w !! key = None.
Proof.
  intros H. unfold cached_value, cache_after_lookup.
  destruct (cache w !! key) as [entry|] eqn:E; [|now rewrite E].
  destruct (live (clock w) entry).
  - intros Hfalse. rewrite (H key entry E) in Hfalse. discriminate.
  - intros _. apply lookup_delete_eq.
Qed.

(** X17.  Negative results are never cached.  When every entry of the
    cache holds truthy data (as in a fresh adapter), so does every entry
    after [get_player_data], and the cache then has an entry for the
    player exactly when the call returned something other than [None]:
    after a [None] there is no entry, so the next call goes to the
    network again. *)
Theorem negative_results_are_not_cached player w v w' :
  get_player_data net soup BeautifulSoup scan_profile scan_spy json_loads player w
    = (Ret v, w') ->
  truthy_entries (cache w) ->
  truthy_entries (cache w') /\
  (v = VNone <-> cache w' !! cache_key player = None).
Proof.
  intros E Hinv. destruct (get_player_data_spec net soup BeautifulSoup scan_profile scan_spy
                             json_loads player w) as (v2 & w2 & E2 & _ & H).
  rewrite E in E2. injection E2 as <- <-.
  destruct (truthy (cached_value (cache_key player) w)) eqn:Ehit.
  - destruct H as (-> & _ & -> & _). split; [exact Hinv|].
    unfold cached_value in *.
    destruct (cache w !! cache_key player) as [entry|]; [|discriminate].
    destruct (live (clock w) entry); [|discriminate].
    split; [intros Hv; rewrite Hv in Ehit; discriminate | discriminate].
  - destruct H as (_ & _ & _ & [(-> & -> & _)|(Ht & -> & _)]).
    + split; [now apply truthy_entries_after_lookup|].
      split; [intros _; now apply missed_lookup_leaves_no_entry | reflexivity].
    + split.
      * intros k e He. destruct (String.eqb_spec k (cache_key player)) as [->|Hne].
        -- rewrite lookup_insert_eq in He. injection He as <-. exact Ht.
        -- rewrite lookup_insert_ne in He by congruence.
           now apply (truthy_entries_after_lookup (cache_key player) w Hinv k).
      * rewrite lookup_insert_eq.
        split; [intros ->; discriminate | discriminate].
Qed.

Lemma after_lookup_other key k w :
  k <> key -> cache_after_lookup key w !! k = cache w !! k.
Proof.
  intros Hne. unfold cache_after_lookup.
  destruct (cache w !! key) as [entry|]; [|reflexivity].
  destruct (live (clock w) entry); [reflexivity|].
  apply lookup_delete_ne. congruence.
Qed.

Lemma cache_key_injective p q : cache_key p = cache_key q -> py_str p = py_str q.
Proof. unfold cache_key. simpl. intros H. now injection H. Qed.

(** X18.  [get_player_data] for one player touches no other player's
    cache entry and never changes the credential: every key other than
    ['player_' + str(player_id)], in particular the key of every player
    with a different [str()], has the same entry (or none) after the
    call as before, whether the call hit the cache, fetched a record or
    failed. *)
Theorem get_player_data_keeps_other_entries player w :
  let w' :=
    snd (get_player_data net soup BeautifulSoup scan_profile scan_spy json_loads player w) in
  (forall key, key <> cache_key player -> cache w' !! key = cache w !! key) /\
  (forall other, py_str other <> py_str player ->
     cache w' !! cache_key other = cache w !! cache_key other) /\
  api_key w' = api_key w.
Proof.
  cbv zeta.
  destruct (get_player_data_spec net soup BeautifulSoup scan_profile scan_spy
              json_loads player w) as (v & w' & -> & Hkey & H).
  cbn [snd].
  assert (forall key, key <> cache_key player -> cache w' !! key = cache w !! key) as Hframe.
  { intros key Hne. destruct (truthy (cached_value (cache_key player) w)).
    - destruct H as (_ & _ & -> & _). reflexivity.
    - destruct H as (_ & _ & _ & [(_ & -> & _)|(_ & -> & _)]).
      + now apply after_lookup_other.
      + rewrite lookup_insert_ne by congruence. now apply after_lookup_other. }
  split; [exact Hframe|]. split; [|exact Hkey].
  intros other Hne. apply Hframe. intros Heq. apply Hne. now apply cache_key_injective.
Qed.

Lemma ensure_session_eq w : ensure_session w = (Ret tt, set_session OpenSession w).
Proof.
  unfold ensure_session. destruct w as [k s c t tr lg]. now destruct s.
Qed.

Lemma try_after_ensure_session {A} (k : M A) (handler : exn -> M A) w :
  try_except Exception (ensure_session ;;; k) handler w
    = try_except Exception k handler (set_session OpenSession w).
Proof. unfold try_except, bind. now rewrite ensure_session_eq. Qed.

Lemma reopened_after_close c w :
  set_session OpenSession (set_cache c (snd (close w)))
    = set_session OpenSession (set_cache c w).
Proof. unfold close. destruct w as [k s ca t tr lg]. now destruct s. Qed.

Lemma cached_value_after_close key w :
  cached_value key (snd (close w)) = cached_value key w /\
  cache_after_lookup key (snd (close w)) = cache_after_lookup key w.
Proof. unfold close. destruct w as [k s ca t tr lg]. now destruct s. Qed.

(** ** Counting the requests and naming the host *)

Lemma polite_weaken {A} n m (c : M A) : (n <= m)%nat -> polite n c -> polite m c.
Proof.
  intros Hle Hc w Hs. destruct (Hc w Hs) as (r & w' & l & E & Hs' & Htr & Hlen & Hall).
  exists r, w', l. repeat split; try assumption. lia.
Qed.

Lemma polite_still {A} (c : M A) :
  (forall w, exists r w', c w = (r, w') /\ session w' = session w /\ trace w' = trace w) ->
  polite 0 c.
Proof.
  intros Hc w Hs. destruct (Hc w) as (r & w' & E & Hs' & Htr).
  exists r, w', []. rewrite app_nil_r. repeat split; try assumption; [congruence | reflexivity].
Qed.

Lemma polite_ret {A} (a : A) : polite 0 (ret a).
Proof. apply polite_still. intros w. now exists (Ret a), w. Qed.

Lemma polite_lift {A} (r : pyres A) : polite 0 (lift r).
Proof. apply polite_still. intros w. now exists r, w. Qed.

Lemma polite_log l msg : polite 0 (log l msg).
Proof. apply polite_still. intros w. now eexists _, _. Qed.

Lemma polite_cache_store key d : polite 0 (cache_store key d).
Proof. apply polite_still. intros w. now eexists _, _. Qed.

Lemma polite_bind {A B} n m (c : M A) (k : A -> M B) :
  polite n c -> (forall a, polite m (k a)) -> polite (n + m) (bind c k).
Proof.
  intros Hc Hk w Hs. destruct (Hc w Hs) as (r & w1 & l1 & E1 & Hs1 & Htr1 & Hlen1 & Hall1).
  unfold bind. rewrite E1. destruct r as [a|e].
  - destruct (Hk a w1 Hs1) as (r2 & w2 & l2 & E2 & Hs2 & Htr2 & Hlen2 & Hall2).
    exists r2, w2, (l1 ++ l2). split; [exact E2|]. split; [exact Hs2|].
    split; [now rewrite Htr2, Htr1, app_assoc|].
    split; [rewrite length_app; lia|]. rewrite forallb_app. now rewrite Hall1, Hall2.
  - exists (Raise e), w1, l1. repeat split; try assumption. lia.
Qed.

Lemma polite_try {A} n m (catches : exn -> bool) (body : M A) (handler : exn -> M A) :
  polite n body -> (forall e, polite m (handler e)) ->
  polite (n + m) (try_except catches body handler).
Proof.
  intros Hc Hk w Hs. destruct (Hc w Hs) as (r & w1 & l1 & E1 & Hs1 & Htr1 & Hlen1 & Hall1).
  unfold try_except. rewrite E1. destruct r as [a|e].
  - exists (Ret a), w1, l1. repeat split; try assumption. lia.
  - destruct (catches e).
    + destruct (Hk e w1 Hs1) as (r2 & w2 & l2 & E2 & Hs2 & Htr2 & Hlen2 & Hall2).
      exists r2, w2, (l1 ++ l2). split; [exact E2|]. split; [exact Hs2|].
      split; [now rewrite Htr2, Htr1, app_assoc|].
      split; [rewrite length_app; lia|]. rewrite forallb_app. now rewrite Hall1, Hall2.
    + exists (Raise e), w1, l1. repeat split; try assumption. lia.
Qed.

Lemma polite_session_get req :
  String.prefix "https://www.tornstats.com/" (url req) = true ->
  polite 1 (session_get net req).
Proof.
  intros Hurl w Hs. rewrite (session_get_open net req w Hs).
  eexists _, _, [next_exchange net w req]. split; [reflexivity|].
  split; [exact Hs|]. split; [reflexivity|]. split; [simpl; lia|].
  simpl. unfold to_tornstats. simpl. now rewrite Hurl.
Qed.

Lemma polite_first_success {A} (attempt : A -> M (option value)) xs :
  (forall x, In x xs -> polite 1 (attempt x)) ->
  polite (length xs) (first_success attempt xs).
Proof.
  induction xs as [|x rest IH]; intros Hall; simpl.
  - apply polite_ret.
  - apply (polite_bind 1 (length rest)); [apply Hall; now left|].
    intros [v|].
    + apply (polite_weaken 0); [lia | apply polite_ret].
    + apply IH. intros y Hy. apply Hall. now right.
Qed.

Lemma polite_api_attempt intro req shown :
  String.prefix "https://www.tornstats.com/" (url req) = true ->
  polite 1 (api_attempt net intro req shown).
Proof.
  intros Hurl. unfold api_attempt.
  apply (polite_bind 0 1); [apply polite_log|]. intros _.
  apply (polite_try 1 0).
  - apply (polite_bind 1 0); [now apply polite_session_get|]. intros response.
    unfold json_body. destruct (status response =? 200); [|apply polite_ret].
    apply (polite_try 0 0).
    + apply (polite_bind 0 0); [apply polite_lift|]. intros body.
      destruct (truthy body); [|apply polite_ret].
      apply (polite_bind 0 0); [apply polite_log|]. intros _.
      apply (polite_bind 0 0); [apply polite_lift|]. intros out. apply polite_ret.
    + intros e. apply (polite_bind 0 0); [apply polite_log|]. intros _. apply polite_ret.
  - intros e. apply (polite_bind 0 0); [apply polite_log|]. intros _. apply polite_ret.
Qed.

Lemma polite_fetch_json_api player : polite 6 (_fetch_json_api net player).
Proof.
  intros w Hs. unfold _fetch_json_api. destruct (usable_key w) as [key|].
  2:{ revert w Hs. apply (polite_weaken 0); [lia|].
      apply (polite_bind 0 0); [apply polite_log|]. intros _. apply polite_ret. }
  revert w Hs. apply (polite_bind 3 3).
  - apply (polite_first_success (bearer_attempt net key) (api_endpoints (py_str player))).
    intros x [<-|[<-|[<-|[]]]]; now apply polite_api_attempt.
  - intros [out|]; [apply (polite_weaken 0); [lia | apply polite_ret]|].
    apply (polite_bind 3 0); [|intros r; apply polite_ret].
    apply (polite_first_success (key_attempt net key) (api_endpoints (py_str player))).
    intros x [<-|[<-|[<-|[]]]]; now apply polite_api_attempt.
Qed.

Lemma polite_profile_attempt player url :
  String.prefix "https://www.tornstats.com/" url = true ->
  polite 1 (profile_attempt net soup BeautifulSoup scan_profile player url).
Proof.
  intros Hurl. unfold profile_attempt. apply (polite_try 1 0).
  - apply (polite_bind 0 1); [apply polite_log|]. intros _.
    apply (polite_bind 1 0); [now apply polite_session_get|]. intros response.
    destruct (negb (status response =? 200)).
    { apply (polite_bind 0 0); [apply polite_log|]. intros _. apply polite_ret. }
    apply (polite_bind 0 0); [apply polite_lift|]. intros html.
    apply (polite_bind 0 0); [apply polite_lift|]. intros document.
    apply (polite_bind 0 0); [apply polite_lift|]. intros page.
    destruct (_ && _); [|apply polite_ret].
    apply (polite_bind 0 0); [apply polite_log|]. intros _. apply polite_ret.
  - intros e. apply (polite_bind 0 0); [apply polite_log|]. intros _. apply polite_ret.
Qed.

Lemma polite_parse_html_profile player :
  polite 4 (_parse_html_profile net soup BeautifulSoup scan_profile player).
Proof.
  unfold _parse_html_profile. apply (polite_bind 4 0); [|intros r; apply polite_ret].
  apply (polite_first_success
           (profile_attempt net soup BeautifulSoup scan_profile (py_str player))
           (profile_urls (py_str player))).
  intros x [<-|[<-|[<-|[<-|[]]]]]; now apply polite_profile_attempt.
Qed.

Lemma polite_extract_json_from_html html :
  polite 0 (_extract_json_from_html json_loads html).
Proof.
  apply polite_still. intros w.
  destruct (extract_json_from_html_spec json_loads html w)
    as (v & w' & E & (_ & Hs & _) & Htr & _).
  now exists (Ret v), w'.
Qed.

Lemma polite_try_authenticated_access player :
  polite 2 (_try_authenticated_access net soup BeautifulSoup scan_spy json_loads player).
Proof.
  intros w Hs. unfold _try_authenticated_access. destruct (usable_key w) as [key|].
  2:{ exists (Ret VNone), w, []. rewrite app_nil_r. repeat split; [exact Hs | simpl; lia]. }
  revert w Hs. apply (polite_bind 2 0); [|intros r; apply polite_ret].
  apply (polite_try 2 0).
  - apply (polite_bind 1 1); [now apply polite_session_get|]. intros login_response.
    apply (polite_bind 1 0); [now apply polite_session_get|]. intros spy_response.
    destruct (status spy_response =? 200); [|apply polite_ret].
    apply (polite_bind 0 0); [apply polite_lift|]. intros html.
    apply (polite_bind 0 0); [apply polite_extract_json_from_html|]. intros json_data.
    destruct (truthy json_data); [apply polite_ret|].
    apply (polite_bind 0 0); [apply polite_lift|]. intros document.
    apply (polite_bind 0 0); [apply polite_lift|]. intros out. apply polite_ret.
  - intros e. apply (polite_bind 0 0); [apply polite_log|]. intros _. apply polite_ret.
Qed.

(** What [get_player_data] does once the cache had nothing to offer. *)
Lemma get_player_data_on_a_miss player w :
  truthy (cached_value (cache_key player) w) = false ->
  exists r w' l,
    get_player_data net soup BeautifulSoup scan_profile scan_spy json_loads player w
      = (r, w') /\
    session w' = OpenSession /\ trace w' = trace w ++ l /\ (length l <= 12)%nat /\
    forallb to_tornstats l = true.
Proof.
  intros Hmiss. unfold get_player_data.
  rewrite (bind_ret _ _ _ _ _ (get_from_cache_eq (cache_key player) w)). rewrite Hmiss.
  rewrite try_after_ensure_session.
  match goal with
  | |- context [try_except Exception ?body ?h _] =>
      assert (polite 12 (try_except Exception body h)) as Hpolite
  end.
  { apply (polite_try 12 0).
    2:{ intros e. apply (polite_bind 0 0); [apply polite_log|]. intros _. apply polite_ret. }
    apply (polite_bind 0 12); [apply polite_log|]. intros _.
    apply (polite_bind 6 6); [apply polite_fetch_json_api|]. intros json_data.
    destruct (truthy json_data).
    { apply (polite_weaken 0); [lia|].
      apply (polite_bind 0 0); [apply polite_cache_store|]. intros _. apply polite_ret. }
    apply (polite_bind 0 6); [apply polite_log|]. intros _.
    apply (polite_bind 4 2); [apply polite_parse_html_profile|]. intros html_data.
    destruct (truthy html_data).
    { apply (polite_weaken 0); [lia|].
      apply (polite_bind 0 0); [apply polite_cache_store|]. intros _. apply polite_ret. }
    apply (polite_bind 0 2); [apply polite_log|]. intros _.
    apply (polite_bind 2 0); [apply polite_try_authenticated_access|]. intros auth_data.
    destruct (truthy auth_data).
    { apply (polite_bind 0 0); [apply polite_cache_store|]. intros _. apply polite_ret. }
    apply (polite_bind 0 0); [apply polite_log|]. intros _. apply polite_ret. }
  destruct (Hpolite (set_session OpenSession
                       (set_cache (cache_after_lookup (cache_key player) w) w)) eq_refl)
    as (r & w' & l & E & Hs & Htr & Hlen & Hall).
  exists r, w', l. repeat split; assumption.
Qed.

(** X19.  Every request that [get_player_data] makes goes to
    [https://www.tornstats.com/], and one call makes at most twelve of
    them (six to the API endpoints, four to the profile pages, two in
    the authenticated flow); a call answered from the cache makes
    none. *)
Theorem requests_go_to_tornstats player w :
  exists v w' l,
    get_player_data net soup BeautifulSoup scan_profile scan_spy json_loads player w
      = (Ret v, w') /\
    trace w' = trace w ++ l /\ (length l <= 12)%nat /\
    forallb to_tornstats l = true /\
    (truthy (cached_value (cache_key player) w) = true -> l = []).
Proof.
  destruct (get_player_data_spec net soup BeautifulSoup scan_profile scan_spy
              json_loads player w) as (v & w' & E & _ & H).
  exists v, w'.
  destruct (truthy (cached_value (cache_key player) w)) eqn:Ehit.
  - destruct H as (_ & Htr & _). exists []. rewrite app_nil_r.
    repeat split; [exact E | exact Htr | simpl; lia].
  - destruct (get_player_data_on_a_miss player w Ehit)
      as (r & w2 & l & E2 & _ & Htr & Hlen & Hall).
    rewrite E in E2. injection E2 as <- <-.
    exists l. repeat split; try assumption. discriminate.
Qed.

(** X20.  The adapter can be used again after [close()].  Closing
    keeps the cache, and [get_player_data] on the closed adapter returns
    what it returns on the adapter as it was, makes the same requests,
    logs the same lines and leaves the same cache; when the call is not
    answered from the cache it opens a session again, so that the two
    runs end in the same state, with the session open. *)
Theorem adapter_is_usable_after_close player w :
  let closed := snd (close w) in
  let run :=
    get_player_data net soup BeautifulSoup scan_profile scan_spy json_loads player w in
  let rerun :=
    get_player_data net soup BeautifulSoup scan_profile scan_spy json_loads player closed in
  cache closed = cache w /\
  fst rerun = fst run /\
  trace (snd rerun) = trace (snd run) /\
  cache (snd rerun) = cache (snd run) /\
  logged (snd rerun) = logged (snd run) /\
  (truthy (cached_value (cache_key player) w) = false ->
   snd rerun = snd run /\ session (snd run) = OpenSession).
Proof.
  cbv zeta. split; [unfold close; now destruct (session w)|].
  destruct (cached_value_after_close (cache_key player) w) as (Hv & Hc).
  destruct (truthy (cached_value (cache_key player) w)) eqn:Ehit.
  - unfold get_player_data.
    rewrite !(bind_ret _ _ _ _ _ (get_from_cache_eq (cache_key player) _)).
    rewrite Hv, Hc, Ehit. unfold bind, log, ret, close.
    destruct (session w); repeat split; discriminate.
  - assert (get_player_data net soup BeautifulSoup scan_profile scan_spy json_loads
              player (snd (close w))
            = get_player_data net soup BeautifulSoup scan_profile scan_spy json_loads
                player w) as ->.
    { unfold get_player_data.
      rewrite !(bind_ret _ _ _ _ _ (get_from_cache_eq (cache_key player) _)).
      rewrite Hv, Hc, Ehit.
      now rewrite !try_after_ensure_session, reopened_after_close. }
    repeat split.
    destruct (get_player_data_on_a_miss player w Ehit) as (r & w' & l & -> & Hs & _).
    exact Hs.
Qed.

(** ** The order of the requests *)

(** One attempt on a profile page: exactly the request for that page,
    and a complete record when it succeeds. *)
Lemma profile_attempt_sends player url w :
  session w = OpenSession ->
  exists r w',
    profile_attempt net soup BeautifulSoup scan_profile player url w = (Ret r, w') /\
    same_adapter w w' /\
    trace w' = trace w ++ [next_exchange net w (profile_request url)] /\
    forall v, r = Some v -> complete v = true.
Proof.
  intros Hs. unfold profile_attempt, bind, log, try_except.
  rewrite session_get_open by exact Hs.
  assert (next_exchange net (add_log INFO ("Trying to parse HTML from: " ++ url) w)
            (profile_request url) = next_exchange net w (profile_request url)) as ->
    by reflexivity.
  destruct (got (next_exchange net w (profile_request url))) as [e|r];
    cbn -[String.append]; [eexists _, _; now repeat split|].
  destruct (status r =? 200); cbn -[String.append]; [|eexists _, _; now repeat split].
  unfold lift, ret.
  destruct (text r) as [html|]; cbn -[String.append]; [|eexists _, _; now repeat split].
  destruct (BeautifulSoup html) as [document|]; cbn -[String.append];
    [|eexists _, _; now repeat split].
  destruct (scan_profile document) as [page|]; cbn -[String.append];
    [|eexists _, _; now repeat split].
  destruct (match page_data page with [] => false | _ => true end &&
            (0 <? stat_sum (page_data page)));
    cbn -[String.append]; [|eexists _, _; now repeat split].
  eexists _, _. split; [reflexivity|]. split; [now repeat split|]. split; [reflexivity|].
  intros v Hv. injection Hv as <-. reflexivity.
Qed.

(** A loop whose attempts each make the request of their element makes
    the requests of a prefix of the list, in order, and of the whole
    list when no attempt succeeds. *)
Lemma first_success_in_order {A} (attempt : A -> M (option value)) (req : A -> request)
  (good : value -> Prop) :
  (forall x w, session w = OpenSession ->
     exists r w', attempt x w = (Ret r, w') /\ same_adapter w w' /\
       trace w' = trace w ++ [next_exchange net w (req x)] /\
       forall v, r = Some v -> good v) ->
  forall xs w, session w = OpenSession ->
    exists r w' l n,
      first_success attempt xs w = (Ret r, w') /\ same_adapter w w' /\
      trace w' = trace w ++ l /\
      map sent l = firstn n (map req xs) /\ (n <= length xs)%nat /\
      (r = None -> n = length xs) /\
      (xs <> [] -> (1 <= n)%nat) /\
      (forall v, r = Some v -> good v).
Proof.
  intros Hatt xs. induction xs as [|x rest IH]; intros w Hs.
  - exists None, w, [], 0%nat. rewrite app_nil_r.
    split; [reflexivity|]. split; [apply same_adapter_refl|]. split; [reflexivity|].
    split; [reflexivity|]. split; [simpl; lia|]. split; [reflexivity|].
    split; [congruence | discriminate].
  - destruct (Hatt x w Hs) as (r & w1 & E1 & Hsame1 & Htr1 & Hgood1).
    simpl first_success. rewrite (bind_ret _ _ _ _ _ E1). destruct r as [v|].
    + exists (Some v), w1, [next_exchange net w (req x)], 1%nat.
      split; [reflexivity|]. split; [exact Hsame1|]. split; [exact Htr1|].
      split; [reflexivity|]. split; [simpl; lia|]. split; [discriminate|].
      split; [intros _; lia | exact Hgood1].
    + assert (session w1 = OpenSession) as Hs1.
      { destruct Hsame1 as (_ & -> & _). exact Hs. }
      destruct (IH w1 Hs1)
        as (r & w2 & l & n & E2 & Hsame2 & Htr2 & Hsent & Hle & Hnone & _ & Hgood2).
      exists r, w2, (next_exchange net w (req x) :: l), (S n).
      split; [exact E2|]. split; [eapply same_adapter_trans; eassumption|].
      split; [rewrite Htr2, Htr1, <- app_assoc; reflexivity|].
      split; [simpl; now rewrite Hsent|]. split; [simpl; lia|].
      split; [intros Hr; simpl; now rewrite (Hnone Hr)|].
      split; [intros _; lia | exact Hgood2].
Qed.

Lemma profile_pages_in_order player w :
  session w = OpenSession ->
  exists v w' l n,
    _parse_html_profile net soup BeautifulSoup scan_profile player w = (Ret v, w') /\
    same_adapter w w' /\
    trace w' = trace w ++ l /\
    map sent l = firstn n (map profile_request (profile_urls (py_str player))) /\
    (1 <= n <= 4)%nat /\
    (v = VNone -> n = 4%nat).
Proof.
  intros Hs. unfold _parse_html_profile.
  destruct (first_success_in_order
              (profile_attempt net soup BeautifulSoup scan_profile (py_str player))
              profile_request (fun v => complete v = true)
              (fun url w Hw => profile_attempt_sends (py_str player) url w Hw)
              (profile_urls (py_str player)) w Hs)
    as (r & w' & l & n & E & Hsame & Htr & Hsent & Hle & Hnone & Hone & Hgood).
  rewrite (bind_ret _ _ _ _ _ E).
  exists (or_none r), w', l, n. unfold ret. split; [reflexivity|].
  split; [exact Hsame|]. split; [exact Htr|]. split; [exact Hsent|].
  split; [split; [apply Hone; discriminate | exact Hle]|].
  destruct r as [v|]; [|intros _; now apply Hnone].
  simpl. intros ->. specialize (Hgood VNone eq_refl). discriminate.
Qed.

(** One turn of the loop of [_parse_html_profile] makes the request of
    its page and returns what the reply is worth. *)
Lemma profile_attempt_yield player url w :
  session w = OpenSession ->
  exists w',
    profile_attempt net soup BeautifulSoup scan_profile player url w
      = (Ret (page_yield soup BeautifulSoup scan_profile player
                (got (next_exchange net w (profile_request url)))), w') /\
    same_adapter w w' /\
    trace w' = trace w ++ [next_exchange net w (profile_request url)].
Proof.
  intros Hs. unfold profile_attempt, bind, log, try_except, page_yield.
  rewrite session_get_open by exact Hs.
  assert (next_exchange net (add_log INFO ("Trying to parse HTML from: " ++ url) w)
            (profile_request url) = next_exchange net w (profile_request url)) as ->
    by reflexivity.
  destruct (got (next_exchange net w (profile_request url))) as [e|r];
    cbn -[String.append]; [eexists; now repeat split|].
  destruct (status r =? 200); cbn -[String.append]; [|eexists; now repeat split].
  unfold lift, ret.
  destruct (text r) as [html|]; cbn -[String.append]; [|eexists; now repeat split].
  destruct (BeautifulSoup html) as [document|]; cbn -[String.append];
    [|eexists; now repeat split].
  destruct (scan_profile document) as [page|]; cbn -[String.append];
    [|eexists; now repeat split].
  destruct (match page_data page with [] => false | _ => true end &&
            (0 <? stat_sum (page_data page)));
    cbn -[String.append]; eexists; now repeat split.
Qed.

Lemma page_yield_complete player rep out :
  page_yield soup BeautifulSoup scan_profile player rep = Some out -> complete out = true.
Proof.
  unfold page_yield. destruct rep as [e|r]; [discriminate|].
  destruct (status r =? 200); [|discriminate].
  destruct (let! html := text r in let! document := BeautifulSoup html in scan_profile document)
    as [page|]; [|discriminate].
  destruct (match page_data page with [] => false | _ => true end &&
            (0 <? stat_sum (page_data page))); [|discriminate].
  intros H. injection H as <-. reflexivity.
Qed.

(** The loop of [_parse_html_profile] is the walk over its pages. *)
Lemma profile_loop_is_the_walk player urls w :
  session w = OpenSession ->
  exists w',
    first_success (profile_attempt net soup BeautifulSoup scan_profile player) urls w
      = (Ret (fst (first_page net soup BeautifulSoup scan_profile player urls (trace w))), w') /\
    same_adapter w w' /\
    trace w' = snd (first_page net soup BeautifulSoup scan_profile player urls (trace w)).
Proof.
  revert w. induction urls as [|url rest IH]; intros w Hs.
  - exists w. split; [reflexivity|]. split; [apply same_adapter_refl | reflexivity].
  - destruct (profile_attempt_yield player url w Hs) as (w1 & E1 & Hsame1 & Htr1).
    simpl first_success. rewrite (bind_ret _ _ _ _ _ E1). simpl first_page.
    change (Exchange (profile_request url) (fst (net (trace w) (profile_request url)))
              (snd (net (trace w) (profile_request url))))
      with (next_exchange net w (profile_request url)).
    change (fst (net (trace w) (profile_request url)))
      with (got (next_exchange net w (profile_request url))).
    destruct (page_yield soup BeautifulSoup scan_profile player
                (got (next_exchange net w (profile_request url)))) as [out|].
    + exists w1. split; [reflexivity|]. split; [exact Hsame1 | exact Htr1].
    + assert (session w1 = OpenSession) as Hs1.
      { destruct Hsame1 as (_ & -> & _). exact Hs. }
      destruct (IH w1 Hs1) as (w2 & E2 & Hsame2 & Htr2).
      exists w2. rewrite <- Htr1. split; [exact E2|].
      split; [eapply same_adapter_trans; eassumption | exact Htr2].
Qed.

(** The walk makes the requests of a prefix of the pages; every reply
    but the last yields nothing, and the last one yields the result
    unless the pages ran out. *)
Lemma first_page_stops player urls made :
  urls <> [] ->
  exists before x,
    snd (first_page net soup BeautifulSoup scan_profile player urls made)
      = made ++ before ++ [x] /\
    map sent (before ++ [x]) = firstn (S (length before)) (map profile_request urls) /\
    (S (length before) <= length urls)%nat /\
    Forall (fun y => page_yield soup BeautifulSoup scan_profile player (got y) = None) before /\
    fst (first_page net soup BeautifulSoup scan_profile player urls made)
      = page_yield soup BeautifulSoup scan_profile player (got x) /\
    (page_yield soup BeautifulSoup scan_profile player (got x) = None ->
     S (length before) = length urls).
Proof.
  revert made. induction urls as [|url rest IH]; intros made Hne; [congruence|].
  simpl first_page.
  remember (Exchange (profile_request url) (fst (net made (profile_request url)))
              (snd (net made (profile_request url)))) as x eqn:Hx.
  assert (fst (net made (profile_request url)) = got x) as -> by now subst x.
  assert (sent x = profile_request url) as Hsx by now subst x.
  clear Hx.
  destruct (page_yield soup BeautifulSoup scan_profile player (got x)) as [out|] eqn:Ex.
  - exists [], x. simpl. rewrite Hsx.
    split; [reflexivity|]. split; [reflexivity|]. split; [lia|].
    split; [constructor|]. split; [now rewrite Ex | now rewrite Ex].
  - destruct rest as [|url' rest'].
    + exists [], x. simpl. rewrite Hsx.
      split; [reflexivity|]. split; [reflexivity|]. split; [lia|].
      split; [constructor|]. split; [now rewrite Ex | reflexivity].
    + destruct (IH (made ++ [x]) ltac:(discriminate))
        as (before & y & Htr & Hsent & Hlen & Hnone & Hres & Hlast).
      exists (x :: before), y. rewrite Htr, <- app_assoc. split; [reflexivity|].
      split; [simpl; simpl in Hsent; now rewrite Hsx, Hsent|].
      split; [simpl; simpl in Hlen; lia|].
      split; [constructor; assumption|].
      split; [exact Hres|].
      intros H. specialize (Hlast H). simpl. simpl in Hlast. lia.
Qed.

(** X21.  [_parse_html_profile] is the walk over its four pages
    ([first_page]): it asks for them in the order of the source, one
    request each, and stops at the first page that yields stats.  Its
    requests are those of the first pages of the list; every reply
    before the last one yielded nothing; what it returns is what the
    last reply yielded, and [None] only after all four pages were asked
    for.  No request follows the page that yielded the record. *)
Theorem profile_pages_are_tried_in_order player w :
  session w = OpenSession ->
  exists v w' before x,
    _parse_html_profile net soup BeautifulSoup scan_profile player w = (Ret v, w') /\
    v = or_none (fst (first_page net soup BeautifulSoup scan_profile (py_str player)
                        (profile_urls (py_str player)) (trace w))) /\
    trace w' = snd (first_page net soup BeautifulSoup scan_profile (py_str player)
                      (profile_urls (py_str player)) (trace w)) /\
    trace w' = trace w ++ before ++ [x] /\
    map sent (before ++ [x])
      = firstn (S (length before)) (map profile_request (profile_urls (py_str player))) /\
    (length before <= 3)%nat /\
    Forall (fun y => page_yield soup BeautifulSoup scan_profile (py_str player) (got y) = None)
      before /\
    v = or_none (page_yield soup BeautifulSoup scan_profile (py_str player) (got x)) /\
    (v = VNone -> length before = 3%nat).
Proof.
  intros Hs. unfold _parse_html_profile.
  destruct (profile_loop_is_the_walk (py_str player) (profile_urls (py_str player)) w Hs)
    as (w' & E & _ & Htr).
  rewrite (bind_ret _ _ _ _ _ E). unfold ret.
  destruct (first_page_stops (py_str player) (profile_urls (py_str player)) (trace w)
              ltac:(discriminate))
    as (before & x & Hwalk & Hsent & Hlen & Hnone & Hres & Hlast).
  eexists _, w', before, x. split; [reflexivity|]. split; [reflexivity|].
  split; [exact Htr|]. split; [now rewrite Htr|]. split; [exact Hsent|].
  split; [simpl in Hlen; lia|]. split; [exact Hnone|]. split; [now rewrite Hres|].
  rewrite Hres. intros Hv.
  destruct (page_yield soup BeautifulSoup scan_profile (py_str player) (got x)) as [out|] eqn:Ex.
  - apply page_yield_complete in Ex. simpl in Hv. subst out. discriminate.
  - specialize (Hlast eq_refl). simpl in Hlast. lia.
Qed.

Ltac traced :=
  eexists _, _; split; [reflexivity|]; split; [now repeat split|];
  cbn -[String.append]; rewrite <- ?app_assoc; reflexivity.

(** The requests of the authenticated flow with a credential. *)
Lemma authenticated_flow_runs player key w :
  session w = OpenSession -> usable_key w = Some key ->
  exists v w',
    _try_authenticated_access net soup BeautifulSoup scan_spy json_loads player w
      = (Ret v, w') /\
    same_adapter w w' /\
    match got (next_exchange net w (login_request key)) with
    | Fails _ => v = VNone /\ trace w' = trace w ++ [next_exchange net w (login_request key)]
    | Responds r =>
        trace w' =
          trace w ++
          [next_exchange net w (login_request key);
           next_exchange net (add_exchange (next_exchange net w (login_request key)) w)
             (spy_request (py_str player) (set_cookies r))]
    end.
Proof.
  intros Hs Hkey. unfold _try_authenticated_access. rewrite Hkey.
  unfold bind at 1. unfold try_except. unfold bind at 1.
  rewrite session_get_open by exact Hs.
  set (login := next_exchange net w (login_request key)).
  destruct (got login) as [e|login_response]; cbn -[String.append].
  { eexists _, _. split; [reflexivity|]. now repeat split. }
  unfold bind at 1. rewrite session_get_open by exact Hs.
  set (spy := next_exchange net (add_exchange login w) _).
  destruct (got spy) as [e|spy_response]; cbn -[String.append]; [traced|].
  destruct (status spy_response =? 200); cbn -[String.append]; [|traced].
  unfold bind at 1. unfold lift at 1.
  destruct (text spy_response) as [html|]; cbn -[String.append]; [|traced].
  unfold bind at 1.
  destruct (extract_json_from_html_spec json_loads html (add_exchange spy (add_exchange login w)))
    as (json_data & w3 & E3 & (Hk3 & Hs3 & Hc3) & Htr3 & _).
  rewrite E3.
  destruct (truthy json_data).
  { eexists _, _. unfold ret. split; [reflexivity|]. split; [now repeat split|].
    cbn -[String.append]. rewrite Htr3. cbn -[String.append].
    now rewrite <- app_assoc. }
  unfold bind, lift, ret.
  destruct (BeautifulSoup html) as [document|]; cbn -[String.append].
  2:{ eexists _, _. split; [reflexivity|]. split; [now repeat split|].
      cbn -[String.append]. rewrite Htr3. cbn -[String.append].
      now rewrite <- app_assoc. }
  destruct (_parse_tornstats_spy_html soup scan_spy document player) as [out|];
    cbn -[String.append]; eexists _, _; (split; [reflexivity|]);
    (split; [now repeat split|]);
    cbn -[String.append]; rewrite Htr3; cbn -[String.append]; now rewrite <- app_assoc.
Qed.

(** X22.  The authenticated flow.  Without a usable credential it makes
    no request, logs nothing and returns [None].  With one, its first
    request is the login request; when that fails nothing else is asked
    for and the result is [None]; when it is answered, with any status,
    exactly one more request follows, for the spy page of the player,
    carrying the cookies that the login reply set. *)
Theorem authenticated_flow_requests player w :
  (usable_key w = None ->
   _try_authenticated_access net soup BeautifulSoup scan_spy json_loads player w
     = (Ret VNone, w)) /\
  (forall key, session w = OpenSession -> usable_key w = Some key ->
     let login := next_exchange net w (login_request key) in
     exists v w',
       _try_authenticated_access net soup BeautifulSoup scan_spy json_loads player w
         = (Ret v, w') /\
       match got login with
       | Fails _ => v = VNone /\ trace w' = trace w ++ [login]
       | Responds r =>
           trace w' =
             trace w ++
             [login;
              next_exchange net (add_exchange login w)
                (spy_request (py_str player) (set_cookies r))]
       end).
Proof.
  split.
  { intros Hkey. unfold _try_authenticated_access. now rewrite Hkey. }
  intros key Hs Hkey login.
  destruct (authenticated_flow_runs player key w Hs Hkey) as (v & w' & E & _ & Htr).
  now exists v, w'.
Qed.

(** X23.  Without a usable credential [get_player_data] asks only for
    profile pages: when the cache has nothing to offer, its requests are
    those of the first [n] profile pages, 1 <= n <= 4, in order; no API
    endpoint and no login page is asked for. *)
Theorem without_credential_only_profile_pages player w :
  usable_key w = None ->
  truthy (cached_value (cache_key player) w) = false ->
  exists v w' l n,
    get_player_data net soup BeautifulSoup scan_profile scan_spy json_loads player w
      = (Ret v, w') /\
    trace w' = trace w ++ l /\
    map sent l = firstn n (map profile_request (profile_urls (py_str player))) /\
    (1 <= n <= 4)%nat.
Proof.
  intros Hkey Hmiss. unfold get_player_data.
  rewrite (bind_ret _ _ _ _ _ (get_from_cache_eq (cache_key player) w)).
  rewrite Hmiss, try_after_ensure_session.
  set (w1 := set_session OpenSession _).
  unfold try_except. unfold bind at 1. unfold log at 1.
  set (w2 := add_log INFO ("Trying JSON API for player " ++ py_str player) w1).
  unfold bind at 1. unfold _fetch_json_api at 1.
  assert (usable_key w2 = None) as -> by exact Hkey.
  cbn -[String.append _parse_html_profile _try_authenticated_access].
  unfold bind at 1. unfold log at 1.
  set (w4 := add_log INFO _ (add_log WARNING _ w2)).
  destruct (profile_pages_in_order player w4 eq_refl)
    as (html_data & w5 & l & n & E5 & (Hk5 & Hs5 & _) & Htr5 & Hsent & Hn & _).
  unfold bind at 1. rewrite E5.
  destruct (truthy html_data).
  { eexists _, _, l, n. unfold bind, cache_store, ret. cbn -[String.append].
    split; [reflexivity|]. split; [exact Htr5|]. now split. }
  unfold bind at 1. unfold log at 1. unfold bind at 1.
  unfold _try_authenticated_access.
  assert (usable_key (add_log INFO
            ("Trying authenticated access for player " ++ py_str player) w5) = None) as ->.
  { unfold usable_key in *. cbn. rewrite Hk5. exact Hkey. }
  cbn -[String.append]. eexists _, _, l, n.
  split; [reflexivity|]. split; [exact Htr5|]. now split.
Qed.

(** ** The literal embedded in a page *)

(** [sub in s] and [s.index(sub)] agree. *)
Lemma str_contains_index sub s :
  str_contains sub s = match String.index 0 sub s with Some _ => true | None => false end.
Proof.
  induction s as [|b s' IH].
  - simpl. destruct sub; reflexivity.
  - cbn [str_contains String.index]. rewrite IH.
    destruct (String.prefix sub (String b s')); [reflexivity|].
    now destruct (String.index 0 sub s').
Qed.

Lemma str_contains_char c t :
  str_contains (String c EmptyString) t = true -> exists p, String.get p t = Some c.
Proof.
  induction t as [|b t' IH]; simpl; [discriminate|].
  destruct (ascii_dec c b) as [->|_].
  - intros _. now exists 0%nat.
  - simpl. intros H. destruct (IH H) as (p & Hp). now exists (S p).
Qed.

Lemma get_lstrip p s c :
  String.get p (lstrip s) = Some c -> exists q, String.get q s = Some c.
Proof.
  induction s as [|a s' IH]; simpl; [discriminate|].
  destruct (is_space a).
  - intros H. destruct (IH H) as (q & Hq). now exists (S q).
  - intros H. now exists p.
Qed.

Lemma get_rstrip s : forall p c,
  String.get p (rstrip s) = Some c -> String.get p s = Some c.
Proof.
  induction s as [|a s' IH]; intros p c; simpl; [discriminate|].
  destruct (rstrip s') as [|b t] eqn:E.
  - destruct (is_space a); [discriminate|].
    destruct p as [|p']; simpl; [now intros H | now destruct p'].
  - destruct p as [|p']; simpl; [now intros H | apply IH].
Qed.

Lemma get_substring s a len p c :
  String.get p (substring a len s) = Some c ->
  (p < len)%nat /\ String.get (p + a) s = Some c.
Proof.
  intros H. destruct (Nat.lt_ge_cases p len) as [Hlt|Hge].
  - split; [exact Hlt|]. now rewrite <- (substring_correct1 s a len p Hlt).
  - rewrite (substring_correct2 s a len p Hge) in H. discriminate.
Qed.

Lemma get_one_char s : forall q c,
  String.get q s = Some c -> substring q 1 s = String c EmptyString.
Proof.
  induction s as [|b s' IH]; intros q c; [destruct q; discriminate|].
  destruct q as [|q']; simpl.
  - intros H. injection H as ->. now destruct s'.
  - apply IH.
Qed.

(** The text between two positions ends before the first semicolon
    after the first of them, so it holds none. *)
Lemma no_semicolon_before_the_first html start stop :
  String.index start ";" html = Some stop ->
  str_contains ";" (strip (substring start (stop - start) html)) = false.
Proof.
  intros Hstop.
  destruct (str_contains ";" (strip (substring start (stop - start) html))) eqn:E;
    [|reflexivity].
  apply str_contains_char in E as (p & Hp).
  unfold strip in Hp. apply get_rstrip in Hp. apply get_lstrip in Hp as (q & Hq).
  apply get_substring in Hq as (Hlt & Hq). apply get_one_char in Hq.
  exfalso. apply (index_correct2 start stop ";" html Hstop (q + start)%nat); [lia | lia|].
  exact Hq.
Qed.

(** X24.  [_extract_json_from_html] on its edges.  A page without the
    marker gives [None] and nothing is logged.  A page with the marker
    but no semicolon after it gives [None] with a warning.  Otherwise
    the text handed to [json.loads] is what lies between the first
    marker and the first semicolon after it, stripped: it never contains
    a semicolon, so a document with a semicolon inside a string is cut
    short there; the result is the normalizer's output for the parsed
    text, and [None] with a warning when parsing or normalizing
    raises.  No case raises or makes a request. *)
Theorem embedded_literal_edges html w :
  (String.index 0 start_marker html = None ->
   _extract_json_from_html json_loads html w = (Ret VNone, w)) /\
  (forall found,
     String.index 0 start_marker html = Some found ->
     String.index (found + String.length start_marker) ";" html = None ->
     _extract_json_from_html json_loads html w
       = (Ret VNone,
          add_log WARNING "Failed to extract JSON from HTML: substring not found" w)) /\
  (forall found stop,
     String.index 0 start_marker html = Some found ->
     String.index (found + String.length start_marker) ";" html = Some stop ->
     let start := (found + String.length start_marker)%nat in
     let literal := strip (substring start (stop - start) html) in
     str_contains ";" literal = false /\
     _extract_json_from_html json_loads html w
       = match (let! data := json_loads literal in _normalize_tornstats_data data) with
         | Ret out => (Ret out, w)
         | Raise e =>
             (Ret VNone,
              add_log WARNING ("Failed to extract JSON from HTML: " ++ exn_str e)%string w)
         end).
Proof.
  split; [|split].
  - intros Hnone. unfold _extract_json_from_html, bind, try_except.
    rewrite str_contains_index, Hnone. reflexivity.
  - intros found Hfound Hnone. unfold _extract_json_from_html, bind, try_except, lift.
    rewrite str_contains_index, Hfound. unfold str_index. rewrite Hfound.
    cbv beta iota. rewrite Hnone. reflexivity.
  - intros found stop Hfound Hstop start literal.
    split; [now apply no_semicolon_before_the_first|].
    unfold _extract_json_from_html, bind, try_except, lift.
    rewrite str_contains_index, Hfound. unfold str_index. rewrite Hfound.
    cbv beta iota. rewrite Hstop. cbv beta iota. fold start. fold literal.
    destruct (json_loads literal) as [data|e]; cbn [bindR]; [|reflexivity].
    destruct (_normalize_tornstats_data data) as [out|e]; reflexivity.
Qed.

(** ** The order of the strategies *)

Lemma reply_hit_truthy rep out : reply_hit rep = Some out -> truthy out = true.
Proof.
  intros H. apply reply_hit_some in H as (r & body & _ & _ & _ & Ht & Hn).
  destruct (normalize_result body out Hn) as [->|Hc]; [exact Ht|].
  destruct (complete_has_spy out Hc) as (items & -> & Hspy).
  destruct items; [discriminate | reflexivity].
Qed.

Lemma first_hit_truthy requests : forall made out,
  fst (first_hit net requests made) = Some out -> truthy out = true.
Proof.
  induction requests as [|req rest IH]; intros made out; simpl; [discriminate|].
  destruct (reply_hit (fst (net made req))) as [hit|] eqn:E.
  - simpl. intros H. injection H as <-. now apply (reply_hit_truthy _ _ E).
  - apply IH.
Qed.

(** X25.  The strategies run in the order of the source, each only when
    the one before found nothing.  With a usable credential and nothing
    in the cache, [get_player_data] first walks the API requests; when
    the walk hits, the hit is returned and no other request is made;
    otherwise the requests that follow are those of the first [n]
    profile pages (1 <= n <= 4), and after them at most two more, the
    first of which is the login request. *)
Theorem strategies_run_in_order player key w :
  usable_key w = Some key ->
  truthy (cached_value (cache_key player) w) = false ->
  let walk := first_hit net (api_requests key (py_str player)) (trace w) in
  exists v w',
    get_player_data net soup BeautifulSoup scan_profile scan_spy json_loads player w
      = (Ret v, w') /\
    match fst walk with
    | Some out => v = out /\ trace w' = snd walk
    | None =>
        exists pages rest n,
          trace w' = snd walk ++ pages ++ rest /\
          map sent pages = firstn n (map profile_request (profile_urls (py_str player))) /\
          (1 <= n <= 4)%nat /\
          (length rest <= 2)%nat /\
          (forall x more, rest = x :: more -> sent x = login_request key)
    end.
Proof.
  intros Hkey Hmiss walk.
  destruct (fst walk) as [out|] eqn:Ewalk.
  { destruct (get_player_data_first_hit net soup BeautifulSoup scan_profile scan_spy
                json_loads player key w out (snd walk) Hkey Hmiss)
      as (w' & E & Htr).
    - rewrite <- Ewalk. apply surjective_pairing.
    - apply (first_hit_truthy _ _ _ Ewalk).
    - now exists out, w'. }
  unfold get_player_data.
  rewrite (bind_ret _ _ _ _ _ (get_from_cache_eq (cache_key player) w)).
  rewrite Hmiss, try_after_ensure_session.
  set (w1 := set_session OpenSession _).
  unfold try_except. unfold bind at 1. unfold log at 1.
  set (w2 := add_log INFO ("Trying JSON API for player " ++ py_str player) w1).
  destruct (fetch_json_api_first_hit net player key w2 eq_refl Hkey)
    as (w3 & E3 & (Hk3 & Hs3 & _) & Htr3).
  change (trace w2) with (trace w) in E3, Htr3. fold walk in E3, Htr3.
  rewrite Ewalk in E3. rewrite (bind_ret _ _ _ _ _ E3).
  cbn [or_none truthy]. unfold bind at 1. unfold log at 1.
  set (w4 := add_log INFO ("Trying HTML parsing for player " ++ py_str player) w3).
  assert (session w4 = OpenSession) as Hs4 by exact Hs3.
  destruct (profile_pages_in_order player w4 Hs4)
    as (html_data & w5 & pages & n & E5 & (Hk5 & Hs5 & _) & Htr5 & Hsent & Hn & _).
  rewrite (bind_ret _ _ _ _ _ E5).
  assert (trace w5 = snd walk ++ pages) as Htrace5.
  { rewrite Htr5. cbn. now rewrite Htr3. }
  destruct (truthy html_data).
  { eexists _, _. unfold bind, cache_store, ret. cbn -[String.append].
    split; [reflexivity|]. exists pages, [], n. rewrite app_nil_r.
    split; [exact Htrace5|]. split; [exact Hsent|]. split; [exact Hn|].
    split; [simpl; lia | discriminate]. }
  unfold bind at 1. unfold log at 1.
  set (w6 := add_log INFO ("Trying authenticated access for player " ++ py_str player) w5).
  assert (session w6 = OpenSession) as Hs6 by (cbn; now rewrite Hs5, Hs4).
  assert (usable_key w6 = Some key) as Hkey6.
  { unfold usable_key in *. cbn. rewrite Hk5. cbn. rewrite Hk3. exact Hkey. }
  destruct (authenticated_flow_runs player key w6 Hs6 Hkey6)
    as (auth_data & w7 & E7 & _ & Hflow).
  rewrite (bind_ret _ _ _ _ _ E7).
  assert (exists rest, trace w7 = snd walk ++ pages ++ rest /\ (length rest <= 2)%nat /\
            forall x more, rest = x :: more -> sent x = login_request key)
    as (rest & Htrace7 & Hlen & Hlogin).
  { change (trace w6) with (trace w5) in Hflow. rewrite Htrace5 in Hflow.
    destruct (got (next_exchange net w6 (login_request key))) as [e|r].
    - destruct Hflow as (_ & Hflow). eexists. rewrite Hflow, <- app_assoc.
      split; [reflexivity|]. split; [simpl; lia|].
      intros x more H. now injection H as <- _.
    - eexists. rewrite Hflow, <- app_assoc.
      split; [reflexivity|]. split; [simpl; lia|].
      intros x more H. now injection H as <- _. }
  destruct (truthy auth_data).
  - eexists _, _. unfold bind, cache_store, ret. cbn -[String.append].
    split; [reflexivity|]. exists pages, rest, n. now repeat split.
  - eexists _, _. unfold bind, log, ret. cbn -[String.append].
    split; [reflexivity|]. exists pages, rest, n. now repeat split.
Qed.

End AdapterMore.

(* ===================================================================== *)
(** * Series of calls                                                    *)
(* ===================================================================== *)

Section SeriesOfCalls.
Import Py Spies Adapter.
Local Open Scope list_scope.

Lemma lookup_after_set key k record store :
  items_get key (items_set k record store)
    = if String.eqb key k then Some record else items_get key store.
Proof.
  destruct (String.eqb_spec key k) as [->|Hne].
  - apply items_get_set_same.
  - now apply items_get_set_other.
Qed.

(** The file after a series of calls reads as a store, and a lookup in
    it finds the record of the last call for the key, or else what the
    first file had. *)
Lemma store_after_calls calls : forall fs store,
  Spec.store_of fs = Some store ->
  (exists saved,
     Spec.store_of (Spec.backup_after calls fs) = Some saved /\
     forall key,
       items_get key saved
         = match Spec.last_call key calls with
           | Some c => Some (Spec.backup_record c)
           | None => items_get key store
           end) /\
  (exists saved,
     Spec.store_of (Spec.bot_after calls fs) = Some saved /\
     forall key,
       items_get key saved
         = match Spec.last_call key calls with
           | Some c => Some (Spec.bot_record c)
           | None => items_get key store
           end).
Proof.
  induction calls as [|c rest IH]; intros fs store Hstore.
  - split; exists store; (split; [exact Hstore | reflexivity]).
  - split.
    + cbn [Spec.backup_after].
      rewrite (backup_add_runs fs store (Spec.call_iso c) (Spec.call_player c)
                 (Spec.call_strength c) (Spec.call_speed c) (Spec.call_dexterity c)
                 (Spec.call_defense c) Hstore).
      cbn [snd]. fold (Spec.backup_record c).
      destruct (IH (Json (VDict (items_set (py_str (Spec.call_player c))
                                   (Spec.backup_record c) store))) _ eq_refl)
        as ((saved & Hsaved & Hget) & _).
      exists saved. split; [exact Hsaved|]. intros key. rewrite Hget.
      cbn [Spec.last_call]. destruct (Spec.last_call key rest); [reflexivity|].
      rewrite lookup_after_set.
      now destruct (String.eqb key (py_str (Spec.call_player c))).
    + cbn [Spec.bot_after].
      rewrite (bot_add_runs fs store (Spec.call_time c) (Spec.call_date c)
                 (Spec.call_player c) (Spec.call_strength c) (Spec.call_speed c)
                 (Spec.call_dexterity c) (Spec.call_defense c) Hstore).
      cbn [snd]. fold (Spec.bot_record c).
      destruct (IH (Json (VDict (items_set (py_str (Spec.call_player c))
                                   (Spec.bot_record c) store))) _ eq_refl)
        as (_ & (saved & Hsaved & Hget)).
      exists saved. split; [exact Hsaved|]. intros key. rewrite Hget.
      cbn [Spec.last_call]. destruct (Spec.last_call key rest); [reflexivity|].
      rewrite lookup_after_set.
      now destruct (String.eqb key (py_str (Spec.call_player c))).
Qed.

(** X26.  The spies file behaves as a map from [str(player_id)] to the
    last record written.  After any series of [add_spy_data] calls on a
    file that reads as a store, [get_spy_data] returns, for every
    player, the record of the last call made for an identifier with the
    same [str()]; for a player no call was made for, it returns what the
    file held before the series, or [None] (both modules). *)
Theorem spy_store_is_a_map calls fs store player :
  Spec.store_of fs = Some store ->
  fst (Backup.get_spy_data player (Spec.backup_after calls fs))
    = Ret (match Spec.last_call (py_str player) calls with
           | Some c => Spec.backup_record c
           | None =>
               match items_get (py_str player) store with Some r => r | None => VNone end
           end) /\
  fst (BotPackage.get_spy_data player (Spec.bot_after calls fs))
    = Ret (match Spec.last_call (py_str player) calls with
           | Some c => Spec.bot_record c
           | None =>
               match items_get (py_str player) store with Some r => r | None => VNone end
           end).
Proof.
  intros Hstore.
  destruct (store_after_calls calls fs store Hstore)
    as ((saved1 & Hs1 & Hget1) & (saved2 & Hs2 & Hget2)).
  split.
  - rewrite (proj1 (get_spy_data_runs _ _ player Hs1)). cbn [fst]. rewrite Hget1.
    now destruct (Spec.last_call (py_str player) calls).
  - rewrite (proj2 (get_spy_data_runs _ _ player Hs2)). cbn [fst]. rewrite Hget2.
    now destruct (Spec.last_call (py_str player) calls).
Qed.

Variable net : list exchange -> request -> reply * float.
Variable soup : Type.
Variable BeautifulSoup : string -> pyres soup.
Variable scan_profile : soup -> pyres profile_page.
Variable scan_spy : soup -> pyres (option spy_page).
Variable json_loads : string -> pyres value.

(** What one call does to the adapter. *)
Lemma one_call player w :
  let w' :=
    snd (get_player_data net soup BeautifulSoup scan_profile scan_spy json_loads player w) in
  api_key w' = api_key w /\
  (truthy_entries (cache w) -> truthy_entries (cache w')) /\
  (forall key entry, cache w' !! key = Some entry ->
     key = cache_key player \/ cache w !! key = Some entry) /\
  exists l, trace w' = trace w ++ l /\ (length l <= 12)%nat /\
            forallb to_tornstats l = true.
Proof.
  cbv zeta.
  destruct (get_player_data_spec net soup BeautifulSoup scan_profile scan_spy
              json_loads player w) as (v & w' & E & Hkey & H).
  destruct (truthy (cached_value (cache_key player) w)) eqn:Ehit.
  - rewrite E. cbn [snd]. destruct H as (_ & Htr & Hc & _).
    split; [exact Hkey|]. rewrite Hc. split; [tauto|]. split; [intros; now right|].
    exists []. rewrite app_nil_r. repeat split; [exact Htr | simpl; lia].
  - destruct (get_player_data_on_a_miss net soup BeautifulSoup scan_profile scan_spy
                json_loads player w Ehit) as (r & w2 & l & E2 & _ & Htr & Hlen & Hall).
    rewrite E in E2. injection E2 as <- <-. rewrite E. cbn [snd].
    split; [exact Hkey|].
    destruct H as (_ & _ & _ & [(_ & Hc & _)|(Ht & Hc & _)]); rewrite Hc.
    + split; [apply truthy_entries_after_lookup|].
      split; [|exists l; now repeat split].
      intros key entry He. right.
      destruct (String.eqb_spec key (cache_key player)) as [->|Hne].
      * unfold cache_after_lookup in He.
        destruct (cache w !! cache_key player) as [old|] eqn:Eold; [|now rewrite Eold in He].
        destruct (live (clock w) old); [now rewrite Eold in He|].
        rewrite lookup_delete_eq in He. discriminate.
      * now rewrite after_lookup_other in He.
    + split; [|split; [|exists l; now repeat split]].
      * intros Hinv k e He. destruct (String.eqb_spec k (cache_key player)) as [->|Hne].
        -- rewrite lookup_insert_eq in He. injection He as <-. exact Ht.
        -- rewrite lookup_insert_ne in He by congruence.
           now apply (truthy_entries_after_lookup (cache_key player) w Hinv k).
      * intros key entry He.
        destruct (String.eqb_spec key (cache_key player)) as [->|Hne]; [now left|].
        right. rewrite lookup_insert_ne in He by congruence.
        now rewrite after_lookup_other in He.
Qed.

Lemma series_of_calls calls : forall w,
  let w' :=
    after_calls net soup BeautifulSoup scan_profile scan_spy json_loads calls w in
  api_key w' = api_key w /\
  (truthy_entries (cache w) -> truthy_entries (cache w')) /\
  (forall key entry, cache w' !! key = Some entry ->
     (exists now player, In (now, player) calls /\ key = cache_key player) \/
     cache w !! key = Some entry) /\
  exists l, trace w' = trace w ++ l /\ (length l <= 12 * length calls)%nat /\
            forallb to_tornstats l = true.
Proof.
  induction calls as [|[now player] rest IH]; intros w; cbv zeta.
  - split; [reflexivity|]. split; [tauto|]. split; [intros; now right|].
    exists []. rewrite app_nil_r. repeat split. simpl. lia.
  - cbn [after_calls].
    destruct (one_call player (set_clock now w)) as (Hk1 & Hinv1 & Hkeys1 & l1 & Htr1 & Hlen1 & Hall1).
    set (w1 := snd (get_player_data net soup BeautifulSoup scan_profile scan_spy
                      json_loads player (set_clock now w))) in *.
    destruct (IH w1) as (Hk2 & Hinv2 & Hkeys2 & l2 & Htr2 & Hlen2 & Hall2).
    split; [rewrite Hk2, Hk1; reflexivity|].
    split; [intros Hinv; apply Hinv2, Hinv1, Hinv|].
    split.
    + intros key entry He. destruct (Hkeys2 key entry He) as [(t & p & Hin & ->)|He1].
      * left. exists t, p. split; [now right | reflexivity].
      * destruct (Hkeys1 key entry He1) as [->|He0]; [|now right].
        left. exists now, player. split; [now left | reflexivity].
    + exists (l1 ++ l2). split; [rewrite Htr2, Htr1; cbn; now rewrite app_assoc|].
      split; [rewrite length_app; simpl; lia|].
      rewrite forallb_app. now rewrite Hall1, Hall2.
Qed.

(** X27.  What a long-lived adapter keeps.  After any series of
    [get_player_data] calls on an adapter made by the constructor, at
    whatever times the calls are made and whatever the host answers:
    the credential is the one the constructor set; every cache entry
    holds truthy data and sits under the key of a player that was asked
    for; every request made went to the TornStats host; and there were
    at most twelve requests per call. *)
Theorem adapter_keeps_its_invariants calls key environ_key now :
  let start := __init__ key environ_key now in
  let w := after_calls net soup BeautifulSoup scan_profile scan_spy json_loads calls start in
  api_key w = api_key start /\
  truthy_entries (cache w) /\
  (forall k entry, cache w !! k = Some entry ->
     exists at_time player, In (at_time, player) calls /\ k = cache_key player) /\
  forallb to_tornstats (trace w) = true /\
  (length (trace w) <= 12 * length calls)%nat.
Proof.
  cbv zeta.
  destruct (series_of_calls calls (__init__ key environ_key now))
    as (Hk & Hinv & Hkeys & l & Htr & Hlen & Hall).
  split; [exact Hk|]. split; [|split; [|split]].
  - apply Hinv. intros k e He. simpl in He. rewrite lookup_empty in He. discriminate.
  - intros k entry He. destruct (Hkeys k entry He) as [H|He0]; [exact H|].
    simpl in He0. rewrite lookup_empty in He0. discriminate.
  - rewrite Htr. exact Hall.
  - rewrite Htr. exact Hlen.
Qed.

End SeriesOfCalls.

(* ===================================================================== *)
(** * The store, the commands and the adapter on concrete inputs         *)
(* ===================================================================== *)

Section MoreRuns.
Import Py Spies Adapter Examples.
Local Open Scope list_scope.

(** X1 on a spies file that does not exist yet: what was stored for the
    player ['12345'] is read back for the int 12345. *)
Lemma add_then_get_spy_data_witness :
  Spec.store_of NoFile = Some [] /\
  py_str (PidInt 12345) = py_str test_player /\
  (exists record fs',
     Backup.add_spy_data "2025-01-01T00:00:00" test_player 1000000 800000 700000 500000 NoFile
       = (Ret record, fs') /\
     Backup.get_spy_data (PidInt 12345) fs' = (Ret record, fs')) /\
  (exists record fs',
     BotPackage.add_spy_data 1735689600%float "2025-01-01 00:00:00" test_player
       1000000 800000 700000 500000 NoFile = (Ret record, fs') /\
     BotPackage.get_spy_data (PidInt 12345) fs' = (Ret record, fs')).
Proof.
  assert (py_str (PidInt 12345) = py_str test_player) as Hq by (vm_compute; reflexivity).
  split; [reflexivity|]. split; [exact Hq|].
  exact (add_then_get_spy_data NoFile [] "2025-01-01T00:00:00" 1735689600%float
           "2025-01-01 00:00:00" test_player (PidInt 12345)
           1000000 800000 700000 500000 eq_refl Hq).
Defined.

(** X2 on a file with a record for player 2: adding player 12345 leaves
    the lookup of player 2 as it was. *)
Lemma add_spy_data_keeps_other_players_witness :
  Spec.store_of one_player_file = Some [("2", VDict [("total", VInt 7)])] /\
  py_str (PidStr "2") <> py_str test_player /\
  fst (Backup.get_spy_data (PidStr "2")
         (snd (Backup.add_spy_data "2025-01-01T00:00:00" test_player
                 1000000 800000 700000 500000 one_player_file)))
    = fst (Backup.get_spy_data (PidStr "2") one_player_file) /\
  fst (BotPackage.get_spy_data (PidStr "2")
         (snd (BotPackage.add_spy_data 1735689600%float "2025-01-01 00:00:00" test_player
                 1000000 800000 700000 500000 one_player_file)))
    = fst (BotPackage.get_spy_data (PidStr "2") one_player_file).
Proof.
  assert (py_str (PidStr "2") <> py_str test_player) as Hq by discriminate.
  split; [reflexivity|]. split; [exact Hq|].
  exact (add_spy_data_keeps_other_players one_player_file _ "2025-01-01T00:00:00"
           1735689600%float "2025-01-01 00:00:00" test_player (PidStr "2")
           1000000 800000 700000 500000 eq_refl Hq).
Defined.

(** X3 on an absent file and on a file with a record for player 2. *)
Lemma get_spy_data_reads_the_store_witness :
  Spec.store_of NoFile = Some [] /\
  Backup.get_spy_data test_player NoFile = (Ret VNone, Json (VDict [])) /\
  BotPackage.get_spy_data test_player NoFile = (Ret VNone, Json (VDict [])) /\
  BotPackage.get_spy_data (PidStr "2") one_player_file
    = (Ret (VDict [("total", VInt 7)]), one_player_file).
Proof.
  split; [reflexivity|].
  destruct (get_spy_data_reads_the_store NoFile [] test_player eq_refl) as (E1 & E2 & _).
  destruct (get_spy_data_reads_the_store one_player_file _ (PidStr "2") eq_refl)
    as (_ & E3 & _).
  split; [exact E1|]. split; [exact E2 | exact E3].
Defined.

(** X4 on a spies file that holds a JSON list. *)
Lemma spy_file_that_is_no_object_witness :
  Spec.store_of (Json (VList [])) = None /\
  (exists e, Backup.add_spy_data "2025-01-01T00:00:00" test_player 1 2 3 4 (Json (VList []))
             = (Raise e, Json (VList [])) /\ is_class TypeError e = true) /\
  (exists e, BotPackage.get_spy_data test_player (Json (VList []))
             = (Raise e, Json (VList [])) /\ is_class AttributeError e = true).
Proof.
  split; [reflexivity|].
  destruct (spy_file_that_is_no_object (Json (VList [])) "2025-01-01T00:00:00" 0%float
              "2025-01-01 00:00:00" test_player 1 2 3 4 eq_refl) as (H1 & _ & _ & H4).
  split; [exact H1 | exact H4].
Defined.

(** X5 on a file with a record for player 2: writing player 2 again
    keeps the one player, writing player 12345 adds it at the end. *)
Lemma add_spy_data_one_record_per_player_witness :
  Spec.store_of one_player_file = Some [("2", VDict [("total", VInt 7)])] /\
  (exists saved,
     snd (BotPackage.add_spy_data 0%float "2025-01-01 00:00:00" (PidInt 2) 1 2 3 4
            one_player_file) = Json (VDict saved) /\
     map fst saved = ["2"]) /\
  (exists saved,
     snd (BotPackage.add_spy_data 0%float "2025-01-01 00:00:00" test_player 1 2 3 4
            one_player_file) = Json (VDict saved) /\
     map fst saved = ["2"; "12345"]).
Proof.
  split; [reflexivity|].
  destruct (add_spy_data_one_record_per_player one_player_file _ "2025-01-01T00:00:00"
              0%float "2025-01-01 00:00:00" (PidInt 2) 1 2 3 4 eq_refl)
    as (_ & saved1 & E1 & K1 & _).
  destruct (add_spy_data_one_record_per_player one_player_file _ "2025-01-01T00:00:00"
              0%float "2025-01-01 00:00:00" test_player 1 2 3 4 eq_refl)
    as (_ & saved2 & E2 & K2 & _).
  split; [exists saved1 | exists saved2]; (split; [assumption|]).
  - rewrite K1. vm_compute. reflexivity.
  - rewrite K2. vm_compute. reflexivity.
Defined.

(** X6 at no damage, and at 240 damage in one turn with a primary stat
    of 1000. *)
Lemma backup_total_is_four_times_primary_witness :
  (let! primary := Backup.estimate_primary_stat 0 5 1000 in
   Backup.estimate_total_stats primary) = Ret VNone /\
  ((exists n, Backup.estimate_primary_stat 240 1 1000 = Ret (VInt (n * 1000)) /\
              (let! primary := Backup.estimate_primary_stat 240 1 1000 in
               Backup.estimate_total_stats primary) = Ret (VInt (n * 1000 * 4))) \/
   (exists e, (let! primary := Backup.estimate_primary_stat 240 1 1000 in
               Backup.estimate_total_stats primary) = Raise e)).
Proof.
  split.
  - apply (proj1 (backup_total_is_four_times_primary 0 5 1000)). right. lia.
  - apply (proj2 (backup_total_is_four_times_primary 240 1 1000)); lia.
Defined.

(** X7 at an unknown accuracy label and at zero turns. *)
Lemma bot_estimate_total_stats_edges_witness :
  BotPackage.estimate_total_stats (VInt 1000) "rough"
    = BotPackage.estimate_total_stats (VInt 1000) "low" /\
  ((let! estimate := BotPackage.estimate_primary_stat no_libm 100 0 5000 in
    BotPackage.estimate_total_stats estimate "low") = Ret (VInt 0) \/
   exists e, (let! estimate := BotPackage.estimate_primary_stat no_libm 100 0 5000 in
              BotPackage.estimate_total_stats estimate "low") = Raise e).
Proof.
  destruct (bot_estimate_total_stats_edges no_libm 100 0 5000 (VInt 1000) "rough")
    as (Hother & _ & _ & _ & Hzero).
  split; [apply Hother; discriminate | apply Hzero; left; lia].
Defined.

(** X8 on the stats of the test script. *)
Lemma added_record_is_displayed_witness :
  Spec.store_of NoFile = Some [] /\
  (let! record :=
     fst (BotPackage.add_spy_data 1735689600%float "2025-01-01 00:00:00" test_player
            1000000 800000 700000 500000 NoFile) in
   BotPackage.format_stats_for_display no_float_format no_container_str
     test_player record "high")
    = Ret ("**Strength:** 1,000,000" ++ nl ++ "**Speed:** 800,000" ++ nl ++
           "**Dexterity:** 700,000" ++ nl ++ "**Defense:** 500,000" ++ nl ++
           "**Total:** 3,000,000" ++ nl ++ "Last updated: 2025-01-01 00:00:00" ++ nl ++
           "Confidence: HIGH")%string.
Proof.
  split; [reflexivity|].
  destruct (added_record_is_displayed NoFile [] "2025-01-01T00:00:00" 1735689600%float
              "2025-01-01 00:00:00" test_player 1000000 800000 700000 500000
              no_float_format no_container_str "high" eq_refl) as (_ & E).
  rewrite E. vm_compute. reflexivity.
Defined.

(** X9 at zero turns. *)
Lemma backup_none_estimate_is_not_displayed_witness :
  (let! primary := Backup.estimate_primary_stat 100 0 5000 in
   let! total := Backup.estimate_total_stats primary in
   Backup.format_stats_for_display no_float_format test_player
     (VDict [("primary", primary); ("total", total)]) "low")
    = Raise (Exn TypeError "unsupported format string passed to NoneType.__format__").
Proof.
  apply (proj1 (backup_none_estimate_is_not_displayed no_float_format test_player
                  100 0 5000 "low")).
  left. lia.
Defined.

(** X10 on a record written at time 0 and read a day later. *)
Lemma bot_confidence_labels_witness :
  Spec.store_of NoFile = Some [] /\
  exists record label,
    fst (BotPackage.add_spy_data 0%float "2025-01-01 00:00:00" test_player 1 2 3 4 NoFile)
      = Ret record /\
    BotPackage.get_stat_confidence 86400%float record = Ret label /\
    In label ["high"; "medium"; "low"]%string.
Proof.
  split; [reflexivity|].
  exact (proj1 (proj2 (bot_confidence_labels 86400%float VNone))
           NoFile [] 0%float "2025-01-01 00:00:00" test_player 1 2 3 4 eq_refl).
Defined.

(** X11 on a record that is three days old. *)
Lemma backup_confidence_never_raises_witness :
  Spec.store_of NoFile = Some [] /\
  (let! record :=
     fst (Backup.add_spy_data "2025-01-01T00:00:00" test_player 1 2 3 4 NoFile) in
   Backup.get_stat_confidence three_days_ago record) = Ret "high"%string.
Proof.
  split; [reflexivity|].
  exact (proj1 (proj2 (backup_confidence_never_raises three_days_ago))
           NoFile [] "2025-01-01T00:00:00" test_player 1 2 3 4 eq_refl).
Defined.

(** X12 at a stat that is not a number. *)
Lemma add_spy_rejects_bad_input_witness :
  Commands.add_spy decimal no_float_format no_container_str 0%float "2025-01-01 00:00:00"
    "12345" "1000" "many" "700" "500" quiet
    = (Ret tt,
       Commands.Bot NoFile [Commands.Content "All stat values must be valid numbers."]).
Proof.
  apply (proj2 (add_spy_rejects_bad_input decimal no_float_format no_container_str
                  0%float "2025-01-01 00:00:00" "12345" "1000" "many" "700" "500" quiet)).
  - reflexivity.
  - intros x e. unfold decimal.
    destruct x; [|destruct (digits_value _ 0)]; intros H; try discriminate;
      now injection H as <-.
  - exists "many"%string. eexists. split; [right; now left | reflexivity].
Defined.

(** X13 at the stats of the test script, in a quiet channel with no
    spies file. *)
Lemma add_spy_then_enemy_stats_witness :
  exists record shown,
    Commands.add_spy decimal no_float_format no_container_str 0%float "2025-01-01 00:00:00"
      "12345" "1000000" "800000" "700000" "500000" quiet
      = (Ret tt,
         Commands.Bot (Json (VDict [("12345", record)]))
           [Commands.Embedded
              (Commands.Embed "Spy Data Added for Player 12345" shown Commands.Green [])]) /\
    exists confidence shown',
      Commands.enemy_stats decimal no_float_format no_container_str no_libm 86400%float
        "12345" "" "" "" (Commands.Bot (Json (VDict [("12345", record)])) [])
        = (Ret tt,
           Commands.Bot (Json (VDict [("12345", record)]))
             [Commands.Embedded
                (Commands.Embed "Spy Data for Player 12345" shown'
                   (Commands._get_color_for_confidence confidence) [])]).
Proof.
  destruct (add_spy_then_enemy_stats decimal no_float_format no_container_str no_libm
              0%float "2025-01-01 00:00:00" "12345" "1000000" "800000" "700000" "500000"
              1000000 800000 700000 500000 [] quiet
              eq_refl eq_refl eq_refl eq_refl eq_refl eq_refl)
    as (record & shown & Eadd & _ & Hlater).
  exists record, shown. split; [exact Eadd|].
  destruct (Hlater 86400%float ""%string ""%string ""%string
              (Commands.Bot (Json (VDict [("12345", record)])) []) eq_refl)
    as (confidence & shown' & _ & _ & E).
  exists confidence, shown'. exact E.
Defined.

(** X15 at the document that wraps [four_stats] under ['user']. *)
Lemma normalizer_is_idempotent_witness :
  _normalize_tornstats_data (VDict [("user", VDict four_stats)]) = Ret sample_record /\
  _normalize_tornstats_data sample_record = Ret sample_record.
Proof.
  assert (_normalize_tornstats_data (VDict [("user", VDict four_stats)]) = Ret sample_record)
    as E by reflexivity.
  split; [exact E|].
  exact (normalizer_is_idempotent _ _ E).
Defined.

(** X16 at a body whose ['user'] is a number. *)
Lemma normalizer_raises_on_fields_that_are_no_dict_witness :
  has_key "spy" [("user", VInt 5)] = false /\
  isinstance_dict (VInt 5) = false /\
  exists e, _normalize_tornstats_data (VDict [("user", VInt 5)]) = Raise e /\
            is_class AttributeError e = true.
Proof.
  split; [reflexivity|]. split; [reflexivity|].
  destruct (normalizer_raises_on_fields_that_are_no_dict [("user", VInt 5)])
    as (Honly & Hraises).
  destruct (Hraises (VInt 5) eq_refl eq_refl (or_introl eq_refl)) as (e & E & _).
  exists e. split; [exact E|]. exact (proj1 (Honly e E)).
Defined.

(** X17 at a fresh adapter and a host that cannot be reached: the call
    returns [None] and the cache has no entry for the player. *)
Lemma negative_results_are_not_cached_witness :
  let out := run unreachable (PidStr "1") fresh in
  out = (Ret VNone, snd out) /\
  truthy_entries (cache fresh) /\
  cache (snd out) !! cache_key (PidStr "1") = None.
Proof.
  set (out := run unreachable (PidStr "1") fresh).
  assert (out = (Ret VNone, snd out)) as E by (vm_compute; reflexivity).
  assert (truthy_entries (cache fresh)) as Hinv.
  { intros key entry H. simpl in H. rewrite lookup_empty in H. discriminate. }
  split; [exact E|]. split; [exact Hinv|].
  destruct (negative_results_are_not_cached unreachable unit no_parser no_profile no_spy
              no_json (PidStr "1") fresh VNone (snd out) E Hinv) as (_ & Hnone).
  now apply Hnone.
Defined.

(** X18 at an adapter whose cache holds player 7: a call for player 1
    leaves that entry alone. *)
Lemma get_player_data_keeps_other_entries_witness :
  py_str (PidStr "7") <> py_str (PidStr "1") /\
  cache (snd (run unreachable (PidStr "1") (cached_at 5000%float))) !! cache_key (PidStr "7")
    = cache (cached_at 5000%float) !! cache_key (PidStr "7").
Proof.
  assert (py_str (PidStr "7") <> py_str (PidStr "1")) as Hne by discriminate.
  split; [exact Hne|].
  exact (proj1 (proj2 (get_player_data_keeps_other_entries unreachable unit no_parser
                         no_profile no_spy no_json (PidStr "1") (cached_at 5000%float)))
           (PidStr "7") Hne).
Defined.

(** X20 at an adapter that was used, then closed. *)
Lemma adapter_is_usable_after_close_witness :
  truthy (cached_value (cache_key (PidStr "1")) ready_with_key) = false /\
  session (snd (close ready_with_key)) = ClosedSession /\
  run unreachable (PidStr "1") (snd (close ready_with_key))
    = run unreachable (PidStr "1") ready_with_key /\
  session (snd (run unreachable (PidStr "1") ready_with_key)) = OpenSession.
Proof.
  split; [reflexivity|]. split; [reflexivity|].
  destruct (adapter_is_usable_after_close unreachable unit no_parser no_profile no_spy
              no_json (PidStr "1") ready_with_key) as (_ & Hfst & _ & _ & _ & Hmiss).
  destruct (Hmiss eq_refl) as (Hsnd & Hopen).
  split; [|exact Hopen].
  unfold run. rewrite (surjective_pairing (get_player_data _ _ _ _ _ _ _ (snd _))).
  rewrite Hfst, Hsnd. symmetry. apply surjective_pairing.
Defined.

(** X21 at a host whose first page is missing and whose second page
    holds the stats: two requests, and the record of the second page. *)
Lemma profile_pages_are_tried_in_order_witness :
  session ready = OpenSession /\
  exists before x,
    _parse_html_profile (one_page "https://www.tornstats.com/player.php?id=1")
      unit any_document found_stats (PidStr "1") ready
      = (Ret (spy_dict (VStr "Duke") (VInt 42) (VInt 1000000) (VInt 500000)
                (VInt 800000) (VInt 700000) (VStr "HTML Extraction") (VStr "HTML")),
         snd (_parse_html_profile (one_page "https://www.tornstats.com/player.php?id=1")
                unit any_document found_stats (PidStr "1") ready)) /\
    trace (snd (_parse_html_profile (one_page "https://www.tornstats.com/player.php?id=1")
                  unit any_document found_stats (PidStr "1") ready))
      = trace ready ++ before ++ [x] /\
    map (fun y => url (sent y)) (before ++ [x])
      = ["https://www.tornstats.com/profiles/1";
         "https://www.tornstats.com/player.php?id=1"] /\
    Forall (fun y => page_yield unit any_document found_stats "1" (got y) = None) before.
Proof.
  split; [reflexivity|].
  destruct (profile_pages_are_tried_in_order
              (one_page "https://www.tornstats.com/player.php?id=1")
              unit any_document found_stats (PidStr "1") ready eq_refl)
    as (v & w' & before & x & E & Hv & Hwalk & Htr & Hsent & Hlen & Hnone & Hlast & _).
  exists before, x. rewrite E. cbn [snd].
  split; [rewrite Hv; vm_compute; reflexivity|]. split; [exact Htr|]. split; [|exact Hnone].
  rewrite Hwalk in Htr. vm_compute in Htr.
  destruct before as [|b0 [|b1 before]]; [discriminate | |].
  - injection Htr as <- <-. reflexivity.
  - injection Htr as _ _ Htr. now destruct before.
Defined.

(** X22 at a host that answers every request with a page: the login
    request, then the spy request with the cookie of the login reply. *)
Lemma authenticated_flow_requests_witness :
  session ready_with_key = OpenSession /\
  usable_key ready_with_key = Some "k3y"%string /\
  exists v w',
    _try_authenticated_access (always_page "") unit no_parser no_spy no_json
      (PidStr "1") ready_with_key = (Ret v, w') /\
    map sent (trace w')
      = [login_request "k3y"; spy_request "1" [("session", "abc")]]%string.
Proof.
  split; [reflexivity|]. split; [reflexivity|].
  destruct (proj2 (authenticated_flow_requests (always_page "") unit no_parser no_spy no_json
                     (PidStr "1") ready_with_key) "k3y"%string eq_refl eq_refl)
    as (v & w' & E & Htr).
  exists v, w'. split; [exact E|].
  cbn [got next_exchange always_page fst] in Htr. rewrite Htr. reflexivity.
Defined.

(** X23 at a fresh adapter without credential. *)
Lemma without_credential_only_profile_pages_witness :
  usable_key fresh = None /\
  truthy (cached_value (cache_key (PidStr "1")) fresh) = false /\
  exists v w' l n,
    run unreachable (PidStr "1") fresh = (Ret v, w') /\
    trace w' = trace fresh ++ l /\
    map sent l = firstn n (map profile_request (profile_urls "1")) /\
    (1 <= n <= 4)%nat.
Proof.
  split; [reflexivity|]. split; [reflexivity|].
  exact (without_credential_only_profile_pages unreachable unit no_parser no_profile no_spy
           no_json (PidStr "1") fresh eq_refl eq_refl).
Defined.

(** X24 at a page whose embedded document has a semicolon inside a
    string: the text handed to [json.loads] stops there. *)
Lemma embedded_literal_edges_witness :
  let html := "var playerData = {'name': 'a;b'};"%string in
  String.index 0 start_marker html = Some 0%nat /\
  String.index 17 ";" html = Some 28%nat /\
  strip (substring 17 (28 - 17) html) = "{'name': 'a"%string /\
  _extract_json_from_html no_json html fresh
    = (Ret VNone,
       add_log WARNING "Failed to extract JSON from HTML: Expecting value" fresh).
Proof.
  set (html := "var playerData = {'name': 'a;b'};"%string).
  split; [reflexivity|]. split; [reflexivity|]. split; [reflexivity|].
  exact (proj2 (proj2 (proj2 (embedded_literal_edges no_json html fresh))
                  0%nat 28%nat eq_refl eq_refl)).
Defined.

(** X25 at a host whose first endpoint serves the stats of player 7:
    one request, to that endpoint. *)
Lemma strategies_run_in_order_witness :
  let net := always_json (VDict [("user", VDict four_stats)]) in
  usable_key fresh_with_key = Some "k3y"%string /\
  truthy (cached_value (cache_key (PidStr "7")) fresh_with_key) = false /\
  exists w',
    run net (PidStr "7") fresh_with_key = (Ret sample_record, w') /\
    map sent (trace w') = [bearer_request "k3y" "https://www.tornstats.com/api/v1/player/7"].
Proof.
  set (net := always_json (VDict [("user", VDict four_stats)])).
  split; [reflexivity|]. split; [reflexivity|].
  destruct (strategies_run_in_order net unit no_parser no_profile no_spy no_json
              (PidStr "7") "k3y" fresh_with_key eq_refl eq_refl) as (v & w' & E & H).
  cbv zeta in H.
  assert (first_hit net (api_requests "k3y" (py_str (PidStr "7"))) (trace fresh_with_key)
          = (Some sample_record,
             [Exchange (bearer_request "k3y" "https://www.tornstats.com/api/v1/player/7")
                (Responds (Response 200 (Ret ""%string)
                             (Ret (VDict [("user", VDict four_stats)])) []))
                1%float])) as Ewalk by (vm_compute; reflexivity).
  rewrite Ewalk in H. cbn [fst snd] in H. destruct H as (-> & Htr).
  exists w'. split; [exact E|]. rewrite Htr. reflexivity.
Defined.

(** X26 at two calls for the same player, the second under the int
    12345: the second record is the one read back. *)
Lemma spy_store_is_a_map_witness :
  let first := Spec.SpyCall "2025-01-01T00:00:00" 0%float "2025-01-01 00:00:00"
                 test_player 1 2 3 4 in
  let second := Spec.SpyCall "2025-01-02T00:00:00" 86400%float "2025-01-02 00:00:00"
                  (PidInt 12345) 5 6 7 8 in
  Spec.store_of NoFile = Some [] /\
  fst (Backup.get_spy_data test_player (Spec.backup_after [first; second] NoFile))
    = Ret (Spec.backup_record second) /\
  fst (BotPackage.get_spy_data test_player (Spec.bot_after [first; second] NoFile))
    = Ret (Spec.bot_record second).
Proof.
  set (first := Spec.SpyCall "2025-01-01T00:00:00" 0%float "2025-01-01 00:00:00"
                  test_player 1 2 3 4).
  set (second := Spec.SpyCall "2025-01-02T00:00:00" 86400%float "2025-01-02 00:00:00"
                   (PidInt 12345) 5 6 7 8).
  split; [reflexivity|].
  destruct (spy_store_is_a_map [first; second] NoFile [] test_player eq_refl) as (E1 & E2).
  assert (Spec.last_call (py_str test_player) [first; second] = Some second) as Elast
    by (vm_compute; reflexivity).
  rewrite Elast in E1, E2. split; [exact E1 | exact E2].
Defined.

(** X27 at two calls, for players 1 and 7, against a host that serves
    the same stats to every request. *)
Lemma adapter_keeps_its_invariants_witness :
  let net := always_json (VDict [("user", VDict four_stats)]) in
  let w := after_calls net unit no_parser no_profile no_spy no_json
             [(0%float, PidStr "1"); (5%float, PidStr "7")]
             (__init__ (Some "k3y"%string) None 0%float) in
  api_key w = Some "k3y"%string /\
  cache w !! "player_7"%string = Some (CacheEntry sample_record 1%float) /\
  forallb to_tornstats (trace w) = true /\
  (length (trace w) <= 24)%nat.
Proof.
  set (net := always_json (VDict [("user", VDict four_stats)])).
  destruct (adapter_keeps_its_invariants net unit no_parser no_profile no_spy no_json
              [(0%float, PidStr "1"); (5%float, PidStr "7")] (Some "k3y"%string) None 0%float)
    as (Hkey & _ & _ & Hall & Hlen).
  split; [exact Hkey|]. split; [vm_compute; reflexivity|].
  split; [exact Hall | exact Hlen].
Defined.

(** X28 at an estimate asked for with zero turns, with no spies file:
    the answer is an estimate of 0. *)
Lemma enemy_stats_without_record_witness :
  let run :=
    Commands.enemy_stats decimal no_float_format no_container_str no_libm 0%float
      "12345" "100" "0" "5000" quiet in
  Commands.given "12345" = true /\
  Spec.store_of (Commands.spies quiet) = Some [] /\
  decimal "0" = Ret 0 /\
  fst run = Ret tt /\
  Commands.outbox (snd run) =
    [Commands.Embedded
       (Commands.Embed "Estimated Stats for Player 12345"
          ("**Estimated Primary:** 0" ++ nl ++ "**Estimated Total:** 0" ++ nl ++
           "Confidence: LOW")
          Commands.Yellow
          [("Calculation Details",
            "Based on 100 damage over 0 turns with your 5,000 primary stat", true)])]%string.
Proof.
  cbv zeta. split; [reflexivity|]. split; [reflexivity|]. split; [reflexivity|].
  destruct (proj2 (enemy_stats_without_record decimal no_float_format no_container_str
                     no_libm 0%float "12345" "100" "0" "5000" [] quiet
                     eq_refl eq_refl eq_refl)
              100 0 5000 eq_refl eq_refl eq_refl eq_refl (Z.le_refl 0))
    as [(Hret & Hout) | (e & E & _)].
  - split; [exact Hret|]. rewrite Hout. vm_compute. reflexivity.
  - vm_compute in E. discriminate.
Defined.

End MoreRuns.
